(** * Point of sale: stock engine, sale pipeline and analytics

    A shallow embedding of the TypeScript sources
      - [src/services/localStorageService.ts] (ProductService,
        StockLogService, DashboardService, SaleService and
        StockTransferService, in the multi-store version of the file),
      - the CashierView component (handleScan and the other cart handlers,
        cartTotal and handlePaymentComplete),
      - the AnalyticsDashboard page (filteredSales, analytics, topProducts,
        forecast, RestockRecommendations),
    the properties of the design document that talk about them, and
    further contracts and invariants of the same code.

    Conventions of the embedding:
      - amounts of money ([price], [total], [amountPaid], ...) are exact
        rationals [Q], so sums and differences are exact and [NaN] does not
        occur; stock levels and quantities are integers [Z];
      - where a property depends on how sums of amounts round, the ledger
        and the function are embedded a second time with the amounts as
        the program has them, IEEE 754 doubles (module [Double]);
      - [localStorage] is a record with one list per storage key; a missing
        key reads as the empty array, as [JSON.parse(... || '[]')] does, and
        every read yields a fresh copy, so a service changes the storage
        only where it calls [setItem];
      - [Date.now()], [new Date().toISOString()] and [Math.random()] are
        inputs of the operations (record [Env]); the calls of one operation
        read the same instant;
      - a service method is a function from the storage to a result and the
        storage after the call. *)

From Stdlib Require Import PrimFloat.
From Stdlib Require Import List String Ascii ZArith QArith Bool Lia.
From Stdlib Require Import Permutation Sorted DecimalString Lqa.
Import ListNotations.

Open Scope string_scope.
Open Scope Z_scope.

(* ------------------------------------------------------------------ *)
(** ** JavaScript helpers *)

Module Js.

(** [Array.prototype.findIndex]; [None] stands for [-1]. *)
Fixpoint findIndex {A : Type} (f : A -> bool) (l : list A) : option nat :=
  match l with
  | [] => None
  | x :: l' =>
      if f x then Some O
      else match findIndex f l' with
           | Some i => Some (S i)
           | None => None
           end
  end.

(** [arr[i] = g(arr[i])] for an index inside the array. *)
Fixpoint updateAt {A : Type} (i : nat) (g : A -> A) (l : list A) : list A :=
  match l, i with
  | [], _ => []
  | x :: l', O => g x :: l'
  | x :: l', S j => x :: updateAt j g l'
  end.

(** Mutation through the reference returned by [Array.prototype.find]:
    the first element that satisfies [f] is replaced by [g] of it. *)
Definition mutateFound {A : Type} (f : A -> bool) (g : A -> A)
    (l : list A) : list A :=
  match findIndex f l with
  | Some i => updateAt i g l
  | None => l
  end.

(** Template-literal rendering of an integer. *)
Definition showZ (z : Z) : string := NilZero.string_of_int (Z.to_int z).

Definition digit36 (d : N) : ascii :=
  if (d <? 10)%N then ascii_of_N (48 + d) else ascii_of_N (87 + d).

Fixpoint toString36_aux (fuel : nat) (n : N) (acc : string) : string :=
  match fuel with
  | O => acc
  | S fuel' =>
      let acc' := String (digit36 (n mod 36)) acc in
      if (n / 36 =? 0)%N then acc' else toString36_aux fuel' (n / 36) acc'
  end.

(** [n.toString(36)] for an integer [n]. *)
Definition toString36 (z : Z) : string :=
  let body := toString36_aux (S (N.to_nat (N.log2 (Z.abs_N z))))
                (Z.abs_N z) "" in
  if z <? 0 then "-" ++ body else body.

Definition upperAscii (c : ascii) : ascii :=
  let n := N_of_ascii c in
  if ((97 <=? n) && (n <=? 122))%N then ascii_of_N (n - 32) else c.

Fixpoint toUpperCase (s : string) : string :=
  match s with
  | EmptyString => EmptyString
  | String c s' => String (upperAscii c) (toUpperCase s')
  end.

(** [a < b] on numbers that are rationals. *)
Definition Qltb (a b : Q) : bool := negb (Qle_bool b a).

End Js.

(* ------------------------------------------------------------------ *)
(** ** Data model ([types/product.ts]) *)

Inductive Category :=
  Electronics | Accessories | Peripherals | Storage_ | Furniture | Other.

Module Product.
Record t := mk {
  barcode : string;
  name : string;
  price : Q;
  stock : Z;
  category : Category
}.
Definition withStock (s : Z) (p : t) : t :=
  mk (barcode p) (name p) (price p) s (category p).
End Product.

(** [Partial<Omit<Product, 'barcode'>>], the argument of
    [ProductService.update]: [None] is a key that is absent.  A key that is
    present with the value [undefined] would store a product without that
    field and is outside the model. *)
Module ProductUpdates.
Record t := mk {
  name : option string;
  price : option Q;
  stock : option Z;
  category : option Category
}.
End ProductUpdates.

Module CartItem.
Record t := mk {
  product : Product.t;
  quantity : Z
}.
End CartItem.

Module StockLog.
Record t := mk {
  id : string;
  barcode : string;
  productName : string;
  previousStock : Z;
  newStock : Z;
  quantityAdded : Z;
  timestamp : string;
  performedBy : string
}.
End StockLog.

Inductive PaymentMethod := cash | mobile_money | card.

Module SaleItem.
Record t := mk {
  barcode : string;
  name : string;
  price : Q;
  quantity : Z;
  total : Q
}.
End SaleItem.

Module SaleRecord.
Record t := mk {
  id : string;
  receiptNumber : string;
  items : list SaleItem.t;
  subtotal : Q;
  tax : Q;
  total : Q;
  paymentMethod : PaymentMethod;
  amountPaid : Q;
  change : Q;
  cashierName : string;
  storeId : string;
  storeName : string;
  timestamp : string
}.
End SaleRecord.

Inductive TransferStatus := pending | completed | cancelled.

Module TransferStatus.
Definition eqb (a b : TransferStatus) : bool :=
  match a, b with
  | pending, pending | completed, completed | cancelled, cancelled => true
  | _, _ => false
  end.
End TransferStatus.

Module StockTransfer.
Record t := mk {
  id : string;
  fromStoreId : string;
  toStoreId : string;
  fromStoreName : string;
  toStoreName : string;
  barcode : string;
  productName : string;
  quantity : Z;
  status : TransferStatus;
  requestedBy : string;
  completedAt : option string;
  timestamp : string
}.
Definition withStatus (s : TransferStatus) (x : t) : t :=
  mk (id x) (fromStoreId x) (toStoreId x) (fromStoreName x) (toStoreName x)
     (barcode x) (productName x) (quantity x) s (requestedBy x)
     (completedAt x) (timestamp x).
Definition withCompletedAt (c : string) (x : t) : t :=
  mk (id x) (fromStoreId x) (toStoreId x) (fromStoreName x) (toStoreName x)
     (barcode x) (productName x) (quantity x) (status x) (requestedBy x)
     (Some c) (timestamp x).
End StockTransfer.

(** [Omit<StockTransfer, 'id' | 'timestamp'>], the argument of
    [StockTransferService.create]. *)
Module TransferRequest.
Record t := mk {
  fromStoreId : string;
  toStoreId : string;
  fromStoreName : string;
  toStoreName : string;
  barcode : string;
  productName : string;
  quantity : Z;
  status : TransferStatus;
  requestedBy : string;
  completedAt : option string
}.
End TransferRequest.

(* ------------------------------------------------------------------ *)
(** ** The ledger store and the environment *)

(** [localStorage], restricted to the keys the services below use. *)
Module Storage.
Record t := mk {
  pos_products : list Product.t;
  pos_stock_logs : list StockLog.t;
  pos_sales : list SaleRecord.t;
  pos_stock_transfers : list StockTransfer.t
}.
Definition setProducts (v : list Product.t) (s : t) : t :=
  mk v (pos_stock_logs s) (pos_sales s) (pos_stock_transfers s).
Definition setStockLogs (v : list StockLog.t) (s : t) : t :=
  mk (pos_products s) v (pos_sales s) (pos_stock_transfers s).
Definition setSales (v : list SaleRecord.t) (s : t) : t :=
  mk (pos_products s) (pos_stock_logs s) v (pos_stock_transfers s).
Definition setStockTransfers (v : list StockTransfer.t) (s : t) : t :=
  mk (pos_products s) (pos_stock_logs s) (pos_sales s) v.
End Storage.

(** What one call reads from the clock and the random generator. *)
Module Env.
Record t := mk {
  now : Z;                (* Date.now() / date.getTime() *)
  isoNow : string;        (* new Date().toISOString() *)
  random36 : string       (* Math.random().toString(36) *)
}.
End Env.

(** [{ success: boolean; error?: string }] *)
Module Result.
Record t := mk {
  success : bool;
  error : option string
}.
Definition ok : t := mk true None.
Definition fail (msg : string) : t := mk false (Some msg).
End Result.

(** [{ success: boolean; sale?: SaleRecord; error?: string; change?: number }] *)
Module SaleResult.
Record t := mk {
  success : bool;
  sale : option SaleRecord.t;
  error : option string;
  change : option Q
}.
Definition fail (msg : string) : t := mk false None (Some msg) None.
End SaleResult.

(* ------------------------------------------------------------------ *)
(** ** ProductService *)

Module ProductService.

Definition getAll (st : Storage.t) : list Product.t :=
  Storage.pos_products st.

Definition hasBarcode (barcode : string) (p : Product.t) : bool :=
  String.eqb (Product.barcode p) barcode.

Definition findByBarcode (barcode : string) (st : Storage.t)
    : option Product.t :=
  find (hasBarcode barcode) (getAll st).

Definition restock (env : Env.t) (barcode : string) (quantity : Z)
    (performedBy : string) (st : Storage.t) : Result.t * Storage.t :=
  if quantity <=? 0 then (Result.fail "Quantity must be positive", st)
  else
    let products := getAll st in
    match find (hasBarcode barcode) products with
    | None => (Result.fail "Product not found", st)
    | Some product =>
        let previousStock := Product.stock product in
        let newStock := previousStock + quantity in
        (* product.stock = newStock, through the reference into products *)
        let products' :=
          Js.mutateFound (hasBarcode barcode)
            (Product.withStock newStock) products in
        let st1 := Storage.setProducts products' st in
        let log :=
          StockLog.mk ("log-" ++ Js.showZ (Env.now env)) barcode
            (Product.name product) previousStock newStock quantity
            (Env.isoNow env) performedBy in
        let logs := Storage.pos_stock_logs st1 in
        (Result.ok, Storage.setStockLogs (log :: logs) st1)
    end.

(** [!products.some((p) => p.barcode === barcode &&
                              p.barcode !== excludeBarcode)] *)
Definition isBarcodeUnique (barcode : string) (excludeBarcode : option string)
    (st : Storage.t) : bool :=
  negb
    (existsb
       (fun p =>
          String.eqb (Product.barcode p) barcode
          && negb (match excludeBarcode with
                   | Some e => String.eqb (Product.barcode p) e
                   | None => false
                   end))
       (getAll st)).

Definition add (product : Product.t) (st : Storage.t)
    : Result.t * Storage.t :=
  if negb (isBarcodeUnique (Product.barcode product) None st) then
    (Result.fail "Barcode already exists", st)
  else if Qle_bool (Product.price product) 0 then
    (Result.fail "Price must be positive", st)
  else if Product.stock product <? 0 then
    (Result.fail "Stock cannot be negative", st)
  else
    let products := getAll st in
    (Result.ok, Storage.setProducts (products ++ [product])%list st).

(** [{ ...products[index], ...updates }] *)
Definition applyUpdates (updates : ProductUpdates.t) (p : Product.t)
    : Product.t :=
  Product.mk (Product.barcode p)
    (match ProductUpdates.name updates with
     | Some v => v | None => Product.name p end)
    (match ProductUpdates.price updates with
     | Some v => v | None => Product.price p end)
    (match ProductUpdates.stock updates with
     | Some v => v | None => Product.stock p end)
    (match ProductUpdates.category updates with
     | Some v => v | None => Product.category p end).

Definition update (barcode : string) (updates : ProductUpdates.t)
    (st : Storage.t) : Result.t * Storage.t :=
  let products := getAll st in
  match Js.findIndex (hasBarcode barcode) products with
  | None => (Result.fail "Product not found", st)
  | Some index =>
      if match ProductUpdates.price updates with
         | Some v => Qle_bool v 0
         | None => false
         end
      then (Result.fail "Price must be positive", st)
      else if match ProductUpdates.stock updates with
              | Some v => v <? 0
              | None => false
              end
      then (Result.fail "Stock cannot be negative", st)
      else
        (Result.ok,
         Storage.setProducts (Js.updateAt index (applyUpdates updates) products)
           st)
  end.

Definition delete (barcode : string) (st : Storage.t)
    : Result.t * Storage.t :=
  let products := getAll st in
  let filtered :=
    filter (fun p => negb (String.eqb (Product.barcode p) barcode)) products in
  if (List.length filtered =? List.length products)%nat then
    (Result.fail "Product not found", st)
  else (Result.ok, Storage.setProducts filtered st).

End ProductService.

(* ------------------------------------------------------------------ *)
(** ** StockLogService and DashboardService *)

Module StockLogService.

Definition getAll (st : Storage.t) : list StockLog.t :=
  Storage.pos_stock_logs st.

Definition getByBarcode (barcode : string) (st : Storage.t)
    : list StockLog.t :=
  filter (fun log => String.eqb (StockLog.barcode log) barcode) (getAll st).

(** [logs.slice(0, limit)]: a negative [limit] counts from the end. *)
Definition getRecent (limit : Z) (st : Storage.t) : list StockLog.t :=
  let logs := getAll st in
  let len := Z.of_nat (List.length logs) in
  let final := if limit <? 0 then Z.max (len + limit) 0 else Z.min limit len in
  firstn (Z.to_nat final) logs.

End StockLogService.

Module DashboardStats.
Record t := mk {
  totalProducts : Z;
  inStockProducts : Z;
  outOfStockProducts : Z;
  lowStockProducts : Z
}.
End DashboardStats.

Module DashboardService.

Definition countWhere (f : Product.t -> bool) (products : list Product.t)
    : Z :=
  Z.of_nat (List.length (filter f products)).

Definition getStats (st : Storage.t) : DashboardStats.t :=
  let products := ProductService.getAll st in
  let LOW_STOCK_THRESHOLD := 5 in
  DashboardStats.mk
    (Z.of_nat (List.length products))
    (countWhere (fun p => Product.stock p >? 0) products)
    (countWhere (fun p => Product.stock p =? 0) products)
    (countWhere (fun p => (Product.stock p >? 0)
                          && (Product.stock p <? LOW_STOCK_THRESHOLD))
       products).

Definition getLowStockProducts (threshold : Z) (st : Storage.t)
    : list Product.t :=
  filter (fun p => (Product.stock p >? 0) && (Product.stock p <? threshold))
    (ProductService.getAll st).

Definition getOutOfStockProducts (st : Storage.t) : list Product.t :=
  filter (fun p => Product.stock p =? 0) (ProductService.getAll st).

End DashboardService.

(* ------------------------------------------------------------------ *)
(** ** SaleService *)

Module SaleService.

Definition generateReceiptNumber (env : Env.t) : string :=
  let prefix := "RCP" in
  let timestamp := Js.toUpperCase (Js.toString36 (Env.now env)) in
  let random := Js.toUpperCase (substring 2 3 (Env.random36 env)) in
  prefix ++ "-" ++ timestamp ++ "-" ++ random.

(** [items.reduce((sum, item) => sum + item.total, 0)] *)
Definition sumTotals (items : list SaleItem.t) : Q :=
  fold_left (fun sum item => (sum + SaleItem.total item)%Q) items 0%Q.

Definition taxRate : Q := 0%Q.

(** The first loop of [processSale]: the error message of the first line
    that cannot be served, if there is one. *)
Fixpoint checkStock (products : list Product.t) (items : list SaleItem.t)
    : option string :=
  match items with
  | [] => None
  | item :: rest =>
      match find (ProductService.hasBarcode (SaleItem.barcode item))
              products with
      | None => Some ("Product " ++ SaleItem.name item ++ " not found")
      | Some product =>
          if Product.stock product <? SaleItem.quantity item then
            Some ("Insufficient stock for " ++ SaleItem.name item
                  ++ ". Available: " ++ Js.showZ (Product.stock product))
          else checkStock products rest
      end
  end.

(** One round of the second loop:
    [products[productIndex].stock -= item.quantity]. *)
Definition deductItem (products : list Product.t) (item : SaleItem.t)
    : list Product.t :=
  match Js.findIndex (ProductService.hasBarcode (SaleItem.barcode item))
          products with
  | Some productIndex =>
      Js.updateAt productIndex
        (fun p => Product.withStock
                    (Product.stock p - SaleItem.quantity item) p)
        products
  | None => products
  end.

Definition deductStock (products : list Product.t)
    (items : list SaleItem.t) : list Product.t :=
  fold_left deductItem items products.

Definition processSale (env : Env.t) (items : list SaleItem.t)
    (paymentMethod : PaymentMethod) (amountPaid : Q)
    (cashierName storeId storeName : string) (st : Storage.t)
    : SaleResult.t * Storage.t :=
  if (List.length items =? 0)%nat then (SaleResult.fail "No items in cart", st)
  else
    let subtotal := sumTotals items in
    let tax := (subtotal * taxRate)%Q in
    let total := (subtotal + tax)%Q in
    if Js.Qltb amountPaid total then
      (SaleResult.fail "Insufficient payment amount", st)
    else
      let change := (amountPaid - total)%Q in
      let products := ProductService.getAll st in
      match checkStock products items with
      | Some msg => (SaleResult.fail msg, st)
      | None =>
          let products' := deductStock products items in
          let st1 := Storage.setProducts products' st in
          let sale :=
            SaleRecord.mk ("sale-" ++ Js.showZ (Env.now env))
              (generateReceiptNumber env) items subtotal tax total
              paymentMethod amountPaid change cashierName storeId
              storeName (Env.isoNow env) in
          let sales := Storage.pos_sales st1 in
          (SaleResult.mk true (Some sale) None (Some change),
           Storage.setSales (sale :: sales) st1)
      end.

Definition getAll (st : Storage.t) : list SaleRecord.t :=
  Storage.pos_sales st.

Definition getByStore (storeId : string) (st : Storage.t)
    : list SaleRecord.t :=
  filter (fun sale => String.eqb (SaleRecord.storeId sale) storeId)
    (getAll st).

Definition getByReceiptNumber (receiptNumber : string) (st : Storage.t)
    : option SaleRecord.t :=
  find (fun s => String.eqb (SaleRecord.receiptNumber s) receiptNumber)
    (getAll st).

End SaleService.

(* ------------------------------------------------------------------ *)
(** ** StockTransferService *)

Module StockTransferService.

Definition getAll (st : Storage.t) : list StockTransfer.t :=
  Storage.pos_stock_transfers st.

Definition hasId (transferId : string) (x : StockTransfer.t) : bool :=
  String.eqb (StockTransfer.id x) transferId.

(** [{ ...transfer, id: `transfer-${Date.now()}`, timestamp: ... }] *)
Definition create (env : Env.t) (transfer : TransferRequest.t)
    (st : Storage.t) : Result.t * Storage.t :=
  let newTransfer :=
    StockTransfer.mk ("transfer-" ++ Js.showZ (Env.now env))
      (TransferRequest.fromStoreId transfer)
      (TransferRequest.toStoreId transfer)
      (TransferRequest.fromStoreName transfer)
      (TransferRequest.toStoreName transfer)
      (TransferRequest.barcode transfer)
      (TransferRequest.productName transfer)
      (TransferRequest.quantity transfer)
      (TransferRequest.status transfer)
      (TransferRequest.requestedBy transfer)
      (TransferRequest.completedAt transfer)
      (Env.isoNow env) in
  let transfers := getAll st in
  (Result.ok, Storage.setStockTransfers (transfers ++ [newTransfer])%list st).

Definition getPendingForStore (storeId : string) (st : Storage.t)
    : list StockTransfer.t :=
  filter (fun x => String.eqb (StockTransfer.toStoreId x) storeId
                   && TransferStatus.eqb (StockTransfer.status x) pending)
    (getAll st).

Definition getInitiatedByStore (storeId : string) (st : Storage.t)
    : list StockTransfer.t :=
  filter (fun x => String.eqb (StockTransfer.fromStoreId x) storeId)
    (getAll st).

Definition complete (env : Env.t) (transferId : string) (st : Storage.t)
    : Result.t * Storage.t :=
  let transfers := getAll st in
  match Js.findIndex (hasId transferId) transfers with
  | None => (Result.fail "Transfer not found", st)
  | Some index =>
      match nth_error transfers index with
      | None => (Result.fail "Transfer not found", st)
          (* not reached: [index] comes from [findIndex] *)
      | Some found =>
          if negb (TransferStatus.eqb (StockTransfer.status found) pending)
          then (Result.fail "Transfer is not pending", st)
          else
            let transfers' :=
              Js.updateAt index
                (fun x => StockTransfer.withCompletedAt (Env.isoNow env)
                            (StockTransfer.withStatus completed x))
                transfers in
            (Result.ok, Storage.setStockTransfers transfers' st)
      end
  end.

Definition cancel (transferId : string) (st : Storage.t)
    : Result.t * Storage.t :=
  let transfers := getAll st in
  match Js.findIndex (hasId transferId) transfers with
  | None => (Result.fail "Transfer not found", st)
  | Some index =>
      match nth_error transfers index with
      | None => (Result.fail "Transfer not found", st)
          (* not reached: [index] comes from [findIndex] *)
      | Some found =>
          if negb (TransferStatus.eqb (StockTransfer.status found) pending)
          then (Result.fail "Can only cancel pending transfers", st)
          else
            let transfers' :=
              Js.updateAt index (StockTransfer.withStatus cancelled)
                transfers in
            (Result.ok, Storage.setStockTransfers transfers' st)
      end
  end.

End StockTransferService.

(* ------------------------------------------------------------------ *)
(** ** CashierView: the cart handlers

    The component state [cart] starts as the empty array and is only
    replaced through [setCart].  A handler is modelled as a function from
    the cart at the time of the event to the notifications it shows and
    the cart after it; the [cart] captured by the handler and the
    [prevCart] given to its updater are that same cart. *)

Module CashierView.

Inductive NotificationType := success | error.

Record Notification := notify {
  message : string;
  type : NotificationType
}.

Definition itemHasBarcode (barcode : string) (item : CartItem.t) : bool :=
  String.eqb (Product.barcode (CartItem.product item)) barcode.

Definition handleScan (st : Storage.t) (barcode : string)
    (cart : list CartItem.t) : Notification * list CartItem.t :=
  match ProductService.findByBarcode barcode st with
  | None =>
      (notify "Product not registered! Please check the barcode." error,
       cart)
  | Some product =>
      match find (itemHasBarcode barcode) cart with
      | Some existingItem =>
          if CartItem.quantity existingItem >=? Product.stock product then
            (notify ("Cannot add more " ++ Product.name product
                     ++ ". Only " ++ Js.showZ (Product.stock product)
                     ++ " in stock!") error,
             cart)
          else
            (notify ("Added one more " ++ Product.name product
                     ++ " to cart") success,
             map (fun item =>
                    if itemHasBarcode barcode item then
                      CartItem.mk (CartItem.product item)
                        (CartItem.quantity item + 1)
                    else item)
                 cart)
      | None =>
          if Product.stock product =? 0 then
            (notify (Product.name product ++ " is out of stock!") error,
             cart)
          else
            (notify (Product.name product ++ " added to cart") success,
             (cart ++ [CartItem.mk product 1])%list)
      end
  end.

(** The updater of [handleUpdateQuantity]: [null] is [None]. *)
Definition updateItem (barcode : string) (delta : Z) (item : CartItem.t)
    : option CartItem.t :=
  if itemHasBarcode barcode item then
    let newQuantity := CartItem.quantity item + delta in
    if newQuantity <=? 0 then None
    else if newQuantity >? Product.stock (CartItem.product item) then
      Some item
    else Some (CartItem.mk (CartItem.product item) newQuantity)
  else Some item.

Fixpoint dropNull {A : Type} (l : list (option A)) : list A :=
  match l with
  | [] => []
  | Some x :: l' => x :: dropNull l'
  | None :: l' => dropNull l'
  end.

Definition handleUpdateQuantity (barcode : string) (delta : Z)
    (cart : list CartItem.t) : list CartItem.t :=
  dropNull (map (updateItem barcode delta) cart).

Definition handleRemove (barcode : string) (cart : list CartItem.t)
    : list CartItem.t :=
  filter (fun item => negb (itemHasBarcode barcode item)) cart.

(** The carts the component can hold: the initial state and what the
    handlers make of a cart; the storage may have changed between two
    events. *)
Inductive CartState : list CartItem.t -> Prop :=
| cart_initial : CartState []
| cart_scan st barcode cart :
    CartState cart -> CartState (snd (handleScan st barcode cart))
| cart_update barcode delta cart :
    CartState cart -> CartState (handleUpdateQuantity barcode delta cart)
| cart_remove barcode cart :
    CartState cart -> CartState (handleRemove barcode cart).

(** The error signals of the design document. *)
Definition NotRegistered : Notification :=
  notify "Product not registered! Please check the barcode." error.
Definition StockLimitExceeded (product : Product.t) : Notification :=
  notify ("Cannot add more " ++ Product.name product ++ ". Only "
          ++ Js.showZ (Product.stock product) ++ " in stock!") error.
Definition OutOfStock (product : Product.t) : Notification :=
  notify (Product.name product ++ " is out of stock!") error.

(** [cartTotal], the total shown to the cashier and handed to the payment
    dialog. *)
Definition cartTotal (cart : list CartItem.t) : Q :=
  fold_left
    (fun sum item =>
       (sum + Product.price (CartItem.product item)
              * inject_Z (CartItem.quantity item))%Q)
    cart 0%Q.

(** The conversion of the cart lines in [handlePaymentComplete]. *)
Definition toSaleItems (cart : list CartItem.t) : list SaleItem.t :=
  map (fun item =>
         SaleItem.mk
           (Product.barcode (CartItem.product item))
           (Product.name (CartItem.product item))
           (Product.price (CartItem.product item))
           (CartItem.quantity item)
           (Product.price (CartItem.product item)
            * inject_Z (CartItem.quantity item))%Q)
      cart.

(** [handlePaymentComplete] for the store the view resolves: the result of
    [processSale], the cart afterwards (emptied on success) and the
    storage afterwards. *)
Definition handlePaymentComplete (env : Env.t)
    (paymentMethod : PaymentMethod) (amountPaid : Q)
    (cashierName storeId storeName : string) (st : Storage.t)
    (cart : list CartItem.t)
    : SaleResult.t * list CartItem.t * Storage.t :=
  let saleItems := toSaleItems cart in
  let r := SaleService.processSale env saleItems paymentMethod amountPaid
             cashierName storeId storeName st in
  let result := fst r in
  match SaleResult.success result, SaleResult.sale result with
  | true, Some _ => (result, [], snd r)
  | _, _ => (result, cart, snd r)
  end.

(** The carts the handlers build while the storage stays the same. *)
Inductive CartStateAt (st : Storage.t) : list CartItem.t -> Prop :=
| cart_at_initial : CartStateAt st []
| cart_at_scan barcode cart :
    CartStateAt st cart -> CartStateAt st (snd (handleScan st barcode cart))
| cart_at_update barcode delta cart :
    CartStateAt st cart ->
    CartStateAt st (handleUpdateQuantity barcode delta cart)
| cart_at_remove barcode cart :
    CartStateAt st cart -> CartStateAt st (handleRemove barcode cart).

End CashierView.

(* ------------------------------------------------------------------ *)
(** ** JavaScript numbers with infinities, objects used as maps, sort *)

(** A number that may be [Infinity]: what [daysRemaining] ranges over and
    what the comparator of the restock list subtracts. *)
Module Num.

Inductive t := Fin (q : Q) | Infinity | NegInfinity | NaN.

Definition sub (a b : t) : t :=
  match a, b with
  | NaN, _ | _, NaN => NaN
  | Fin x, Fin y => Fin (x - y)
  | Fin _, Infinity => NegInfinity
  | Fin _, NegInfinity => Infinity
  | Infinity, Infinity => NaN
  | Infinity, _ => Infinity
  | NegInfinity, NegInfinity => NaN
  | NegInfinity, _ => NegInfinity
  end.

(** [a < b] *)
Definition ltb (a b : t) : bool :=
  match a, b with
  | NaN, _ | _, NaN => false
  | Fin x, Fin y => Js.Qltb x y
  | Fin _, Infinity => true
  | Fin _, NegInfinity => false
  | Infinity, _ => false
  | NegInfinity, NegInfinity => false
  | NegInfinity, _ => true
  end.

(** [a <= b] as an order on numbers, for stating sortedness. *)
Definition le (a b : t) : Prop :=
  match a, b with
  | NaN, _ | _, NaN => False
  | Fin x, Fin y => (x <= y)%Q
  | Fin _, Infinity => True
  | Fin _, NegInfinity => False
  | Infinity, Infinity => True
  | Infinity, _ => False
  | NegInfinity, _ => True
  end.

(** [-a] *)
Definition neg (a : t) : t :=
  match a with
  | Fin q => Fin (- q)
  | Infinity => NegInfinity
  | NegInfinity => Infinity
  | NaN => NaN
  end.

End Num.

Module JsArray.
Section Sort.
Context {A : Type}.
Variable comparefn : A -> A -> Num.t.

(** [SortCompare]: the comparator says that [x] goes after [y] when its
    result is positive; a [NaN] result counts as [+0]. *)
Definition after (x y : A) : bool := Num.ltb (Num.Fin 0%Q) (comparefn x y).

Fixpoint insert (x : A) (l : list A) : list A :=
  match l with
  | [] => [x]
  | y :: l' => if after x y then y :: insert x l' else x :: y :: l'
  end.

(** [Array.prototype.sort(comparefn)]: the sort is stable, so for a
    comparator that is a consistent ordering the result is the one below,
    where an element goes before the later elements it ties with. *)
Definition sort (l : list A) : list A := fold_right insert [] l.

End Sort.
End JsArray.

(** ['price' | 'stock' | 'name' | 'category'] and ['asc' | 'desc']. *)
Inductive SortField := field_price | field_stock | field_name
                     | field_category.
Inductive SortOrder := asc | desc.

(** [ProductService.sort]. *)
Module ProductServiceSort.
Section WithLocale.

(** [a.localeCompare(b)] of the runtime, and the text of a category. *)
Variable localeCompare : string -> string -> Z.

Definition categoryText (c : Category) : string :=
  match c with
  | Electronics => "Electronics"
  | Accessories => "Accessories"
  | Peripherals => "Peripherals"
  | Storage_ => "Storage"
  | Furniture => "Furniture"
  | Other => "Other"
  end.

Definition comparison (field : SortField) (a b : Product.t) : Num.t :=
  match field with
  | field_price => Num.Fin (Product.price a - Product.price b)
  | field_stock => Num.Fin (inject_Z (Product.stock a - Product.stock b))
  | field_name =>
      Num.Fin (inject_Z (localeCompare (Product.name a) (Product.name b)))
  | field_category =>
      Num.Fin (inject_Z (localeCompare (categoryText (Product.category a))
                           (categoryText (Product.category b))))
  end.

Definition comparator (field : SortField) (order : SortOrder)
    (a b : Product.t) : Num.t :=
  match order with
  | asc => comparison field a b
  | desc => Num.neg (comparison field a b)
  end.

(** [[...products].sort(...)]: the argument is not changed. *)
Definition sort (products : list Product.t) (field : SortField)
    (order : SortOrder) : list Product.t :=
  JsArray.sort (comparator field order) products.

End WithLocale.
End ProductServiceSort.

(** A plain object used as [Record<string, V>]: the own properties in
    insertion order.  Keys that name a property inherited from
    [Object.prototype] are outside the model. *)
Module JsObject.

Definition isDigit (c : ascii) : bool :=
  ((48 <=? N_of_ascii c) && (N_of_ascii c <=? 57))%N.

Fixpoint parseDigits (s : string) (acc : N) : option N :=
  match s with
  | EmptyString => Some acc
  | String c s' =>
      if isDigit c then parseDigits s' (acc * 10 + (N_of_ascii c - 48))%N
      else None
  end.

(** The key is an array index: a canonical numeric string below
    [2^32 - 1]. *)
Definition arrayIndex (k : string) : option N :=
  match k with
  | EmptyString => None
  | String c s' =>
      if (Ascii.eqb c "0" && negb (String.eqb s' ""))%bool then None
      else match parseDigits k 0%N with
           | Some n => if (n <? 4294967295)%N then Some n else None
           | None => None
           end
  end.

(** The property names that every plain object inherits from
    [Object.prototype]; what they name (functions, and the prototype itself
    for [__proto__]) is truthy. *)
Definition inheritedNames : list string :=
  [ "constructor"; "hasOwnProperty"; "isPrototypeOf"; "propertyIsEnumerable";
    "toLocaleString"; "toString"; "valueOf"; "__proto__";
    "__defineGetter__"; "__defineSetter__"; "__lookupGetter__";
    "__lookupSetter__" ].

Definition inherited (k : string) : bool :=
  existsb (String.eqb k) inheritedNames.

(** What [o[k]] finds on an object created as [{}]. *)
Inductive Lookup (V : Type) :=
| Own (v : V)      (* a property of the object itself *)
| Inherited        (* a property of [Object.prototype] *)
| Undefined.       (* [undefined] *)
Arguments Own {V} v.
Arguments Inherited {V}.
Arguments Undefined {V}.

Section V.
Context {V : Type}.

Definition t := list (string * V).

(** [o[k]] among the properties of the object itself; it is all of [o[k]]
    where the keys are never inherited names (calendar days, hours). *)
Fixpoint get (k : string) (o : list (string * V)) : option V :=
  match o with
  | [] => None
  | (k', v) :: o' => if String.eqb k' k then Some v else get k o'
  end.

(** [o[k]] for any key: an own property shadows an inherited one. *)
Definition lookup (k : string) (o : list (string * V)) : Lookup V :=
  match get k o with
  | Some v => Own v
  | None => if inherited k then Inherited else Undefined
  end.

(** [o[k] = v]: an existing property keeps its place. *)
Fixpoint set (k : string) (v : V) (o : list (string * V))
    : list (string * V) :=
  match o with
  | [] => [(k, v)]
  | (k', v') :: o' =>
      if String.eqb k' k then (k, v) :: o' else (k', v') :: set k v o'
  end.

Definition isIndexKey (e : string * V) : bool :=
  match arrayIndex (fst e) with Some _ => true | None => false end.

Definition indexOf (e : string * V) : N :=
  match arrayIndex (fst e) with Some n => n | None => 0%N end.

Fixpoint insertByIndex (e : string * V) (l : list (string * V))
    : list (string * V) :=
  match l with
  | [] => [e]
  | e' :: l' =>
      if (indexOf e <=? indexOf e')%N then e :: e' :: l'
      else e' :: insertByIndex e l'
  end.

(** [OrdinaryOwnPropertyKeys]: array-index keys in ascending numeric
    order, then the other string keys in insertion order. *)
Definition ownEntries (o : list (string * V)) : list (string * V) :=
  (fold_right insertByIndex [] (filter isIndexKey o)
   ++ filter (fun e => negb (isIndexKey e)) o)%list.

(** [Object.values(o)] *)
Definition values (o : list (string * V)) : list V :=
  map snd (ownEntries o).

End V.
End JsObject.

(* ------------------------------------------------------------------ *)
(** ** SaleService: date ranges and daily totals *)

Module PaymentStats.
Record t := mk {
  count : Z;
  amount : Q
}.
End PaymentStats.

Module DailyTotals.
Record t := mk {
  totalSales : Z;
  totalRevenue : Q;
  totalItems : Z;
  byPaymentMethod : PaymentMethod -> PaymentStats.t
}.
End DailyTotals.

Module PaymentMethod.
Definition eqb (a b : PaymentMethod) : bool :=
  match a, b with
  | cash, cash | mobile_money, mobile_money | card, card => true
  | _, _ => false
  end.
End PaymentMethod.

Module SaleServiceDates.
Section WithDates.

(** The time value of [new Date(timestamp)]; [None] for an invalid date,
    which compares false with everything. *)
Variable timeValue : string -> option Z.
(** [d.setHours(0, 0, 0, 0)] and [d.setHours(23, 59, 59, 999)] on a copy
    of the date with the given time value, in the local time zone. *)
Variable startOfDay : Z -> Z.
Variable endOfDay : Z -> Z.

(** [storeId ? x : y]: [undefined] and the empty string are falsy. *)
Definition truthy (storeId : option string) : option string :=
  match storeId with
  | Some s => if String.eqb s "" then None else Some s
  | None => None
  end.

Definition getByDateRange (startDate endDate : Z)
    (storeId : option string) (st : Storage.t) : list SaleRecord.t :=
  let sales :=
    match truthy storeId with
    | Some s => SaleService.getByStore s st
    | None => SaleService.getAll st
    end in
  filter (fun sale =>
            match timeValue (SaleRecord.timestamp sale) with
            | Some saleDate =>
                (saleDate >=? startDate) && (saleDate <=? endDate)
            | None => false
            end)
         sales.

(** One round of the loop over the day's sales. *)
Definition tally (acc : (PaymentMethod -> PaymentStats.t) * Z)
    (sale : SaleRecord.t) : (PaymentMethod -> PaymentStats.t) * Z :=
  let byPaymentMethod := fst acc in
  let totalItems := snd acc in
  (fun m =>
     if PaymentMethod.eqb m (SaleRecord.paymentMethod sale) then
       PaymentStats.mk
         (PaymentStats.count (byPaymentMethod m) + 1)
         (PaymentStats.amount (byPaymentMethod m) + SaleRecord.total sale)%Q
     else byPaymentMethod m,
   totalItems
   + fold_left (fun sum item => sum + SaleItem.quantity item)
       (SaleRecord.items sale) 0).

Definition getDailyTotals (date : Z) (storeId : option string)
    (st : Storage.t) : DailyTotals.t :=
  let sales := getByDateRange (startOfDay date) (endOfDay date) storeId st in
  let byPaymentMethod0 := fun _ : PaymentMethod => PaymentStats.mk 0 0%Q in
  let acc := fold_left tally sales (byPaymentMethod0, 0) in
  DailyTotals.mk
    (Z.of_nat (List.length sales))
    (fold_left (fun sum sale => (sum + SaleRecord.total sale)%Q) sales 0%Q)
    (snd acc)
    (fst acc).

End WithDates.
End SaleServiceDates.

(* ------------------------------------------------------------------ *)
(** ** The sales ledger in double precision

    The amounts of a stored sale are JavaScript numbers, that is IEEE 754
    doubles, and [+] on them rounds to the nearest double (ties to even).
    [float] and [PrimFloat.add] are exactly that.  Quantities and counts
    stay integers: they are exact as doubles too. *)

Module Double.

Module SaleItem.
Record t := mk {
  barcode : string;
  name : string;
  price : float;
  quantity : Z;
  total : float
}.
End SaleItem.

Module SaleRecord.
Record t := mk {
  id : string;
  receiptNumber : string;
  items : list SaleItem.t;
  subtotal : float;
  tax : float;
  total : float;
  paymentMethod : PaymentMethod;
  amountPaid : float;
  change : float;
  cashierName : string;
  storeId : string;
  storeName : string;
  timestamp : string
}.
End SaleRecord.

Module PaymentStats.
Record t := mk {
  count : Z;
  amount : float
}.
End PaymentStats.

Module DailyTotals.
Record t := mk {
  totalSales : Z;
  totalRevenue : float;
  totalItems : Z;
  byPaymentMethod : PaymentMethod -> PaymentStats.t
}.
End DailyTotals.

(** SaleService over the array stored under [pos_sales]. *)
Module SaleService.
Section WithDates.

Variable timeValue : string -> option Z.
Variable startOfDay : Z -> Z.
Variable endOfDay : Z -> Z.

Definition getByStore (storeId : string) (pos_sales : list SaleRecord.t)
    : list SaleRecord.t :=
  filter (fun sale => String.eqb (SaleRecord.storeId sale) storeId) pos_sales.

Definition getByDateRange (startDate endDate : Z)
    (storeId : option string) (pos_sales : list SaleRecord.t)
    : list SaleRecord.t :=
  let sales :=
    match SaleServiceDates.truthy storeId with
    | Some s => getByStore s pos_sales
    | None => pos_sales
    end in
  filter (fun sale =>
            match timeValue (SaleRecord.timestamp sale) with
            | Some saleDate =>
                (saleDate >=? startDate) && (saleDate <=? endDate)
            | None => false
            end)
         sales.

(** One round of the loop over the day's sales. *)
Definition tally (acc : (PaymentMethod -> PaymentStats.t) * Z)
    (sale : SaleRecord.t) : (PaymentMethod -> PaymentStats.t) * Z :=
  let byPaymentMethod := fst acc in
  let totalItems := snd acc in
  (fun m =>
     if PaymentMethod.eqb m (SaleRecord.paymentMethod sale) then
       PaymentStats.mk
         (PaymentStats.count (byPaymentMethod m) + 1)
         (PrimFloat.add (PaymentStats.amount (byPaymentMethod m))
            (SaleRecord.total sale))
     else byPaymentMethod m,
   totalItems
   + fold_left (fun sum item => sum + SaleItem.quantity item)
       (SaleRecord.items sale) 0).

Definition getDailyTotals (date : Z) (storeId : option string)
    (pos_sales : list SaleRecord.t) : DailyTotals.t :=
  let sales :=
    getByDateRange (startOfDay date) (endOfDay date) storeId pos_sales in
  let byPaymentMethod0 :=
    fun _ : PaymentMethod => PaymentStats.mk 0 0%float in
  let acc := fold_left tally sales (byPaymentMethod0, 0) in
  DailyTotals.mk
    (Z.of_nat (List.length sales))
    (fold_left (fun sum sale => PrimFloat.add sum (SaleRecord.total sale))
       sales 0%float)
    (snd acc)
    (fst acc).

End WithDates.
End SaleService.

End Double.

(* ------------------------------------------------------------------ *)
(** ** Analytics dashboard *)

Module Analytics.
Record t := mk {
  totalRevenue : Q;
  totalOrders : Z;
  averageOrderValue : Q;
  totalItems : Z;
  uniqueCustomers : Z;
  peakHour : string;
  growthRate : Q
}.
End Analytics.

Module ProductStats.
Record t := mk {
  name : string;
  quantity : Z;
  revenue : Q
}.
End ProductStats.

(** The choices of the date range selector: ['7d' | '30d' | '90d' | '1y']. *)
Inductive DateRange := range7d | range30d | range90d | range1y.

Module Forecast.
Record t := mk {
  averageDaily : Q;
  predictedWeekly : Q;
  next7Days : list (string * Q)
}.
End Forecast.

Module ProductSales.
Record t := mk {
  name : string;
  sold : Z;
  currentStock : Z
}.
End ProductSales.

Module Recommendation.
Record t := mk {
  name : string;
  sold : Z;
  currentStock : Z;
  dailyVelocity : Q;
  daysRemaining : Num.t
}.
End Recommendation.

Module AnalyticsDashboard.
Section WithRuntime.

(** [new Date(timestamp).toDateString()]: the calendar day of a sale. *)
Variable toDateString : string -> string.
(** The successive results of [Math.random()]. *)
Variable random : nat -> Q.

(** The [forEach] of [forecast]:
    [dailySales[date] = (dailySales[date] || 0) + sale.total]. *)
Definition addToDay (dailySales : list (string * Q)) (sale : SaleRecord.t)
    : list (string * Q) :=
  let date := toDateString (SaleRecord.timestamp sale) in
  let before :=
    match JsObject.get date dailySales with
    | Some v => v
    | None => 0%Q
    end in
  JsObject.set date (before + SaleRecord.total sale)%Q dailySales.

Definition dailySalesOf (filteredSales : list SaleRecord.t)
    : list (string * Q) :=
  fold_left addToDay filteredSales [].

Definition forecast (filteredSales : list SaleRecord.t)
    : option Forecast.t :=
  if (List.length filteredSales <? 7)%nat then None
  else
    let dailyValues := JsObject.values (dailySalesOf filteredSales) in
    let average :=
      (fold_left Qplus dailyValues 0
       / inject_Z (Z.of_nat (List.length dailyValues)))%Q in
    let next7Days :=
      map (fun i =>
             ("Day " ++ Js.showZ (Z.of_nat i + 1),
              (average * (1 + (random i * (2 # 10) - (1 # 10))))%Q))
          (seq 0 7) in
    Some (Forecast.mk average (average * 7)%Q next7Days).

(** The inner [forEach] of [RestockRecommendations], for one line item. *)
Definition addItem (products : list Product.t)
    (productSales : list (string * ProductSales.t)) (item : SaleItem.t)
    : list (string * ProductSales.t) :=
  let barcode := SaleItem.barcode item in
  let productSales1 :=
    match JsObject.lookup barcode productSales with
    | JsObject.Undefined =>
        let currentStock :=   (* product?.stock || 0 *)
          match find (ProductService.hasBarcode barcode) products with
          | Some product => Product.stock product
          | None => 0
          end in
        JsObject.set barcode
          (ProductSales.mk (SaleItem.name item) 0 currentStock)
          productSales
    | JsObject.Own _ | JsObject.Inherited => productSales   (* truthy *)
    end in
  match JsObject.lookup barcode productSales1 with
  | JsObject.Own p =>
      JsObject.set barcode
        (ProductSales.mk (ProductSales.name p)
           (ProductSales.sold p + SaleItem.quantity item)
           (ProductSales.currentStock p))
        productSales1
  | JsObject.Inherited =>
      (* [+=] writes [sold] on the inherited object; [productSales] gets
         no property *)
      productSales1
  | JsObject.Undefined => productSales1   (* not reached: the key was set *)
  end.

Definition productSalesOf (products : list Product.t)
    (sales : list SaleRecord.t) : list (string * ProductSales.t) :=
  fold_left
    (fun productSales sale =>
       fold_left (addItem products) (SaleRecord.items sale) productSales)
    sales [].

(** The [map] step: velocity over an assumed 30 days, and the days of
    inventory left. *)
Definition withVelocity (p : ProductSales.t) : Recommendation.t :=
  let dailyVelocity := (inject_Z (ProductSales.sold p) / 30)%Q in
  Recommendation.mk (ProductSales.name p) (ProductSales.sold p)
    (ProductSales.currentStock p) dailyVelocity
    (if Js.Qltb 0 dailyVelocity then
       Num.Fin (inject_Z (ProductSales.currentStock p) / dailyVelocity)%Q
     else Num.Infinity).

(** The [filter] step. *)
Definition needsRestock (p : Recommendation.t) : bool :=
  Num.ltb (Recommendation.daysRemaining p) (Num.Fin 14)
  || (Recommendation.currentStock p <? 10).

(** The comparator of the [sort] step. *)
Definition byDaysRemaining (a b : Recommendation.t) : Num.t :=
  Num.sub (Recommendation.daysRemaining a) (Recommendation.daysRemaining b).

Definition recommendations (products : list Product.t)
    (sales : list SaleRecord.t) : list Recommendation.t :=
  firstn 5
    (JsArray.sort byDaysRemaining
       (filter needsRestock
          (map withVelocity
             (JsObject.values (productSalesOf products sales))))).

(** [Math.ceil(item.sold * 2)]; the product is an integer. *)
Definition suggestedRestock (item : Recommendation.t) : Z :=
  Recommendation.sold item * 2.

(** The time value of [new Date(timestamp)], [None] for an invalid date,
    and its local hour [getHours()]. *)
Variable timeValue : string -> option Z.
Variable getHours : string -> Z.

Definition daysMap (dateRange : DateRange) : Z :=
  match dateRange with
  | range7d => 7
  | range30d => 30
  | range90d => 90
  | range1y => 365
  end.

Definition timeNumber (sale : SaleRecord.t) : Num.t :=
  match timeValue (SaleRecord.timestamp sale) with
  | Some t => Num.Fin (inject_Z t)
  | None => Num.NaN
  end.

(** The comparator of [filteredSales]: newest first. *)
Definition newestFirst (a b : SaleRecord.t) : Num.t :=
  Num.sub (timeNumber b) (timeNumber a).

(** [filteredSales]: the sales on or after the cutoff, newest first. *)
Definition filteredSales (now : Z) (dateRange : DateRange)
    (sales : list SaleRecord.t) : list SaleRecord.t :=
  let cutoffDate := now - daysMap dateRange * 24 * 60 * 60 * 1000 in
  JsArray.sort newestFirst
    (filter (fun sale =>
               match timeValue (SaleRecord.timestamp sale) with
               | Some t => t >=? cutoffDate
               | None => false
               end)
       sales).

(** [sales.reduce((sum, s) => sum + s.total, 0)] *)
Definition revenueOf (sales : list SaleRecord.t) : Q :=
  fold_left (fun sum sale => (sum + SaleRecord.total sale)%Q) sales 0%Q.

(** The [forEach] of the peak hour analysis. *)
Definition countHour (hourCounts : list (string * Z)) (sale : SaleRecord.t)
    : list (string * Z) :=
  let hour := Js.showZ (getHours (SaleRecord.timestamp sale)) in
  let before :=
    match JsObject.get hour hourCounts with
    | Some v => v
    | None => 0
    end in
  JsObject.set hour (before + 1) hourCounts.

(** The comparator of the hour entries: highest count first. *)
Definition byCountDesc (a b : string * Z) : Num.t :=
  Num.Fin (inject_Z (snd b - snd a)).

(** [slice(start)] and [slice(0, end)] for an index inside the array. *)
Definition sliceFrom {A : Type} (start : nat) (l : list A) : list A :=
  skipn start l.
Definition sliceTo {A : Type} (final : nat) (l : list A) : list A :=
  firstn final l.

(** [analytics]; the sales given are those of [filteredSales], whose
    timestamps are valid dates. *)
Definition analytics (filteredSales : list SaleRecord.t) : Analytics.t :=
  if (List.length filteredSales =? 0)%nat then
    Analytics.mk 0 0 0 0 0 "N/A" 0
  else
    let totalRevenue := revenueOf filteredSales in
    let totalOrders := Z.of_nat (List.length filteredSales) in
    let averageOrderValue := (totalRevenue / inject_Z totalOrders)%Q in
    let totalItems :=
      fold_left
        (fun sum sale =>
           sum + fold_left (fun itemSum item =>
                              itemSum + SaleItem.quantity item)
                   (SaleRecord.items sale) 0)
        filteredSales 0 in
    let uniqueCashiers :=
      Z.of_nat
        (List.length
           (nodup string_dec (map SaleRecord.cashierName filteredSales))) in
    let hourCounts := fold_left countHour filteredSales [] in
    let peakHourFormatted :=
      match JsArray.sort byCountDesc (JsObject.ownEntries hourCounts) with
      | peakHour :: _ => fst peakHour ++ ":00"
      | [] => "N/A"
      end in
    let midPoint := Nat.div (List.length filteredSales) 2 in
    let firstHalf := sliceFrom midPoint filteredSales in
    let secondHalf := sliceTo midPoint filteredSales in
    let firstHalfRevenue := revenueOf firstHalf in
    let secondHalfRevenue := revenueOf secondHalf in
    let growthRate :=
      if Js.Qltb 0 firstHalfRevenue then
        ((secondHalfRevenue - firstHalfRevenue) / firstHalfRevenue * 100)%Q
      else 0%Q in
    Analytics.mk totalRevenue totalOrders averageOrderValue totalItems
      uniqueCashiers peakHourFormatted growthRate.

(** The inner [forEach] of [topProducts], for one line item. *)
Definition addStats (productStats : list (string * ProductStats.t))
    (item : SaleItem.t) : list (string * ProductStats.t) :=
  let barcode := SaleItem.barcode item in
  let productStats1 :=
    match JsObject.lookup barcode productStats with
    | JsObject.Undefined =>
        JsObject.set barcode (ProductStats.mk (SaleItem.name item) 0 0%Q)
          productStats
    | JsObject.Own _ | JsObject.Inherited => productStats   (* truthy *)
    end in
  match JsObject.lookup barcode productStats1 with
  | JsObject.Own p =>
      JsObject.set barcode
        (ProductStats.mk (ProductStats.name p)
           (ProductStats.quantity p + SaleItem.quantity item)
           (ProductStats.revenue p + SaleItem.total item)%Q)
        productStats1
  | JsObject.Inherited =>
      (* [+=] writes [quantity] and [revenue] on the inherited object;
         [productStats] gets no property *)
      productStats1
  | JsObject.Undefined => productStats1   (* not reached: the key was set *)
  end.

(** The comparator of [topProducts]: highest revenue first. *)
Definition byRevenueDesc (a b : ProductStats.t) : Num.t :=
  Num.Fin (ProductStats.revenue b - ProductStats.revenue a).

Definition topProducts (filteredSales : list SaleRecord.t)
    : list ProductStats.t :=
  let productStats :=
    fold_left
      (fun productStats sale =>
         fold_left addStats (SaleRecord.items sale) productStats)
      filteredSales [] in
  firstn 5 (JsArray.sort byRevenueDesc (JsObject.values productStats)).

End WithRuntime.
End AnalyticsDashboard.

(* ------------------------------------------------------------------ *)
(** ** Vocabulary of the properties *)

(** The stock the services see for a barcode: that of the first product
    carrying it. *)
Definition stockOf (barcode : string) (products : list Product.t)
    : option Z :=
  option_map Product.stock (find (ProductService.hasBarcode barcode) products).

(** Units of a barcode on the lines of one cart. *)
Fixpoint unitsSold (barcode : string) (items : list SaleItem.t) : Z :=
  match items with
  | [] => 0
  | item :: rest =>
      (if String.eqb (SaleItem.barcode item) barcode
       then SaleItem.quantity item else 0)
      + unitsSold barcode rest
  end.

(** The stock-changing operations of the stock engine and the pipeline. *)
Inductive StockOp :=
| OpRestock (env : Env.t) (barcode : string) (quantity : Z)
    (performedBy : string)
| OpSale (env : Env.t) (items : list SaleItem.t)
    (paymentMethod : PaymentMethod) (amountPaid : Q)
    (cashierName storeId storeName : string).

Definition runOp (op : StockOp) (st : Storage.t) : bool * Storage.t :=
  match op with
  | OpRestock env barcode quantity performedBy =>
      let r := ProductService.restock env barcode quantity performedBy st in
      (Result.success (fst r), snd r)
  | OpSale env items paymentMethod amountPaid cashierName storeId storeName =>
      let r := SaleService.processSale env items paymentMethod amountPaid
                 cashierName storeId storeName st in
      (SaleResult.success (fst r), snd r)
  end.

(** A run in which every operation succeeds. *)
Fixpoint runSuccessful (ops : list StockOp) (st : Storage.t)
    : option Storage.t :=
  match ops with
  | [] => Some st
  | op :: rest =>
      let r := runOp op st in
      if fst r then runSuccessful rest (snd r) else None
  end.

Definition restockedBy (barcode : string) (op : StockOp) : Z :=
  match op with
  | OpRestock _ b quantity _ => if String.eqb b barcode then quantity else 0
  | OpSale _ _ _ _ _ _ _ => 0
  end.

Definition soldBy (barcode : string) (op : StockOp) : Z :=
  match op with
  | OpRestock _ _ _ _ => 0
  | OpSale _ items _ _ _ _ _ => unitsSold barcode items
  end.

Definition sumZ (l : list Z) : Z := fold_right Z.add 0 l.

Definition distinctLines (op : StockOp) : Prop :=
  match op with
  | OpRestock _ _ _ _ => True
  | OpSale _ items _ _ _ _ _ => NoDup (map SaleItem.barcode items)
  end.

Definition stocksNonNegative (st : Storage.t) : Prop :=
  forall barcode s,
    stockOf barcode (Storage.pos_products st) = Some s -> 0 <= s.

(** *** The sale record of a call *)

(** The record a successful call builds. *)
Definition saleRecordOf (env : Env.t) (items : list SaleItem.t)
    (paymentMethod : PaymentMethod) (amountPaid : Q)
    (cashierName storeId storeName : string) : SaleRecord.t :=
  let subtotal := SaleService.sumTotals items in
  let tax := (subtotal * SaleService.taxRate)%Q in
  let total := (subtotal + tax)%Q in
  SaleRecord.mk ("sale-" ++ Js.showZ (Env.now env))
    (SaleService.generateReceiptNumber env) items subtotal tax total
    paymentMethod amountPaid (amountPaid - total)%Q cashierName storeId
    storeName (Env.isoNow env).

(** *** Runs of transfer operations *)

(** The operations on the transfers collection. *)
Inductive TransferOp :=
| OpCreate (env : Env.t) (transfer : TransferRequest.t)
| OpComplete (env : Env.t) (transferId : string)
| OpCancel (transferId : string).

Definition runTransferOp (st : Storage.t) (op : TransferOp) : Storage.t :=
  match op with
  | OpCreate env transfer => snd (StockTransferService.create env transfer st)
  | OpComplete env transferId =>
      snd (StockTransferService.complete env transferId st)
  | OpCancel transferId => snd (StockTransferService.cancel transferId st)
  end.

(** The transfer stored at [index] is the first stored transfer with its
    id: the one that [findIndex] reaches from that id.  Ids are
    [transfer-${Date.now()}], so this is every stored transfer unless two
    were created in the same millisecond. *)
Definition firstWithItsId (transfers : list StockTransfer.t) (index : nat)
    (found : StockTransfer.t) : Prop :=
  nth_error transfers index = Some found /\
  forall j earlier,
    (j < index)%nat -> nth_error transfers j = Some earlier ->
    StockTransfer.id earlier <> StockTransfer.id found.

(** *** Cart lines *)

Definition cartBarcode (item : CartItem.t) : string :=
  Product.barcode (CartItem.product item).

Definition addOne (item : CartItem.t) : CartItem.t :=
  CartItem.mk (CartItem.product item) (CartItem.quantity item + 1).

(** *** Totals over the payment methods *)

Definition amountOverMethods (by_ : PaymentMethod -> PaymentStats.t) : Q :=
  (PaymentStats.amount (by_ cash) + PaymentStats.amount (by_ mobile_money)
   + PaymentStats.amount (by_ card))%Q.

Definition countOverMethods (by_ : PaymentMethod -> PaymentStats.t) : Z :=
  PaymentStats.count (by_ cash) + PaymentStats.count (by_ mobile_money)
  + PaymentStats.count (by_ card).

(** *** Daily revenue buckets and their mean *)

Definition sumQ (l : list Q) : Q := fold_right Qplus 0%Q l.

(** The arithmetic mean of a list of amounts. *)
Definition meanQ (l : list Q) : Q :=
  (sumQ l / inject_Z (Z.of_nat (List.length l)))%Q.

Section CalendarDays.
Variable toDateString : string -> string.

(** The calendar day of a sale. *)
Definition dayOf (sale : SaleRecord.t) : string :=
  toDateString (SaleRecord.timestamp sale).

(** The revenue bucket of one calendar day of the window. *)
Fixpoint dayRevenue (day : string) (sales : list SaleRecord.t) : Q :=
  match sales with
  | [] => 0%Q
  | sale :: rest =>
      ((if String.eqb (dayOf sale) day then SaleRecord.total sale else 0)
       + dayRevenue day rest)%Q
  end.

End CalendarDays.

(** *** Products sold in a window *)

(** The line items of the window, in the order the loops visit them. *)
Definition allItems (sales : list SaleRecord.t) : list SaleItem.t :=
  flat_map SaleRecord.items sales.

Definition soldInWindow (barcode : string) (sales : list SaleRecord.t)
    : Prop :=
  In barcode (map SaleItem.barcode (allItems sales)).

(** [product?.stock || 0] for the catalog snapshot. *)
Definition catalogStock (barcode : string) (products : list Product.t) : Z :=
  match stockOf barcode products with
  | Some s => s
  | None => 0
  end.

(** The name on the first line of the window that carries the barcode. *)
Definition firstName (barcode : string) (items : list SaleItem.t) : string :=
  match find (fun item => String.eqb (SaleItem.barcode item) barcode) items
  with
  | Some item => SaleItem.name item
  | None => ""
  end.

Definition salesEntry (products : list Product.t) (items : list SaleItem.t)
    (barcode : string) : ProductSales.t :=
  ProductSales.mk (firstName barcode items) (unitsSold barcode items)
    (catalogStock barcode products).

(** The list entry of a product sold in the window. *)
Definition entryOf (products : list Product.t) (sales : list SaleRecord.t)
    (barcode : string) : Recommendation.t :=
  AnalyticsDashboard.withVelocity
    (salesEntry products (allItems sales) barcode).

(** Days of inventory left: stock over daily velocity, the velocity being
    the units sold over 30 days; infinite without a positive velocity. *)
Definition daysRemainingOf (currentStock sold : Z) : Num.t :=
  if 0 <? sold
  then Num.Fin (inject_Z currentStock / (inject_Z sold / 30))%Q
  else Num.Infinity.

Definition byDays (a b : Recommendation.t) : Prop :=
  Num.le (Recommendation.daysRemaining a) (Recommendation.daysRemaining b).

(** Days remaining are finite or [Infinity], never [NaN]. *)
Definition ordinary (n : Num.t) : Prop :=
  match n with
  | Num.Fin _ | Num.Infinity => True
  | Num.NegInfinity | Num.NaN => False
  end.

(** *** Sample data: the scenarios of the design document *)

(** One product with a stock of 5, and a cart line of 3 units of it. *)
Definition product123 : Product.t :=
  Product.mk "123" "Widget" 10%Q 5 Other.
Definition storage123 : Storage.t := Storage.mk [product123] [] [] [].
Definition line123 : SaleItem.t := SaleItem.mk "123" "Widget" 10%Q 3 30%Q.
Definition env0 : Env.t := Env.mk 1762041600000 "2026-11-02T00:00:00.000Z"
                             "0.k3x9abc".

(** A request that already says completed. *)
Definition requestCompleted : TransferRequest.t :=
  TransferRequest.mk "store-001" "store-002" "Main Store" "Annex" "123"
    "Widget" 2 completed "Admin" None.

(** Two requests made in the same millisecond. *)
Definition requestWidgets : TransferRequest.t :=
  TransferRequest.mk "store-001" "store-002" "Main Store" "Annex" "123"
    "Widget" 2 pending "Admin" None.
Definition requestGadgets : TransferRequest.t :=
  TransferRequest.mk "store-001" "store-002" "Main Store" "Annex" "456"
    "Gadget" 1 pending "Admin" None.
Definition storageSameClock : Storage.t :=
  snd (StockTransferService.create env0 requestGadgets
         (snd (StockTransferService.create env0 requestWidgets storage123))).

Definition storageStock5 : Storage.t := storage123.

Definition cartLines : list SaleItem.t :=
  [ SaleItem.mk "123" "Widget" 10%Q 2 20%Q;
    SaleItem.mk "456" "Gadget" 5%Q 1 5%Q ].

Definition storageTwo : Storage.t :=
  Storage.mk [product123; Product.mk "456" "Gadget" 5%Q 4 Other] [] [] [].

(** Scenario 1: five scans of a product with stock 5, then a sixth. *)
Definition scanned (n : nat) : list CartItem.t :=
  Nat.iter n (fun cart => snd (CashierView.handleScan storageStock5 "123" cart))
    [].

Definition transferPending : StockTransfer.t :=
  StockTransfer.mk "transfer-1" "store-001" "store-002" "Main Store" "Annex"
    "123" "Widget" 2 pending "Admin" None "2026-11-01T09:00:00.000Z".

Definition storageTransfer : Storage.t :=
  Storage.mk [product123] [] [] [transferPending].

(** Scenario 5 and its counterpart: a window of three sales, and a window
    of seven sales over two calendar days. *)
Definition saleAt (timestamp : string) (total : Q) : SaleRecord.t :=
  SaleRecord.mk "sale-1" "RCP-1-AAA" [] total 0%Q total cash total 0%Q
    "alice" "store-001" "Main Store" timestamp.

Definition isoDay (timestamp : string) : string := substring 0 10 timestamp.

Definition threeSales : list SaleRecord.t :=
  [ saleAt "2026-11-01T09:00:00.000Z" 10%Q;
    saleAt "2026-11-01T10:00:00.000Z" 20%Q;
    saleAt "2026-11-02T09:00:00.000Z" 30%Q ].

Definition sevenSales : list SaleRecord.t :=
  (threeSales ++
   [ saleAt "2026-11-02T10:00:00.000Z" 10%Q;
     saleAt "2026-11-02T11:00:00.000Z" 10%Q;
     saleAt "2026-11-02T12:00:00.000Z" 10%Q;
     saleAt "2026-11-02T13:00:00.000Z" 10%Q ])%list.

(** Six products sold once each, none of them in the catalog. *)
Definition sixLines : list SaleItem.t :=
  [ SaleItem.mk "a" "Apple" 1%Q 1 1%Q; SaleItem.mk "b" "Bread" 1%Q 1 1%Q;
    SaleItem.mk "c" "Cocoa" 1%Q 1 1%Q; SaleItem.mk "d" "Dates" 1%Q 1 1%Q;
    SaleItem.mk "e" "Eggs" 1%Q 1 1%Q; SaleItem.mk "f" "Flour" 1%Q 1 1%Q ].

Definition sixSales : list SaleRecord.t :=
  [ SaleRecord.mk "sale-1" "RCP-1-AAA" sixLines 6%Q 0%Q 6%Q cash 6%Q 0%Q
      "alice" "store-001" "Main Store" "2026-11-02T10:00:00.000Z" ].

(** *** The window of the dashboard *)

(** The sale [a] is not older than the sale [b]. *)
Definition notOlder (timeValue : string -> option Z) (a b : SaleRecord.t)
    : Prop :=
  exists ta tb,
    timeValue (SaleRecord.timestamp a) = Some ta /\
    timeValue (SaleRecord.timestamp b) = Some tb /\
    tb <= ta.

(** *** Hours and sellers of a window *)

(** The property name under which the hour of a sale is counted. *)
Definition hourKey (getHours : string -> Z) (sale : SaleRecord.t) : string :=
  Js.showZ (getHours (SaleRecord.timestamp sale)).

(** The number of sales of the window counted under an hour. *)
Fixpoint salesInHour (getHours : string -> Z) (key : string)
    (sales : list SaleRecord.t) : Z :=
  match sales with
  | [] => 0
  | sale :: rest =>
      (if String.eqb (hourKey getHours sale) key then 1 else 0)
      + salesInHour getHours key rest
  end.

(** The revenue of a barcode over the line items, added up in the order of
    the lines. *)
Definition revenueOfBarcode (barcode : string) (items : list SaleItem.t)
    : Q :=
  fold_left
    (fun sum item =>
       if String.eqb (SaleItem.barcode item) barcode
       then (sum + SaleItem.total item)%Q else sum)
    items 0%Q.

(** The entry of a barcode in the list of top products. *)
Definition statsOf (sales : list SaleRecord.t) (barcode : string)
    : ProductStats.t :=
  ProductStats.mk (firstName barcode (allItems sales))
    (unitsSold barcode (allItems sales))
    (revenueOfBarcode barcode (allItems sales)).

Definition byRevenue (a b : ProductStats.t) : Prop :=
  (ProductStats.revenue b <= ProductStats.revenue a)%Q.

(** *** Pending transfers *)

(** The test of [getPendingForStore]. *)
Definition isPendingFor (storeId : string) (x : StockTransfer.t) : bool :=
  String.eqb (StockTransfer.toStoreId x) storeId
  && TransferStatus.eqb (StockTransfer.status x) pending.

(** What a transfer says apart from its status and its completion time. *)
Definition requestData (x : StockTransfer.t)
    : string * string * string * string * Z * string * string :=
  (StockTransfer.id x, StockTransfer.fromStoreId x, StockTransfer.toStoreId x,
   StockTransfer.barcode x, StockTransfer.quantity x,
   StockTransfer.requestedBy x, StockTransfer.timestamp x).

(** *** Sums in double precision *)

(** The sum of a list of doubles, added from 0 in the order of the list,
    as [reduce((sum, x) => sum + x, 0)] and a loop of [+=] do. *)
Definition sumDoubles (l : list float) : float :=
  fold_left PrimFloat.add l 0%float.

(** The sales of a list paid by a method. *)
Definition paidBy (m : PaymentMethod) (sales : list Double.SaleRecord.t)
    : list Double.SaleRecord.t :=
  filter (fun sale => PaymentMethod.eqb m (Double.SaleRecord.paymentMethod sale))
    sales.

(** A day with three sales: 29.99 in cash, 29.99 by card, 149.99 in
    cash. *)
#[local] Set Warnings "-inexact-float".
Definition doubleSale (paymentMethod : PaymentMethod) (total : float)
    : Double.SaleRecord.t :=
  Double.SaleRecord.mk "sale-1" "RCP-1-AAA" [] total 0%float total
    paymentMethod total 0%float "alice" "store-001" "Main Store"
    "2026-11-02T10:00:00.000Z".

Definition threeDoubleSales : list Double.SaleRecord.t :=
  [ doubleSale cash 29.99%float; doubleSale card 29.99%float;
    doubleSale cash 149.99%float ].
#[local] Set Warnings "inexact-float".

(** *** The catalog and its administration *)

(** Every operation that writes the products or the stock log. *)
Inductive CatalogOp :=
| CatAdd (product : Product.t)
| CatUpdate (barcode : string) (updates : ProductUpdates.t)
| CatDelete (barcode : string)
| CatRestock (env : Env.t) (barcode : string) (quantity : Z)
    (performedBy : string)
| CatSale (env : Env.t) (items : list SaleItem.t)
    (paymentMethod : PaymentMethod) (amountPaid : Q)
    (cashierName storeId storeName : string).

(** The storage after an operation, whether it succeeded or was refused. *)
Definition runCatalogOp (st : Storage.t) (op : CatalogOp) : Storage.t :=
  match op with
  | CatAdd product => snd (ProductService.add product st)
  | CatUpdate barcode updates =>
      snd (ProductService.update barcode updates st)
  | CatDelete barcode => snd (ProductService.delete barcode st)
  | CatRestock env barcode quantity performedBy =>
      snd (ProductService.restock env barcode quantity performedBy st)
  | CatSale env items paymentMethod amountPaid cashierName storeId
      storeName =>
      snd (SaleService.processSale env items paymentMethod amountPaid
             cashierName storeId storeName st)
  end.

Definition oneLinePerBarcode (op : CatalogOp) : Prop :=
  match op with
  | CatSale _ items _ _ _ _ _ => NoDup (map SaleItem.barcode items)
  | _ => True
  end.

(** Barcodes are unique, prices positive and stocks not negative. *)
Definition catalogWellFormed (st : Storage.t) : Prop :=
  NoDup (map Product.barcode (Storage.pos_products st)) /\
  Forall (fun p => (0 < Product.price p)%Q /\ 0 <= Product.stock p)
    (Storage.pos_products st).

(** A log entry adds up, and adds a positive quantity. *)
Definition logAddsUp (log : StockLog.t) : Prop :=
  StockLog.newStock log
  = StockLog.previousStock log + StockLog.quantityAdded log /\
  0 < StockLog.quantityAdded log.

(** Units the log records as added to a barcode. *)
Definition loggedAdditions (barcode : string) (st : Storage.t) : Z :=
  sumZ (map StockLog.quantityAdded
          (StockLogService.getByBarcode barcode st)).

(* ------------------------------------------------------------------ *)
(** ** Arrays: find, findIndex and mutation through a found reference *)

Section ArrayFacts.
Context {A : Type}.
Variable f : A -> bool.

Lemma findIndex_None (l : list A) :
  Js.findIndex f l = None <-> find f l = None.
Proof.
  induction l as [|x l IH]; simpl; [tauto|].
  destruct (f x); [split; discriminate|].
  destruct (Js.findIndex f l).
  - split; [discriminate|]. intro H. apply IH in H. discriminate.
  - split; [intros _; now apply IH | reflexivity].
Qed.

Lemma findIndex_nth (l : list A) (i : nat) :
  Js.findIndex f l = Some i -> nth_error l i = find f l.
Proof.
  revert i; induction l as [|x l IH]; simpl; intros i H; [discriminate|].
  destruct (f x).
  - now inversion H.
  - destruct (Js.findIndex f l) as [j|]; [|discriminate].
    inversion H; subst. simpl. now apply IH.
Qed.

Lemma find_findIndex (l : list A) (x : A) :
  find f l = Some x ->
  exists i, Js.findIndex f l = Some i /\ nth_error l i = Some x.
Proof.
  intro H. destruct (Js.findIndex f l) as [i|] eqn:E.
  - exists i. split; [reflexivity|]. rewrite (findIndex_nth _ _ E). exact H.
  - apply findIndex_None in E. congruence.
Qed.

Lemma mutateFound_cons (g : A -> A) (x : A) (l : list A) :
  Js.mutateFound f g (x :: l)
  = if f x then g x :: l else x :: Js.mutateFound f g l.
Proof.
  unfold Js.mutateFound. simpl. destruct (f x); [reflexivity|].
  destruct (Js.findIndex f l); reflexivity.
Qed.

(** The first match is replaced in place and nothing else moves. *)
Lemma mutateFound_split (g : A -> A) (l : list A) (x : A) :
  find f l = Some x ->
  exists l1 l2,
    l = (l1 ++ x :: l2)%list /\
    Forall (fun y => f y = false) l1 /\
    Js.mutateFound f g l = (l1 ++ g x :: l2)%list.
Proof.
  induction l as [|y l IH]; simpl; intro H; [discriminate|].
  rewrite mutateFound_cons. destruct (f y) eqn:E.
  - inversion H; subst. exists [], l. repeat split. constructor.
  - destruct (IH H) as (l1 & l2 & -> & Hl1 & Hm).
    exists (y :: l1), l2. simpl. repeat split.
    + now constructor.
    + now rewrite Hm.
Qed.

Lemma updateAt_nth_same (g : A -> A) (l : list A) (i : nat) (x : A) :
  nth_error l i = Some x -> nth_error (Js.updateAt i g l) i = Some (g x).
Proof.
  revert i; induction l as [|y l IH]; intros [|i]; simpl; intro H;
    try discriminate.
  - now inversion H.
  - now apply IH.
Qed.

Lemma updateAt_nth_other (g : A -> A) (l : list A) (i j : nat) :
  i <> j -> nth_error (Js.updateAt i g l) j = nth_error l j.
Proof.
  revert i j; induction l as [|y l IH]; intros [|i] [|j] H; simpl;
    try reflexivity; try congruence.
  apply IH. congruence.
Qed.

Lemma updateAt_length (g : A -> A) (l : list A) (i : nat) :
  List.length (Js.updateAt i g l) = List.length l.
Proof.
  revert i; induction l as [|y l IH]; intros [|i]; simpl; congruence.
Qed.

End ArrayFacts.

Lemma hasBarcode_true (barcode : string) (p : Product.t) :
  ProductService.hasBarcode barcode p = true <-> Product.barcode p = barcode.
Proof. unfold ProductService.hasBarcode. apply String.eqb_eq. Qed.

(** A mutation that keeps barcodes changes the stock seen for the mutated
    barcode and for no other. *)
Lemma stockOf_mutateFound (b b' : string) (g : Product.t -> Product.t)
    (products : list Product.t) :
  (forall p, Product.barcode (g p) = Product.barcode p) ->
  stockOf b' (Js.mutateFound (ProductService.hasBarcode b) g products)
  = if String.eqb b b'
    then option_map (fun p => Product.stock (g p))
           (find (ProductService.hasBarcode b) products)
    else stockOf b' products.
Proof.
  intro Hg. unfold stockOf.
  induction products as [|p products IH].
  - simpl. now destruct (String.eqb b b').
  - rewrite mutateFound_cons. simpl.
    unfold ProductService.hasBarcode in *.
    destruct (String.eqb_spec (Product.barcode p) b) as [Hb|Hb].
    + simpl. rewrite Hg. rewrite Hb.
      destruct (String.eqb_spec b b') as [->|Hbb'].
      * reflexivity.
      * reflexivity.
    + simpl. destruct (String.eqb_spec (Product.barcode p) b') as [Hb'|Hb'].
      * destruct (String.eqb_spec b b') as [E|E]; [congruence|reflexivity].
      * exact IH.
Qed.

(* ------------------------------------------------------------------ *)
(** ** Stock engine: restock *)

(** The two ways a restock can end. *)
Lemma restock_cases (env : Env.t) (barcode : string) (quantity : Z)
    (performedBy : string) (st : Storage.t) :
  let r := ProductService.restock env barcode quantity performedBy st in
  (Result.success (fst r) = false /\ snd r = st /\
   (quantity <= 0 \/ ProductService.findByBarcode barcode st = None))
  \/
  (0 < quantity /\
   exists product,
     ProductService.findByBarcode barcode st = Some product /\
     fst r = Result.ok /\
     Storage.pos_products (snd r)
     = Js.mutateFound (ProductService.hasBarcode barcode)
         (Product.withStock (Product.stock product + quantity))
         (Storage.pos_products st)).
Proof.
  unfold ProductService.restock, ProductService.findByBarcode,
    ProductService.getAll.
  cbv zeta. destruct (Z.leb_spec quantity 0) as [Hq|Hq].
  - left. repeat split. now left.
  - destruct (find _ (Storage.pos_products st)) as [product|] eqn:Hf.
    + right. split; [exact Hq|]. exists product. repeat split.
    + left. repeat split. now right.
Qed.

(** C5 (restock contract).  A non-positive quantity is refused with the
    validation message and an unknown barcode is refused (with the
    not-found message once the quantity is positive); a refused call leaves
    the whole storage, hence products and stock logs, as it was.  A
    successful call raises the stock of the product by the quantity,
    changes no other product and puts exactly one log entry, carrying the
    old stock, the new stock and the quantity, at the head of the log. *)
Theorem restock_contract (env : Env.t) (barcode : string) (quantity : Z)
    (performedBy : string) (st : Storage.t) :
  let r := ProductService.restock env barcode quantity performedBy st in
  (quantity <= 0 ->
     fst r = Result.fail "Quantity must be positive" /\ snd r = st) /\
  (ProductService.findByBarcode barcode st = None ->
     Result.success (fst r) = false /\ snd r = st /\
     (0 < quantity -> fst r = Result.fail "Product not found")) /\
  (forall product,
     0 < quantity ->
     ProductService.findByBarcode barcode st = Some product ->
     fst r = Result.ok /\
     stockOf barcode (Storage.pos_products (snd r))
       = Some (Product.stock product + quantity) /\
     (exists before after,
        Storage.pos_products st = (before ++ product :: after)%list /\
        Storage.pos_products (snd r)
          = (before
             ++ Product.withStock (Product.stock product + quantity) product
             :: after)%list) /\
     (exists log,
        Storage.pos_stock_logs (snd r) = log :: Storage.pos_stock_logs st /\
        StockLog.barcode log = barcode /\
        StockLog.previousStock log = Product.stock product /\
        StockLog.newStock log = Product.stock product + quantity /\
        StockLog.quantityAdded log = quantity /\
        StockLog.performedBy log = performedBy) /\
     Storage.pos_sales (snd r) = Storage.pos_sales st /\
     Storage.pos_stock_transfers (snd r) = Storage.pos_stock_transfers st).
Proof.
  unfold ProductService.restock, ProductService.findByBarcode,
    ProductService.getAll.
  cbv zeta. repeat split.
  - destruct (Z.leb_spec quantity 0); [reflexivity|lia].
  - destruct (Z.leb_spec quantity 0); [reflexivity|lia].
  - destruct (quantity <=? 0); [reflexivity|]. now rewrite H.
  - destruct (quantity <=? 0); [reflexivity|]. now rewrite H.
  - intro Hq. destruct (Z.leb_spec quantity 0); [lia|]. now rewrite H.
  - destruct (Z.leb_spec quantity 0); [lia|]. now rewrite H0.
  - destruct (Z.leb_spec quantity 0); [lia|]. rewrite H0. cbn [snd].
    cbn [Storage.setStockLogs Storage.setProducts Storage.pos_products].
    rewrite stockOf_mutateFound by reflexivity.
    rewrite String.eqb_refl, H0. reflexivity.
  - destruct (Z.leb_spec quantity 0); [lia|]. rewrite H0. cbn [snd].
    cbn [Storage.setStockLogs Storage.setProducts Storage.pos_products].
    destruct (mutateFound_split (ProductService.hasBarcode barcode)
                (Product.withStock (Product.stock product + quantity))
                _ _ H0) as (l1 & l2 & E1 & _ & E2).
    exists l1, l2. now split.
  - destruct (Z.leb_spec quantity 0); [lia|]. rewrite H0. cbn [snd].
    eexists. cbn. repeat split.
  - destruct (Z.leb_spec quantity 0); [lia|]. now rewrite H0.
  - destruct (Z.leb_spec quantity 0); [lia|]. now rewrite H0.
Qed.

(* ------------------------------------------------------------------ *)
(** ** Sale pipeline: processSale *)

Lemma Qltb_true (a b : Q) : Js.Qltb a b = true <-> (a < b)%Q.
Proof.
  unfold Js.Qltb. rewrite negb_true_iff. split; intro H.
  - apply Qnot_le_lt. intro Hle. apply Qle_bool_iff in Hle. congruence.
  - destruct (Qle_bool b a) eqn:E; [|reflexivity].
    apply Qle_bool_iff in E. exfalso. exact (Qlt_not_le _ _ H E).
Qed.

Lemma Qltb_false (a b : Q) : Js.Qltb a b = false <-> (b <= a)%Q.
Proof.
  unfold Js.Qltb. rewrite negb_false_iff. apply Qle_bool_iff.
Qed.

(** The stock check passes exactly when every line finds its product with
    enough stock for that line alone. *)
Lemma checkStock_None (products : list Product.t) (items : list SaleItem.t) :
  SaleService.checkStock products items = None <->
  Forall (fun item =>
            exists p,
              find (ProductService.hasBarcode (SaleItem.barcode item))
                products = Some p /\
              SaleItem.quantity item <= Product.stock p) items.
Proof.
  induction items as [|item items IH]; simpl.
  - split; [constructor|reflexivity].
  - destruct (find _ products) as [p|] eqn:E.
    + destruct (Z.ltb_spec (Product.stock p) (SaleItem.quantity item)).
      * split; [discriminate|]. intro H0. inversion H0; subst.
        destruct H3 as (p' & Hp' & Hq). rewrite E in Hp'.
        inversion Hp'; subst. lia.
      * rewrite IH. split; intro H0.
        -- constructor; [exists p; split; [exact E|lia]|exact H0].
        -- now inversion H0.
    + split; [discriminate|]. intro H0. inversion H0; subst.
      destruct H2 as (p' & Hp' & _). rewrite E in Hp'. discriminate.
Qed.

(** The two ways a call can end. *)
Lemma processSale_cases (env : Env.t) (items : list SaleItem.t)
    (paymentMethod : PaymentMethod) (amountPaid : Q)
    (cashierName storeId storeName : string) (st : Storage.t) :
  let r := SaleService.processSale env items paymentMethod amountPaid
             cashierName storeId storeName st in
  let sale := saleRecordOf env items paymentMethod amountPaid cashierName
                storeId storeName in
  (SaleResult.success (fst r) = false /\ SaleResult.sale (fst r) = None /\
   snd r = st /\
   (items = [] \/
    (amountPaid < SaleRecord.total sale)%Q \/
    SaleService.checkStock (Storage.pos_products st) items <> None))
  \/
  (items <> [] /\ (SaleRecord.total sale <= amountPaid)%Q /\
   SaleService.checkStock (Storage.pos_products st) items = None /\
   fst r = SaleResult.mk true (Some sale) None (Some (SaleRecord.change sale))
   /\
   snd r = Storage.setSales (sale :: Storage.pos_sales st)
             (Storage.setProducts
                (SaleService.deductStock (Storage.pos_products st) items)
                st)).
Proof.
  unfold SaleService.processSale, saleRecordOf, ProductService.getAll.
  cbv zeta. cbn [SaleRecord.total SaleRecord.change].
  destruct items as [|item items].
  - left. cbn. repeat split. now left.
  - cbn [List.length Nat.eqb].
    set (items' := item :: items).
    destruct (Js.Qltb amountPaid _) eqn:Hpay.
    + left. cbn. repeat split. right; left. now apply Qltb_true.
    + destruct (SaleService.checkStock _ items') eqn:Hchk.
      * left. cbn. repeat split. right; right. discriminate.
      * right. cbn [fst snd]. repeat split.
        -- discriminate.
        -- now apply Qltb_false.
Qed.

(** C1 (all-or-nothing checkout).  A call that reports failure leaves the
    storage, hence the products and the sales ledger, exactly as it was and
    returns no sale record; and each of the four causes (empty cart, payment
    below the total, a line whose product is unknown, a line asking more
    than the stock) makes the call report failure. *)
Theorem checkout_all_or_nothing (env : Env.t) (items : list SaleItem.t)
    (paymentMethod : PaymentMethod) (amountPaid : Q)
    (cashierName storeId storeName : string) (st : Storage.t) :
  let r := SaleService.processSale env items paymentMethod amountPaid
             cashierName storeId storeName st in
  (SaleResult.success (fst r) = false ->
     snd r = st /\
     Storage.pos_products (snd r) = Storage.pos_products st /\
     Storage.pos_sales (snd r) = Storage.pos_sales st /\
     SaleResult.sale (fst r) = None) /\
  (items = [] \/
   (amountPaid
    < SaleService.sumTotals items
      + SaleService.sumTotals items * SaleService.taxRate)%Q \/
   (exists item, In item items /\
      stockOf (SaleItem.barcode item) (Storage.pos_products st) = None) \/
   (exists item s, In item items /\
      stockOf (SaleItem.barcode item) (Storage.pos_products st) = Some s /\
      s < SaleItem.quantity item) ->
   SaleResult.success (fst r) = false).
Proof.
  intro r. subst r.
  destruct (processSale_cases env items paymentMethod amountPaid cashierName
              storeId storeName st)
    as [(Hs & Hn & Hst & _) | (Hne & Hpay & Hchk & Hr & Hst)].
  - split; [|intros _; exact Hs].
    intros _. rewrite Hst. auto.
  - split.
    + rewrite Hr. cbn. discriminate.
    + intros [H | [H | [(item & Hin & H) | (item & s & Hin & H & Hlt)]]].
      * contradiction.
      * exfalso. apply (Qlt_not_le _ _ H). exact Hpay.
      * exfalso. rewrite checkStock_None, Forall_forall in Hchk.
        destruct (Hchk item Hin) as (p & Hp & _).
        unfold stockOf in H. rewrite Hp in H. discriminate.
      * exfalso. rewrite checkStock_None, Forall_forall in Hchk.
        destruct (Hchk item Hin) as (p & Hp & Hq).
        unfold stockOf in H. rewrite Hp in H. cbn in H. inversion H. lia.
Qed.

(** C3 (payment invariant).  A sale record is returned exactly when the call
    succeeds; it is then the head of the ledger, and its subtotal is the sum
    of its items' totals, its tax is the subtotal times the tax rate (which
    is 0), its total is subtotal plus tax, the amount paid is at least the
    total and the change is the amount paid minus the total.  A call whose
    amount paid is below the total is refused and changes nothing. *)
Theorem payment_invariant (env : Env.t) (items : list SaleItem.t)
    (paymentMethod : PaymentMethod) (amountPaid : Q)
    (cashierName storeId storeName : string) (st : Storage.t) :
  let r := SaleService.processSale env items paymentMethod amountPaid
             cashierName storeId storeName st in
  (SaleResult.success (fst r) = true ->
     exists sale,
       SaleResult.sale (fst r) = Some sale /\
       Storage.pos_sales (snd r) = sale :: Storage.pos_sales st /\
       SaleRecord.items sale = items /\
       SaleRecord.subtotal sale = SaleService.sumTotals (SaleRecord.items sale)
       /\
       SaleRecord.tax sale
         = (SaleRecord.subtotal sale * SaleService.taxRate)%Q /\
       SaleService.taxRate = 0%Q /\
       (SaleRecord.tax sale == 0)%Q /\
       SaleRecord.total sale
         = (SaleRecord.subtotal sale + SaleRecord.tax sale)%Q /\
       SaleRecord.amountPaid sale = amountPaid /\
       (SaleRecord.amountPaid sale >= SaleRecord.total sale)%Q /\
       SaleRecord.change sale
         = (SaleRecord.amountPaid sale - SaleRecord.total sale)%Q /\
       SaleResult.change (fst r) = Some (SaleRecord.change sale)) /\
  (forall sale, SaleResult.sale (fst r) = Some sale ->
     SaleResult.success (fst r) = true) /\
  ((amountPaid
    < SaleService.sumTotals items
      + SaleService.sumTotals items * SaleService.taxRate)%Q ->
   SaleResult.success (fst r) = false /\ SaleResult.sale (fst r) = None /\
   snd r = st).
Proof.
  intro r. subst r.
  destruct (processSale_cases env items paymentMethod amountPaid cashierName
              storeId storeName st)
    as [(Hs & Hn & Hst & _) | (Hne & Hpay & Hchk & Hr & Hst)].
  - repeat split.
    + rewrite Hs. discriminate.
    + intros sale H. rewrite Hn in H. discriminate.
    + exact Hs.
    + exact Hn.
    + exact Hst.
  - rewrite Hr, Hst. cbn [fst snd SaleResult.success SaleResult.sale
                            SaleResult.change]. split; [|split].
    + intros _. eexists. split; [reflexivity|].
      unfold saleRecordOf. cbn. repeat split; try reflexivity.
      * unfold SaleService.taxRate. ring.
      * exact Hpay.
    + reflexivity.
    + intro H. exfalso. apply (Qlt_not_le _ _ H). exact Hpay.
Qed.

(* ------------------------------------------------------------------ *)
(** ** Stock conservation *)

Lemma deductItem_mutateFound (products : list Product.t) (item : SaleItem.t) :
  SaleService.deductItem products item
  = Js.mutateFound (ProductService.hasBarcode (SaleItem.barcode item))
      (fun p => Product.withStock
                  (Product.stock p - SaleItem.quantity item) p)
      products.
Proof. reflexivity. Qed.

Lemma deductItem_stock (b : string) (products : list Product.t)
    (item : SaleItem.t) :
  stockOf b (SaleService.deductItem products item)
  = option_map
      (fun s => s - (if String.eqb (SaleItem.barcode item) b
                     then SaleItem.quantity item else 0))
      (stockOf b products).
Proof.
  rewrite deductItem_mutateFound, stockOf_mutateFound by reflexivity.
  destruct (String.eqb_spec (SaleItem.barcode item) b) as [->|Hne].
  - unfold stockOf. now destruct (find _ products).
  - destruct (stockOf b products); simpl; [f_equal; lia|reflexivity].
Qed.

Lemma deductStock_stock (b : string) (items : list SaleItem.t) :
  forall products,
    stockOf b (SaleService.deductStock products items)
    = option_map (fun s => s - unitsSold b items) (stockOf b products).
Proof.
  unfold SaleService.deductStock.
  induction items as [|item items IH]; intro products; simpl.
  - destruct (stockOf b products); simpl; [f_equal; lia|reflexivity].
  - rewrite IH, deductItem_stock.
    destruct (stockOf b products); simpl; [f_equal; lia|reflexivity].
Qed.

(** What one successful operation does to the stock seen for a barcode. *)
Lemma runOp_stock (b : string) (op : StockOp) (st : Storage.t) :
  fst (runOp op st) = true ->
  stockOf b (Storage.pos_products (snd (runOp op st)))
  = option_map (fun s => s + restockedBy b op - soldBy b op)
      (stockOf b (Storage.pos_products st)).
Proof.
  destruct op as [env barcode quantity performedBy
                 |env items pm paid cashier sid sname]; cbn [runOp fst snd].
  - intro Hok.
    destruct (restock_cases env barcode quantity performedBy st)
      as [(Hfail & _) | (Hq & product & Hf & _ & Hst)].
    + rewrite Hfail in Hok. discriminate.
    + rewrite Hst, stockOf_mutateFound by reflexivity.
      cbn [restockedBy soldBy].
      unfold ProductService.findByBarcode, ProductService.getAll in Hf.
      destruct (String.eqb_spec barcode b) as [->|Hne].
      * unfold stockOf. rewrite Hf. cbn. f_equal. lia.
      * destruct (stockOf b _); cbn; [f_equal; lia|reflexivity].
  - intro Hok.
    destruct (processSale_cases env items pm paid cashier sid sname st)
      as [(Hs & _) | (_ & _ & _ & _ & Hst)].
    + rewrite Hs in Hok. discriminate.
    + rewrite Hst. cbn [Storage.setSales Storage.setProducts
                          Storage.pos_products restockedBy soldBy].
      rewrite deductStock_stock.
      destruct (stockOf b _); cbn; [f_equal; lia|reflexivity].
Qed.

(** Conservation: over any run of successful restocks and successful sales
    the stock of a product ends at its initial stock plus what was
    restocked minus what was sold. *)
Theorem stock_conservation (b : string) (ops : list StockOp) :
  forall st st' s0,
    runSuccessful ops st = Some st' ->
    stockOf b (Storage.pos_products st) = Some s0 ->
    stockOf b (Storage.pos_products st')
    = Some (s0 + sumZ (map (restockedBy b) ops) - sumZ (map (soldBy b) ops)).
Proof.
  induction ops as [|op ops IH]; intros st st' s0 Hrun Hs0.
  - cbn in Hrun. inversion Hrun; subst. rewrite Hs0. cbn. f_equal. lia.
  - cbn [runSuccessful] in Hrun.
    destruct (fst (runOp op st)) eqn:Hok; [|discriminate].
    pose proof (runOp_stock b op st Hok) as Hstep. rewrite Hs0 in Hstep.
    cbn [option_map] in Hstep.
    rewrite (IH _ _ _ Hrun Hstep). cbn [map sumZ fold_right]. f_equal.
    fold (sumZ (map (restockedBy b) ops)). fold (sumZ (map (soldBy b) ops)).
    lia.
Qed.

Lemma unitsSold_absent (b : string) (items : list SaleItem.t) :
  ~ In b (map SaleItem.barcode items) -> unitsSold b items = 0.
Proof.
  induction items as [|item items IH]; simpl; intro H; [reflexivity|].
  destruct (String.eqb_spec (SaleItem.barcode item) b) as [E|E].
  - exfalso. apply H. now left.
  - rewrite IH; [reflexivity|]. intro Hin. apply H. now right.
Qed.

(** With one line per barcode, a cart that passes the stock check never
    asks for more units of a barcode than its stock. *)
Lemma unitsSold_le_stock (b : string) (products : list Product.t)
    (items : list SaleItem.t) (s : Z) :
  NoDup (map SaleItem.barcode items) ->
  SaleService.checkStock products items = None ->
  stockOf b products = Some s -> 0 <= s ->
  unitsSold b items <= s.
Proof.
  intros Hnd Hchk Hs Hpos. rewrite checkStock_None in Hchk.
  induction items as [|item items IH]; simpl; [lia|].
  inversion Hnd as [|x l Hnotin Hnd']; subst.
  inversion Hchk as [|x l (p & Hp & Hq) Hchk']; subst.
  destruct (String.eqb_spec (SaleItem.barcode item) b) as [E|E].
  - subst b. rewrite (unitsSold_absent _ _ Hnotin).
    unfold stockOf in Hs. rewrite Hp in Hs. cbn in Hs. inversion Hs. lia.
  - specialize (IH Hnd' Hchk'). lia.
Qed.

(** Non-negativity holds along runs whose sales carry one line per
    barcode. *)
Lemma stocksNonNegative_distinctLines (ops : list StockOp) :
  forall st st',
    Forall distinctLines ops ->
    stocksNonNegative st ->
    runSuccessful ops st = Some st' ->
    stocksNonNegative st'.
Proof.
  induction ops as [|op ops IH]; intros st st' Hd Hnn Hrun.
  - cbn in Hrun. inversion Hrun; subst. exact Hnn.
  - cbn [runSuccessful] in Hrun.
    destruct (fst (runOp op st)) eqn:Hok; [|discriminate].
    inversion Hd as [|x l Hop Hd']; subst.
    apply (IH (snd (runOp op st)) st' Hd'); [|exact Hrun].
    intros b s Hs. rewrite (runOp_stock b op st Hok) in Hs.
    destruct (stockOf b (Storage.pos_products st)) as [s0|] eqn:Hs0;
      [|discriminate].
    cbn in Hs. inversion Hs; subst s. pose proof (Hnn b s0 Hs0) as Hpos.
    destruct op as [env barcode quantity performedBy
                   |env items pm paid cashier sid sname];
      cbn [restockedBy soldBy].
    + cbn [runOp fst] in Hok.
      destruct (restock_cases env barcode quantity performedBy st)
        as [(Hfail & _) | (Hq & _)].
      * rewrite Hfail in Hok. discriminate.
      * destruct (String.eqb barcode b); lia.
    + cbn [runOp fst] in Hok. cbn [distinctLines] in Hop.
      destruct (processSale_cases env items pm paid cashier sid sname st)
        as [(Hfail & _) | (_ & _ & Hchk & _ & _)].
      * rewrite Hfail in Hok. discriminate.
      * pose proof (unitsSold_le_stock b _ _ s0 Hop Hchk Hs0 Hpos). lia.
Qed.

(** C2 (stock conservation and non-negativity), at its failing input.  From
    a storage whose only stock is 5, the sale of two lines of 3 units of
    the same barcode is accepted, each line passing the check on its own,
    and leaves the stock at -1. *)
Theorem repeated_barcode_drives_stock_negative :
  let r := SaleService.processSale env0 [line123; line123] cash 60%Q
             "alice" "store-001" "Main Store" storage123 in
  stocksNonNegative storage123 /\
  SaleResult.success (fst r) = true /\
  runSuccessful [OpSale env0 [line123; line123] cash 60%Q
                   "alice" "store-001" "Main Store"] storage123
    = Some (snd r) /\
  stockOf "123" (Storage.pos_products (snd r)) = Some (-1) /\
  ~ stocksNonNegative (snd r).
Proof.
  cbv zeta. split; [|split; [|split; [|split]]].
  - intros b s. unfold stockOf, storage123.
    cbn [Storage.pos_products find]. unfold ProductService.hasBarcode.
    destruct (String.eqb (Product.barcode product123) b); cbn;
      intro H; inversion H. lia.
  - vm_compute. reflexivity.
  - vm_compute. reflexivity.
  - vm_compute. reflexivity.
  - intro H. specialize (H "123" (-1)).
    assert (0 <= -1) as Habs by (apply H; vm_compute; reflexivity). lia.
Qed.

(* ------------------------------------------------------------------ *)
(** ** Stock transfers *)

(** C6 (transfer creation), as the code has it.  [create] always reports
    success and appends exactly one transfer at the end of the collection,
    leaving the stored ones and the other collections alone; the new
    transfer carries the fields of the request, its status included, so it
    is pending exactly when the request says pending. *)
Theorem create_appends_request (env : Env.t) (transfer : TransferRequest.t)
    (st : Storage.t) :
  let r := StockTransferService.create env transfer st in
  fst r = Result.ok /\
  (exists newTransfer,
     Storage.pos_stock_transfers (snd r)
       = (Storage.pos_stock_transfers st ++ [newTransfer])%list /\
     StockTransfer.status newTransfer = TransferRequest.status transfer /\
     (TransferRequest.status transfer = pending ->
        StockTransfer.status newTransfer = pending) /\
     StockTransfer.id newTransfer = "transfer-" ++ Js.showZ (Env.now env) /\
     StockTransfer.timestamp newTransfer = Env.isoNow env /\
     StockTransfer.barcode newTransfer = TransferRequest.barcode transfer /\
     StockTransfer.quantity newTransfer = TransferRequest.quantity transfer /\
     StockTransfer.fromStoreId newTransfer
       = TransferRequest.fromStoreId transfer /\
     StockTransfer.toStoreId newTransfer
       = TransferRequest.toStoreId transfer) /\
  Storage.pos_products (snd r) = Storage.pos_products st /\
  Storage.pos_sales (snd r) = Storage.pos_sales st /\
  Storage.pos_stock_logs (snd r) = Storage.pos_stock_logs st.
Proof.
  unfold StockTransferService.create, StockTransferService.getAll.
  cbv zeta. cbn [fst snd]. split; [reflexivity|]. split.
  - eexists. split; [reflexivity|]. cbn. repeat split. auto.
  - repeat split.
Qed.

(** C6, the claim as stated fails: a request whose status is [completed]
    is stored as it is, so the new transfer is not pending. *)
Lemma create_keeps_completed_status :
  let r := StockTransferService.create env0 requestCompleted storage123 in
  fst r = Result.ok /\
  exists newTransfer,
    Storage.pos_stock_transfers (snd r)
      = (Storage.pos_stock_transfers storage123 ++ [newTransfer])%list /\
    StockTransfer.status newTransfer = completed /\
    StockTransfer.status newTransfer <> pending.
Proof.
  cbv zeta. split; [reflexivity|].
  eexists. split; [reflexivity|]. cbn. split; [reflexivity|discriminate].
Qed.

Lemma status_eqb_pending (s : TransferStatus) :
  TransferStatus.eqb s pending = true <-> s = pending.
Proof. destruct s; cbn; split; congruence. Qed.

(** A transfer that has left [pending] is not touched by any operation. *)
Lemma runTransferOp_final (op : TransferOp) (st : Storage.t) (i : nat)
    (x : StockTransfer.t) :
  nth_error (StockTransferService.getAll st) i = Some x ->
  StockTransfer.status x <> pending ->
  nth_error (StockTransferService.getAll (runTransferOp st op)) i = Some x.
Proof.
  intros Hx Hfinal.
  destruct op as [env transfer|env transferId|transferId];
    cbn [runTransferOp].
  - unfold StockTransferService.create, StockTransferService.getAll in *.
    cbn. rewrite nth_error_app1; [exact Hx|].
    apply nth_error_Some. congruence.
  - unfold StockTransferService.complete.
    destruct (Js.findIndex _ _) as [j|] eqn:Hj; [|exact Hx].
    destruct (nth_error (StockTransferService.getAll st) j) as [y|] eqn:Hy;
      [|exact Hx].
    destruct (TransferStatus.eqb (StockTransfer.status y) pending) eqn:Hp;
      cbn [negb]; [|exact Hx].
    apply status_eqb_pending in Hp.
    unfold StockTransferService.getAll in *. cbn.
    rewrite updateAt_nth_other; [exact Hx|].
    intros ->. congruence.
  - unfold StockTransferService.cancel.
    destruct (Js.findIndex _ _) as [j|] eqn:Hj; [|exact Hx].
    destruct (nth_error (StockTransferService.getAll st) j) as [y|] eqn:Hy;
      [|exact Hx].
    destruct (TransferStatus.eqb (StockTransfer.status y) pending) eqn:Hp;
      cbn [negb]; [|exact Hx].
    apply status_eqb_pending in Hp.
    unfold StockTransferService.getAll in *. cbn.
    rewrite updateAt_nth_other; [exact Hx|].
    intros ->. congruence.
Qed.

Lemma runTransferOps_final (ops : list TransferOp) :
  forall (st : Storage.t) (i : nat) (x : StockTransfer.t),
    nth_error (StockTransferService.getAll st) i = Some x ->
    StockTransfer.status x <> pending ->
    nth_error (StockTransferService.getAll (fold_left runTransferOp ops st)) i
    = Some x.
Proof.
  induction ops as [|op ops IH]; intros st i x Hx Hfinal; [exact Hx|].
  cbn [fold_left]. apply IH; [|exact Hfinal].
  now apply runTransferOp_final.
Qed.

(** When the stored ids are distinct, every stored transfer is the one its
    id designates. *)
Lemma distinct_ids_designate (transfers : list StockTransfer.t) :
  forall (i : nat) (x : StockTransfer.t),
    NoDup (map StockTransfer.id transfers) ->
    nth_error transfers i = Some x ->
    Js.findIndex (StockTransferService.hasId (StockTransfer.id x)) transfers
    = Some i.
Proof.
  induction transfers as [|y transfers IH]; intros [|i] x Hnd Hx;
    simpl in Hx; try discriminate.
  - inversion Hx; subst. simpl. unfold StockTransferService.hasId.
    now rewrite String.eqb_refl.
  - inversion Hnd as [|? ? Hnotin Hnd']; subst. simpl.
    unfold StockTransferService.hasId at 1.
    destruct (String.eqb_spec (StockTransfer.id y) (StockTransfer.id x))
      as [E|E].
    + exfalso. apply Hnotin. rewrite E. apply in_map.
      exact (nth_error_In _ _ Hx).
    + now rewrite (IH i x Hnd' Hx).
Qed.

(** The first stored transfer with an id is the one [findIndex] reaches. *)
Lemma firstWithItsId_findIndex (transfers : list StockTransfer.t) :
  forall (index : nat) (found : StockTransfer.t),
    firstWithItsId transfers index found ->
    Js.findIndex (StockTransferService.hasId (StockTransfer.id found))
      transfers = Some index.
Proof.
  unfold firstWithItsId.
  induction transfers as [|y transfers IH]; intros [|index] found (Hx & Hfirst);
    simpl in Hx; try discriminate.
  - inversion Hx; subst. simpl. unfold StockTransferService.hasId.
    now rewrite String.eqb_refl.
  - simpl. unfold StockTransferService.hasId at 1.
    destruct (String.eqb_spec (StockTransfer.id y) (StockTransfer.id found))
      as [E|E].
    + exfalso. apply (Hfirst O y); [lia|reflexivity|exact E].
    + rewrite (IH index found); [reflexivity|]. split; [exact Hx|].
      intros j earlier Hj Hn. apply (Hfirst (S j) earlier); [lia|exact Hn].
Qed.

(** When the stored ids are distinct, every stored transfer is the first
    with its id. *)
Lemma distinct_ids_all_first (transfers : list StockTransfer.t) (index : nat)
    (found : StockTransfer.t) :
  NoDup (map StockTransfer.id transfers) ->
  nth_error transfers index = Some found ->
  firstWithItsId transfers index found.
Proof.
  intros Hnd Hfound. split; [exact Hfound|].
  intros j earlier Hj Hearlier E.
  assert (j = index); [|lia].
  apply (proj1 (NoDup_nth_error (map StockTransfer.id transfers)) Hnd).
  - rewrite length_map. apply nth_error_Some. congruence.
  - rewrite (map_nth_error _ _ _ Hearlier), (map_nth_error _ _ _ Hfound).
    now rewrite E.
Qed.

(** A change that keeps the ids keeps the transfer each id designates. *)
Lemma findIndex_updateAt_id (transferId : string)
    (g : StockTransfer.t -> StockTransfer.t)
    (transfers : list StockTransfer.t) :
  (forall x, StockTransfer.id (g x) = StockTransfer.id x) ->
  forall index,
    Js.findIndex (StockTransferService.hasId transferId)
      (Js.updateAt index g transfers)
    = Js.findIndex (StockTransferService.hasId transferId) transfers.
Proof.
  intro Hg. induction transfers as [|y transfers IH]; intros [|index];
    cbn [Js.updateAt Js.findIndex]; try reflexivity.
  - unfold StockTransferService.hasId. now rewrite Hg.
  - now rewrite IH.
Qed.

(** C7 (transfer state machine), the claim as stated fails: two requests
    made in the same millisecond are stored under one id; once the first is
    completed the second is still pending, and [complete] and [cancel]
    called with its id both fail and leave it pending. *)
Lemma same_clock_transfer_stays_pending :
  let transferId := "transfer-1762041600000" in
  let st := snd (StockTransferService.complete env0 transferId
                   storageSameClock) in
  exists second,
    nth_error (StockTransferService.getAll st) 1 = Some second /\
    StockTransfer.id second = transferId /\
    StockTransfer.barcode second = "456" /\
    StockTransfer.status second = pending /\
    StockTransferService.complete env0 (StockTransfer.id second) st
    = (Result.fail "Transfer is not pending", st) /\
    StockTransferService.cancel (StockTransfer.id second) st
    = (Result.fail "Can only cancel pending transfers", st).
Proof.
  cbv zeta. eexists. split; [reflexivity|]. cbn [StockTransfer.id
    StockTransfer.barcode StockTransfer.status TransferRequest.barcode
    TransferRequest.status requestGadgets].
  split; [reflexivity|]. split; [reflexivity|]. split; [reflexivity|].
  split; reflexivity.
Qed.

(** C7 (transfer state machine), as the code has it.  For a stored transfer
    that is the first stored transfer with its id: when its status is not
    pending, [complete] and [cancel] both fail and leave the storage as it
    was, and the transfer stays as it is under every sequence of create,
    complete and cancel; when it is pending, [complete] succeeds and stores
    it with status completed and [completedAt] set to the time of the
    call, [cancel] succeeds and stores it with status cancelled, no other
    field and no other transfer changing; after either, [complete] and
    [cancel] fail on it and every sequence of operations leaves it as it
    is, so the pending state is left at most once. *)
Theorem transfer_state_machine (env : Env.t) (st : Storage.t) (index : nat)
    (found : StockTransfer.t) :
  firstWithItsId (StockTransferService.getAll st) index found ->
  let transferId := StockTransfer.id found in
  let rc := StockTransferService.complete env transferId st in
  let rx := StockTransferService.cancel transferId st in
  let completedForm :=
    StockTransfer.mk (StockTransfer.id found)
      (StockTransfer.fromStoreId found) (StockTransfer.toStoreId found)
      (StockTransfer.fromStoreName found) (StockTransfer.toStoreName found)
      (StockTransfer.barcode found) (StockTransfer.productName found)
      (StockTransfer.quantity found) completed
      (StockTransfer.requestedBy found) (Some (Env.isoNow env))
      (StockTransfer.timestamp found) in
  let cancelledForm :=
    StockTransfer.mk (StockTransfer.id found)
      (StockTransfer.fromStoreId found) (StockTransfer.toStoreId found)
      (StockTransfer.fromStoreName found) (StockTransfer.toStoreName found)
      (StockTransfer.barcode found) (StockTransfer.productName found)
      (StockTransfer.quantity found) cancelled
      (StockTransfer.requestedBy found) (StockTransfer.completedAt found)
      (StockTransfer.timestamp found) in
  (StockTransfer.status found <> pending ->
     rc = (Result.fail "Transfer is not pending", st) /\
     rx = (Result.fail "Can only cancel pending transfers", st) /\
     forall ops,
       nth_error
         (StockTransferService.getAll (fold_left runTransferOp ops st)) index
       = Some found) /\
  (StockTransfer.status found = pending ->
     (fst rc = Result.ok /\
      nth_error (StockTransferService.getAll (snd rc)) index
        = Some completedForm /\
      (forall j, j <> index ->
         nth_error (StockTransferService.getAll (snd rc)) j
         = nth_error (StockTransferService.getAll st) j) /\
      (forall env',
         StockTransferService.complete env' transferId (snd rc)
         = (Result.fail "Transfer is not pending", snd rc)) /\
      StockTransferService.cancel transferId (snd rc)
        = (Result.fail "Can only cancel pending transfers", snd rc) /\
      forall ops,
        nth_error
          (StockTransferService.getAll (fold_left runTransferOp ops (snd rc)))
          index
        = Some completedForm) /\
     (fst rx = Result.ok /\
      nth_error (StockTransferService.getAll (snd rx)) index
        = Some cancelledForm /\
      (forall j, j <> index ->
         nth_error (StockTransferService.getAll (snd rx)) j
         = nth_error (StockTransferService.getAll st) j) /\
      (forall env',
         StockTransferService.complete env' transferId (snd rx)
         = (Result.fail "Transfer is not pending", snd rx)) /\
      StockTransferService.cancel transferId (snd rx)
        = (Result.fail "Can only cancel pending transfers", snd rx) /\
      forall ops,
        nth_error
          (StockTransferService.getAll (fold_left runTransferOp ops (snd rx)))
          index
        = Some cancelledForm)).
Proof.
  intros Hfirst. cbv zeta.
  pose proof (firstWithItsId_findIndex _ _ _ Hfirst) as Hidx.
  destruct Hfirst as (Hfound & _).
  assert (Hafter : forall (g : StockTransfer.t -> StockTransfer.t),
            (forall x, StockTransfer.id (g x) = StockTransfer.id x) ->
            StockTransfer.status (g found) <> pending ->
            let st' :=
              Storage.setStockTransfers
                (Js.updateAt index g (StockTransferService.getAll st)) st in
            nth_error (StockTransferService.getAll st') index
              = Some (g found) /\
            (forall j, j <> index ->
               nth_error (StockTransferService.getAll st') j
               = nth_error (StockTransferService.getAll st) j) /\
            (forall env',
               StockTransferService.complete env' (StockTransfer.id found) st'
               = (Result.fail "Transfer is not pending", st')) /\
            StockTransferService.cancel (StockTransfer.id found) st'
              = (Result.fail "Can only cancel pending transfers", st') /\
            forall ops,
              nth_error
                (StockTransferService.getAll (fold_left runTransferOp ops st'))
                index
              = Some (g found)).
  { intros g Hg Hfinal st'.
    assert (Hnth : nth_error (StockTransferService.getAll st') index
                   = Some (g found)).
    { unfold st', StockTransferService.getAll in *.
      cbn [Storage.setStockTransfers Storage.pos_stock_transfers].
      now rewrite (updateAt_nth_same _ _ _ _ Hfound). }
    assert (Hidx' : Js.findIndex
                      (StockTransferService.hasId (StockTransfer.id found))
                      (StockTransferService.getAll st') = Some index).
    { unfold st', StockTransferService.getAll in *.
      cbn [Storage.setStockTransfers Storage.pos_stock_transfers].
      now rewrite findIndex_updateAt_id. }
    assert (Hp : TransferStatus.eqb (StockTransfer.status (g found)) pending
                 = false).
    { destruct (TransferStatus.eqb _ _) eqn:E; [|reflexivity].
      apply status_eqb_pending in E. contradiction. }
    split; [exact Hnth|]. split.
    { intros j Hj. unfold st', StockTransferService.getAll.
      cbn [Storage.setStockTransfers Storage.pos_stock_transfers].
      apply updateAt_nth_other. congruence. }
    split.
    { intro env'. unfold StockTransferService.complete.
      now rewrite Hidx', Hnth, Hp. }
    split.
    { unfold StockTransferService.cancel. now rewrite Hidx', Hnth, Hp. }
    intro ops. now apply runTransferOps_final. }
  split.
  - intro Hfinal.
    assert (Hp : TransferStatus.eqb (StockTransfer.status found) pending
                 = false).
    { destruct (TransferStatus.eqb _ _) eqn:E; [|reflexivity].
      apply status_eqb_pending in E. contradiction. }
    unfold StockTransferService.complete, StockTransferService.cancel.
    rewrite Hidx, Hfound, Hp. cbn [negb]. split; [reflexivity|].
    split; [reflexivity|]. intro ops. now apply runTransferOps_final.
  - intro Hpending.
    assert (Hp : TransferStatus.eqb (StockTransfer.status found) pending
                 = true) by now apply status_eqb_pending.
    assert (Hrc : StockTransferService.complete env (StockTransfer.id found)
                    st
                  = (Result.ok,
                     Storage.setStockTransfers
                       (Js.updateAt index
                          (fun x =>
                             StockTransfer.withCompletedAt (Env.isoNow env)
                               (StockTransfer.withStatus completed x))
                          (StockTransferService.getAll st)) st)).
    { unfold StockTransferService.complete. now rewrite Hidx, Hfound, Hp. }
    assert (Hrx : StockTransferService.cancel (StockTransfer.id found) st
                  = (Result.ok,
                     Storage.setStockTransfers
                       (Js.updateAt index (StockTransfer.withStatus cancelled)
                          (StockTransferService.getAll st)) st)).
    { unfold StockTransferService.cancel. now rewrite Hidx, Hfound, Hp. }
    rewrite Hrc, Hrx. cbn [fst snd]. split.
    + split; [reflexivity|].
      refine (Hafter
                (fun x => StockTransfer.withCompletedAt (Env.isoNow env)
                            (StockTransfer.withStatus completed x)) _ _).
      * intro x. reflexivity.
      * cbn. discriminate.
    + split; [reflexivity|].
      refine (Hafter (StockTransfer.withStatus cancelled) _ _).
      * intro x. reflexivity.
      * cbn. discriminate.
Qed.

(* ------------------------------------------------------------------ *)
(** ** Cart assembly: handleScan *)

Lemma itemHasBarcode_true (barcode : string) (item : CartItem.t) :
  CashierView.itemHasBarcode barcode item = true <->
  cartBarcode item = barcode.
Proof. unfold CashierView.itemHasBarcode. apply String.eqb_eq. Qed.

Lemma find_None_iff {A : Type} (f : A -> bool) (l : list A) :
  find f l = None <-> forall x, In x l -> f x = false.
Proof.
  split; [intros H x Hin; exact (find_none f l H x Hin)|].
  induction l as [|y l IH]; intro H; simpl; [reflexivity|].
  rewrite (H y (or_introl eq_refl)). apply IH.
  intros x Hin. apply H. now right.
Qed.

(** In a cart with one line per barcode, [find] returns the line of the
    barcode wherever it is. *)
Lemma find_unique_line (barcode : string) (cart : list CartItem.t)
    (item : CartItem.t) :
  NoDup (map cartBarcode cart) -> In item cart ->
  cartBarcode item = barcode ->
  find (CashierView.itemHasBarcode barcode) cart = Some item.
Proof.
  induction cart as [|y cart IH]; simpl; intros Hnd Hin Hb; [contradiction|].
  inversion Hnd as [|? ? Hnotin Hnd']; subst.
  destruct Hin as [->|Hin].
  - now rewrite (proj2 (itemHasBarcode_true _ _) eq_refl).
  - destruct (CashierView.itemHasBarcode (cartBarcode item) y) eqn:E.
    + apply itemHasBarcode_true in E. exfalso. apply Hnotin.
      rewrite E. now apply in_map.
    + now apply IH.
Qed.

(** In such a cart the [map] of [handleScan] changes the line of the
    barcode and no other. *)
Lemma bump_unique_line (barcode : string) (cart : list CartItem.t)
    (item : CartItem.t) :
  NoDup (map cartBarcode cart) ->
  find (CashierView.itemHasBarcode barcode) cart = Some item ->
  exists before after,
    cart = (before ++ item :: after)%list /\
    map (fun i => if CashierView.itemHasBarcode barcode i
                  then addOne i else i) cart
    = (before ++ addOne item :: after)%list.
Proof.
  induction cart as [|y cart IH]; simpl; intros Hnd Hf; [discriminate|].
  inversion Hnd as [|? ? Hnotin Hnd']; subst.
  destruct (CashierView.itemHasBarcode barcode y) eqn:E.
  - inversion Hf; subst y. exists [], cart. split; [reflexivity|].
    simpl. f_equal. apply itemHasBarcode_true in E.
    rewrite <- (map_id cart) at 2. apply map_ext_in.
    intros i Hi. destruct (CashierView.itemHasBarcode barcode i) eqn:Ei;
      [|reflexivity].
    apply itemHasBarcode_true in Ei. exfalso. apply Hnotin.
    rewrite E, <- Ei. now apply in_map.
  - destruct (IH Hnd' Hf) as (before & after & -> & Hm).
    exists (y :: before), after. split; [reflexivity|].
    simpl. now rewrite Hm.
Qed.

Lemma dropNull_barcodes (barcode : string) (delta : Z)
    (cart : list CartItem.t) :
  NoDup (map cartBarcode cart) ->
  NoDup (map cartBarcode
           (CashierView.dropNull
              (map (CashierView.updateItem barcode delta) cart))) /\
  forall b,
    In b (map cartBarcode
            (CashierView.dropNull
               (map (CashierView.updateItem barcode delta) cart))) ->
    In b (map cartBarcode cart).
Proof.
  induction cart as [|y cart IH]; simpl; intro Hnd; [split; auto|].
  inversion Hnd as [|? ? Hnotin Hnd']; subst.
  destruct (IH Hnd') as (IH1 & IH2).
  assert (Hcases :
    CashierView.updateItem barcode delta y = None \/
    exists y', CashierView.updateItem barcode delta y = Some y' /\
               cartBarcode y' = cartBarcode y).
  { unfold CashierView.updateItem.
    destruct (CashierView.itemHasBarcode barcode y); [|right; eauto].
    destruct (_ <=? 0); [now left|].
    destruct (_ >? _); right; eauto. }
  destruct Hcases as [-> | (y' & -> & Hy')]; simpl.
  - split; [exact IH1|]. intros b Hb. right. now apply IH2.
  - rewrite Hy'. split.
    + constructor; [|exact IH1]. intro Hin. apply Hnotin. now apply IH2.
    + intros b [Hb|Hb]; [now left|right; now apply IH2].
Qed.

Lemma filter_barcodes (g : CartItem.t -> bool) (cart : list CartItem.t) :
  NoDup (map cartBarcode cart) -> NoDup (map cartBarcode (filter g cart)).
Proof.
  induction cart as [|y cart IH]; simpl; intro Hnd; [constructor|].
  inversion Hnd as [|? ? Hnotin Hnd']; subst.
  destruct (g y); simpl; [|now apply IH].
  constructor; [|now apply IH].
  intro Hin. apply Hnotin. apply in_map_iff in Hin.
  destruct Hin as (x & Hx & Hin). apply filter_In in Hin.
  apply in_map_iff. exists x. tauto.
Qed.

(** The cart of the component holds at most one line per barcode. *)
Lemma CartState_one_line_per_barcode (cart : list CartItem.t) :
  CashierView.CartState cart -> NoDup (map cartBarcode cart).
Proof.
  induction 1 as [|st barcode cart _ IH|barcode delta cart _ IH
                 |barcode cart _ IH].
  - constructor.
  - unfold CashierView.handleScan.
    destruct (ProductService.findByBarcode barcode st) as [product|] eqn:Hp;
      [|exact IH].
    destruct (find _ cart) as [existingItem|] eqn:Hf.
    + destruct (_ >=? _); cbn [snd]; [exact IH|].
      rewrite map_map.
      erewrite map_ext; [exact IH|].
      intro i. now destruct (CashierView.itemHasBarcode barcode i).
    + destruct (_ =? 0); cbn [snd]; [exact IH|].
      rewrite map_app. cbn [map].
      apply NoDup_app_remove_l with (l := []). cbn [app].
      apply Permutation_NoDup with (l := cartBarcode (CartItem.mk product 1)
                                          :: map cartBarcode cart).
      * apply Permutation_cons_append.
      * constructor; [|exact IH].
        unfold ProductService.findByBarcode in Hp. apply find_some in Hp.
        destruct Hp as (_ & Hp). apply hasBarcode_true in Hp.
        unfold cartBarcode at 1. cbn. rewrite Hp.
        intro Hin. apply in_map_iff in Hin. destruct Hin as (x & Hx & Hin).
        pose proof (find_none _ _ Hf x Hin) as Hno.
        apply itemHasBarcode_true in Hx. congruence.
  - now apply dropNull_barcodes.
  - now apply filter_barcodes.
Qed.

(** C4 (scan semantics).  For every storage, barcode and cart of the
    component: when no product has the barcode the scan signals
    NotRegistered and the cart is unchanged; when a cart line for the
    barcode has a quantity at or above the product's stock it signals
    StockLimitExceeded and the cart is unchanged; when the stock is 0 and
    no cart line has the barcode it signals OutOfStock and the cart is
    unchanged; in every other case it succeeds and either raises the
    quantity of the line of that barcode by exactly 1, the other lines
    staying as they are, or appends a new line with quantity 1. *)
Theorem scan_semantics (st : Storage.t) (barcode : string)
    (cart : list CartItem.t) :
  CashierView.CartState cart ->
  let r := CashierView.handleScan st barcode cart in
  ((forall p, In p (Storage.pos_products st) ->
      Product.barcode p <> barcode) ->
   fst r = CashierView.NotRegistered /\ snd r = cart) /\
  (forall product item,
     ProductService.findByBarcode barcode st = Some product ->
     In item cart -> cartBarcode item = barcode ->
     CartItem.quantity item >= Product.stock product ->
     fst r = CashierView.StockLimitExceeded product /\ snd r = cart) /\
  (forall product,
     ProductService.findByBarcode barcode st = Some product ->
     Product.stock product = 0 ->
     (forall item, In item cart -> cartBarcode item <> barcode) ->
     fst r = CashierView.OutOfStock product /\ snd r = cart) /\
  (forall product item,
     ProductService.findByBarcode barcode st = Some product ->
     In item cart -> cartBarcode item = barcode ->
     CartItem.quantity item < Product.stock product ->
     CashierView.type (fst r) = CashierView.success /\
     exists before after,
       cart = (before ++ item :: after)%list /\
       snd r
       = (before
          ++ CartItem.mk (CartItem.product item) (CartItem.quantity item + 1)
          :: after)%list) /\
  (forall product,
     ProductService.findByBarcode barcode st = Some product ->
     Product.stock product <> 0 ->
     (forall item, In item cart -> cartBarcode item <> barcode) ->
     CashierView.type (fst r) = CashierView.success /\
     snd r = (cart ++ [CartItem.mk product 1])%list).
Proof.
  intros Hcart r. subst r.
  pose proof (CartState_one_line_per_barcode cart Hcart) as Hnd.
  unfold CashierView.handleScan.
  split; [|split; [|split; [|split]]].
  - intro Hnone.
    assert (ProductService.findByBarcode barcode st = None) as ->;
      [|now split].
    apply find_None_iff. intros p Hp.
    destruct (ProductService.hasBarcode barcode p) eqn:E; [|reflexivity].
    apply hasBarcode_true in E. exfalso. exact (Hnone p Hp E).
  - intros product item Hp Hin Hb Hq. rewrite Hp.
    rewrite (find_unique_line barcode cart item Hnd Hin Hb).
    destruct (Z.geb_spec (CartItem.quantity item) (Product.stock product));
      [now split|lia].
  - intros product Hp Hzero Hnone. rewrite Hp.
    assert (find (CashierView.itemHasBarcode barcode) cart = None) as ->.
    { apply find_None_iff. intros x Hx.
      destruct (CashierView.itemHasBarcode barcode x) eqn:E; [|reflexivity].
      apply itemHasBarcode_true in E. exfalso. exact (Hnone x Hx E). }
    rewrite Hzero. now split.
  - intros product item Hp Hin Hb Hq. rewrite Hp.
    pose proof (find_unique_line barcode cart item Hnd Hin Hb) as Hf.
    rewrite Hf.
    destruct (Z.geb_spec (CartItem.quantity item) (Product.stock product));
      [lia|].
    cbn [fst snd CashierView.type]. split; [reflexivity|].
    destruct (bump_unique_line barcode cart item Hnd Hf)
      as (before & after & Hc & Hm).
    exists before, after. split; [exact Hc|exact Hm].
  - intros product Hp Hstock Hnone. rewrite Hp.
    assert (find (CashierView.itemHasBarcode barcode) cart = None) as ->.
    { apply find_None_iff. intros x Hx.
      destruct (CashierView.itemHasBarcode barcode x) eqn:E; [|reflexivity].
      apply itemHasBarcode_true in E. exfalso. exact (Hnone x Hx E). }
    destruct (Z.eqb_spec (Product.stock product) 0); [contradiction|].
    now split.
Qed.

(* ------------------------------------------------------------------ *)
(** ** Daily totals *)

Section DailyTotalsFacts.
Variable timeValue : string -> option Z.
Variables startOfDay endOfDay : Z -> Z.

Lemma tally_step (acc : (PaymentMethod -> PaymentStats.t) * Z)
    (sale : SaleRecord.t) :
  (amountOverMethods (fst (SaleServiceDates.tally acc sale))
   == amountOverMethods (fst acc) + SaleRecord.total sale)%Q /\
  countOverMethods (fst (SaleServiceDates.tally acc sale))
  = countOverMethods (fst acc) + 1.
Proof.
  unfold SaleServiceDates.tally, amountOverMethods, countOverMethods.
  cbn [fst]. destruct (SaleRecord.paymentMethod sale); cbn; split;
    try ring; lia.
Qed.

Lemma tally_fold (sales : list SaleRecord.t) :
  forall (acc : (PaymentMethod -> PaymentStats.t) * Z) (revenue : Q),
    (amountOverMethods (fst (fold_left SaleServiceDates.tally sales acc))
     - amountOverMethods (fst acc)
     == fold_left (fun sum sale => sum + SaleRecord.total sale) sales
          revenue
        - revenue)%Q /\
    countOverMethods (fst (fold_left SaleServiceDates.tally sales acc))
    = countOverMethods (fst acc) + Z.of_nat (List.length sales).
Proof.
  induction sales as [|sale sales IH]; intros acc revenue.
  - cbn. split; [ring|lia].
  - cbn [fold_left List.length].
    destruct (IH (SaleServiceDates.tally acc sale)
                (revenue + SaleRecord.total sale)%Q) as (IHa & IHc).
    destruct (tally_step acc sale) as (Ha & Hc).
    split.
    + lra.
    + rewrite IHc, Hc. lia.
Qed.

(** Daily totals in exact arithmetic.  With the amounts as rationals, for
    every date and store filter the total revenue of the day equals the
    sum of the amounts of the three payment methods, and the number of
    sales equals the sum of their counts.  In the doubles of the program
    the two sums of amounts are rounded on the way and need not be equal
    (see the daily totals in double precision below). *)
Theorem daily_totals_consistent (date : Z) (storeId : option string)
    (st : Storage.t) :
  let r := SaleServiceDates.getDailyTotals timeValue startOfDay endOfDay
             date storeId st in
  (DailyTotals.totalRevenue r
   == PaymentStats.amount (DailyTotals.byPaymentMethod r cash)
      + PaymentStats.amount (DailyTotals.byPaymentMethod r mobile_money)
      + PaymentStats.amount (DailyTotals.byPaymentMethod r card))%Q /\
  DailyTotals.totalSales r
  = PaymentStats.count (DailyTotals.byPaymentMethod r cash)
    + PaymentStats.count (DailyTotals.byPaymentMethod r mobile_money)
    + PaymentStats.count (DailyTotals.byPaymentMethod r card).
Proof.
  unfold SaleServiceDates.getDailyTotals. cbv zeta.
  cbn [DailyTotals.totalRevenue DailyTotals.totalSales
       DailyTotals.byPaymentMethod].
  set (sales := SaleServiceDates.getByDateRange _ _ _ _ _).
  destruct (tally_fold sales
              (fun _ : PaymentMethod => PaymentStats.mk 0 0%Q, 0) 0%Q)
    as (Ha & Hc).
  fold (amountOverMethods
          (fst (fold_left SaleServiceDates.tally sales
                  (fun _ : PaymentMethod => PaymentStats.mk 0 0%Q, 0)))).
  fold (countOverMethods
          (fst (fold_left SaleServiceDates.tally sales
                  (fun _ : PaymentMethod => PaymentStats.mk 0 0%Q, 0)))).
  split.
  - cbn [fst] in Ha. unfold amountOverMethods at 2 in Ha.
    cbn [PaymentStats.amount] in Ha. lra.
  - rewrite Hc. unfold countOverMethods. cbn. lia.
Qed.

End DailyTotalsFacts.

(* ------------------------------------------------------------------ *)
(** ** Objects used as maps *)

Lemma fold_left_Qplus (l : list Q) :
  forall a, (fold_left Qplus l a == a + sumQ l)%Q.
Proof.
  induction l as [|x l IH]; intro a; cbn [fold_left sumQ fold_right].
  - ring.
  - rewrite IH. unfold sumQ. ring.
Qed.

Section ObjectFacts.
Context {V : Type}.
Implicit Types (o : list (string * V)) (k : string) (v : V).

Lemma get_Some_In o k v : JsObject.get k o = Some v -> In (k, v) o.
Proof.
  induction o as [|[k' v'] o IH]; simpl; [discriminate|].
  destruct (String.eqb_spec k' k) as [->|Hne]; intro H.
  - inversion H. now left.
  - right. now apply IH.
Qed.

Lemma get_None_keys o k :
  JsObject.get k o = None <-> ~ In k (map fst o).
Proof.
  induction o as [|[k' v'] o IH]; simpl; [tauto|].
  destruct (String.eqb_spec k' k) as [->|Hne].
  - split; [discriminate|]. intro H. exfalso. apply H. now left.
  - rewrite IH. split; intro H; [intros [E|E]; congruence|tauto].
Qed.

Lemma get_In_unique o k v :
  NoDup (map fst o) -> In (k, v) o -> JsObject.get k o = Some v.
Proof.
  induction o as [|[k' v'] o IH]; simpl; intros Hnd Hin; [contradiction|].
  inversion Hnd as [|? ? Hnotin Hnd']; subst.
  destruct Hin as [E|Hin].
  - inversion E; subst. now rewrite String.eqb_refl.
  - destruct (String.eqb_spec k' k) as [->|Hne]; [|now apply IH].
    exfalso. apply Hnotin. apply in_map_iff. now exists (k, v).
Qed.

(** Setting a property keeps the keys of the others in place and adds a
    new key at the end. *)
Lemma set_keys o k v :
  map fst (JsObject.set k v o)
  = match JsObject.get k o with
    | Some _ => map fst o
    | None => (map fst o ++ [k])%list
    end.
Proof.
  induction o as [|[k' v'] o IH]; simpl; [reflexivity|].
  destruct (String.eqb_spec k' k) as [->|Hne]; simpl; [reflexivity|].
  rewrite IH. now destruct (JsObject.get k o).
Qed.

Lemma set_keys_NoDup o k v :
  NoDup (map fst o) -> NoDup (map fst (JsObject.set k v o)).
Proof.
  intro Hnd. rewrite set_keys.
  destruct (JsObject.get k o) eqn:E; [exact Hnd|].
  apply get_None_keys in E.
  apply Permutation_NoDup with (l := k :: map fst o).
  - apply Permutation_cons_append.
  - now constructor.
Qed.

Lemma set_keys_In o k v k' :
  In k' (map fst (JsObject.set k v o)) <-> k' = k \/ In k' (map fst o).
Proof.
  rewrite set_keys. destruct (JsObject.get k o) eqn:E.
  - apply get_Some_In in E. split; [tauto|].
    intros [->|H]; [|exact H]. apply in_map_iff. now exists (k, v0).
  - rewrite in_app_iff. simpl. intuition congruence.
Qed.

Lemma get_set_same o k v : JsObject.get k (JsObject.set k v o) = Some v.
Proof.
  induction o as [|[k' v'] o IH]; simpl.
  - now rewrite String.eqb_refl.
  - destruct (String.eqb_spec k' k) as [->|Hne]; simpl.
    + now rewrite String.eqb_refl.
    + destruct (String.eqb_spec k' k); [contradiction|exact IH].
Qed.

Lemma get_set_other o k v k' :
  k' <> k -> JsObject.get k' (JsObject.set k v o) = JsObject.get k' o.
Proof.
  intro Hne. induction o as [|[k0 v0] o IH]; simpl.
  - destruct (String.eqb_spec k k'); [congruence|reflexivity].
  - destruct (String.eqb_spec k0 k) as [->|Hk]; simpl.
    + destruct (String.eqb_spec k k'); [congruence|reflexivity].
    + destruct (String.eqb_spec k0 k'); [reflexivity|exact IH].
Qed.

Lemma insertByIndex_perm (e : string * V) (l : list (string * V)) :
  Permutation (JsObject.insertByIndex e l) (e :: l).
Proof.
  induction l as [|e' l IH]; simpl; [reflexivity|].
  destruct (_ <=? _)%N; [reflexivity|].
  rewrite IH. apply perm_swap.
Qed.

Lemma filter_split_perm {A : Type} (g : A -> bool) (l : list A) :
  Permutation (filter g l ++ filter (fun x => negb (g x)) l) l.
Proof.
  induction l as [|x l IH]; simpl; [reflexivity|].
  destruct (g x); simpl.
  - now constructor.
  - rewrite <- Permutation_middle. now constructor.
Qed.

(** [Object.values] and its companions enumerate every own property
    exactly once. *)
Lemma ownEntries_perm o : Permutation (JsObject.ownEntries o) o.
Proof.
  unfold JsObject.ownEntries.
  rewrite <- (filter_split_perm JsObject.isIndexKey o) at 3.
  apply Permutation_app_tail.
  induction (filter JsObject.isIndexKey o) as [|e l IH]; simpl;
    [reflexivity|].
  rewrite insertByIndex_perm. now constructor.
Qed.

Lemma ownEntries_get o k v :
  NoDup (map fst o) ->
  (In (k, v) (JsObject.ownEntries o) <-> JsObject.get k o = Some v).
Proof.
  intro Hnd. split; intro H.
  - apply get_In_unique; [exact Hnd|].
    now apply (Permutation_in _ (ownEntries_perm o)).
  - apply (Permutation_in _ (Permutation_sym (ownEntries_perm o))).
    now apply get_Some_In.
Qed.

Lemma ownEntries_keys_NoDup o :
  NoDup (map fst o) -> NoDup (map fst (JsObject.ownEntries o)).
Proof.
  intro Hnd. apply Permutation_NoDup with (l := map fst o); [|exact Hnd].
  apply Permutation_map. apply Permutation_sym. apply ownEntries_perm.
Qed.

End ObjectFacts.

(* ------------------------------------------------------------------ *)
(** ** Forecast *)

Section ForecastFacts.
Variable toDateString : string -> string.
Variable random : nat -> Q.

Local Abbreviation dayOf := (dayOf toDateString).
Local Abbreviation dayRevenue := (dayRevenue toDateString).

Lemma dayRevenue_app (day : string) (l1 l2 : list SaleRecord.t) :
  (dayRevenue day (l1 ++ l2) == dayRevenue day l1 + dayRevenue day l2)%Q.
Proof.
  induction l1 as [|s l1 IH]; cbn [app dayRevenue]; [ring|].
  rewrite IH. ring.
Qed.

Lemma dayRevenue_absent (day : string) (sales : list SaleRecord.t) :
  ~ In day (map dayOf sales) -> (dayRevenue day sales == 0)%Q.
Proof.
  induction sales as [|s sales IH]; cbn [map dayRevenue]; intro H;
    [reflexivity|].
  destruct (String.eqb_spec (dayOf s) day) as [E|E].
  - exfalso. apply H. now left.
  - rewrite IH; [ring|]. intro Hin. apply H. now right.
Qed.

(** What the object built by the loop of [forecast] holds: one property
    per calendar day of the window, with that day's revenue. *)
Lemma dailySalesOf_buckets (sales : list SaleRecord.t) :
  let o := AnalyticsDashboard.dailySalesOf toDateString sales in
  NoDup (map fst o) /\
  (forall d, In d (map fst o) <-> In d (map dayOf sales)) /\
  (forall d v, JsObject.get d o = Some v -> (v == dayRevenue d sales)%Q).
Proof.
  unfold AnalyticsDashboard.dailySalesOf.
  induction sales as [|s sales IH] using rev_ind.
  - cbn. repeat split; try tauto; try constructor. discriminate.
  - rewrite fold_left_app. cbn [fold_left].
    set (o := fold_left (AnalyticsDashboard.addToDay toDateString) sales [])
      in *.
    destruct IH as (Hnd & Hkeys & Hvals).
    unfold AnalyticsDashboard.addToDay. fold (dayOf s).
    cbv zeta. split; [|split].
    + now apply set_keys_NoDup.
    + intro d. rewrite set_keys_In, map_app, in_app_iff, Hkeys. cbn.
      intuition congruence.
    + intros d v Hget. rewrite dayRevenue_app. cbn [dayRevenue].
      destruct (String.eqb_spec (dayOf s) d) as [E|E].
      * subst d. rewrite get_set_same in Hget. inversion Hget; subst v.
        destruct (JsObject.get (dayOf s) o) as [v0|] eqn:Hv0.
        -- rewrite (Hvals _ _ Hv0). ring.
        -- apply get_None_keys in Hv0. rewrite Hkeys in Hv0.
           rewrite (dayRevenue_absent _ _ Hv0). ring.
      * rewrite get_set_other in Hget by congruence.
        rewrite (Hvals _ _ Hget). ring.
Qed.

Lemma sum_of_buckets (sales : list SaleRecord.t)
    (entries : list (string * Q)) :
  (forall d v, In (d, v) entries -> (v == dayRevenue d sales)%Q) ->
  (sumQ (map snd entries)
   == sumQ (map (fun d => dayRevenue d sales) (map fst entries)))%Q.
Proof.
  induction entries as [|[d v] entries IH]; intro H;
    cbn [map sumQ fold_right fst snd]; [reflexivity|].
  fold (sumQ (map snd entries)).
  fold (sumQ (map (fun d => dayRevenue d sales) (map fst entries))).
  rewrite IH, (H d v); [reflexivity|now left|].
  intros d' v' Hin. apply H. now right.
Qed.


End ForecastFacts.

(* ------------------------------------------------------------------ *)
(** ** Restock recommendations *)

Lemma unitsSold_app (b : string) (l1 l2 : list SaleItem.t) :
  unitsSold b (l1 ++ l2) = unitsSold b l1 + unitsSold b l2.
Proof. induction l1 as [|x l1 IH]; cbn [app unitsSold]; lia. Qed.

Lemma firstName_app_found (b : string) (l1 l2 : list SaleItem.t) :
  In b (map SaleItem.barcode l1) -> firstName b (l1 ++ l2) = firstName b l1.
Proof.
  unfold firstName. induction l1 as [|x l1 IH]; simpl; intro H;
    [contradiction|].
  destruct (String.eqb_spec (SaleItem.barcode x) b) as [E|E];
    [reflexivity|].
  apply IH. destruct H; [contradiction|assumption].
Qed.

Lemma firstName_app_new (b : string) (l1 l2 : list SaleItem.t) :
  ~ In b (map SaleItem.barcode l1) -> firstName b (l1 ++ l2) = firstName b l2.
Proof.
  unfold firstName. induction l1 as [|x l1 IH]; simpl; intro H;
    [reflexivity|].
  destruct (String.eqb_spec (SaleItem.barcode x) b) as [E|E].
  - exfalso. apply H. now left.
  - apply IH. tauto.
Qed.

Lemma productSalesOf_flat (products : list Product.t)
    (sales : list SaleRecord.t) :
  AnalyticsDashboard.productSalesOf products sales
  = fold_left (AnalyticsDashboard.addItem products) (allItems sales) [].
Proof.
  unfold AnalyticsDashboard.productSalesOf, allItems.
  generalize (@nil (string * ProductSales.t)).
  induction sales as [|sale sales IH]; intro o; cbn [fold_left flat_map].
  - reflexivity.
  - now rewrite fold_left_app, IH.
Qed.

(** What the object built by the loops holds: one property per barcode sold
    in the window that is not an inherited name, with the first name seen,
    the units sold and the stock of the catalog. *)
Lemma addItem_fold (products : list Product.t) (items : list SaleItem.t) :
  let o := fold_left (AnalyticsDashboard.addItem products) items [] in
  NoDup (map fst o) /\
  (forall b, In b (map fst o) <->
             In b (map SaleItem.barcode items) /\
             JsObject.inherited b = false) /\
  (forall b p, JsObject.get b o = Some p -> p = salesEntry products items b).
Proof.
  induction items as [|item items IH] using rev_ind.
  - cbn. repeat split; try tauto; try constructor. discriminate.
  - rewrite fold_left_app. cbn [fold_left].
    set (o := fold_left (AnalyticsDashboard.addItem products) items []) in *.
    cbv zeta in IH. destruct IH as (Hnd & Hkeys & Hvals).
    unfold AnalyticsDashboard.addItem, JsObject.lookup. cbv zeta.
    set (b0 := SaleItem.barcode item).
    assert (Hin : forall b p, JsObject.get b o = Some p ->
                    In b (map SaleItem.barcode items) /\
                    JsObject.inherited b = false).
    { intros b p Hget. apply Hkeys. apply get_Some_In in Hget.
      apply in_map_iff. now exists (b, p). }
    assert (Hother : forall b p,
              b0 <> b -> JsObject.get b o = Some p ->
              p = salesEntry products (items ++ [item]) b).
    { intros b p E Hget. rewrite (Hvals _ _ Hget). unfold salesEntry.
      rewrite unitsSold_app. cbn [unitsSold]. fold b0.
      destruct (String.eqb_spec b0 b); [contradiction|].
      rewrite firstName_app_found by exact (proj1 (Hin _ _ Hget)).
      f_equal. lia. }
    destruct (JsObject.get b0 o) as [p0|] eqn:Hget0.
    + rewrite Hget0. destruct (Hin _ _ Hget0) as (Hsold0 & Hown0).
      split; [|split].
      * now apply set_keys_NoDup.
      * intro b. rewrite set_keys_In, map_app, in_app_iff, Hkeys.
        cbn [map In].
        fold b0. split.
        -- intros [H|H]; [subst b; tauto|tauto].
        -- intros ([H|[H|[]]] & Hown); [tauto|]. subst b. auto.
      * intros b p Hget.
        destruct (String.eqb_spec b0 b) as [E|E].
        -- subst b. rewrite get_set_same in Hget. inversion Hget; subst p.
           rewrite (Hvals _ _ Hget0). unfold salesEntry. cbn.
           rewrite unitsSold_app. cbn [unitsSold]. fold b0.
           rewrite String.eqb_refl.
           rewrite firstName_app_found by exact Hsold0.
           f_equal. lia.
        -- rewrite get_set_other in Hget by congruence.
           now apply Hother.
    + destruct (JsObject.inherited b0) eqn:Hinh.
      * rewrite Hget0. split; [exact Hnd|]. split.
        -- intro b. rewrite Hkeys, map_app, in_app_iff. cbn [map In]. fold b0.
           split; [tauto|].
           intros ([H|[H|[]]] & Hown); [tauto|].
           rewrite <- H, Hinh in Hown. discriminate.
        -- intros b p Hget. apply Hother; [|exact Hget].
           intros <-. destruct (Hin _ _ Hget) as (_ & Hown).
           rewrite Hinh in Hown. discriminate.
      * rewrite get_set_same.
        assert (Hnew : ~ In b0 (map SaleItem.barcode items)).
        { intro H. apply get_None_keys in Hget0. apply Hget0.
          apply Hkeys. now split. }
        split; [|split].
        -- now apply set_keys_NoDup, set_keys_NoDup.
        -- intro b. rewrite !set_keys_In, map_app, in_app_iff, Hkeys.
        cbn [map In].
           fold b0. split.
           ++ intros [H|[H|H]]; try (subst b; tauto). tauto.
           ++ intros ([H|[H|[]]] & Hown); [tauto|]. subst b. auto.
        -- intros b p Hget.
           destruct (String.eqb_spec b0 b) as [E|E].
           ++ subst b. rewrite get_set_same in Hget.
              inversion Hget; subst p. unfold salesEntry. cbn.
              rewrite unitsSold_app. cbn [unitsSold]. fold b0.
              rewrite String.eqb_refl.
              rewrite firstName_app_new by exact Hnew.
              rewrite (unitsSold_absent _ _ Hnew).
              unfold firstName. cbn. fold b0. rewrite String.eqb_refl.
              unfold catalogStock, stockOf.
              destruct (find _ products); cbn; f_equal; lia.
           ++ rewrite !get_set_other in Hget by congruence.
              now apply Hother.
Qed.

Lemma withVelocity_ordinary (p : ProductSales.t) :
  ordinary (Recommendation.daysRemaining (AnalyticsDashboard.withVelocity p)).
Proof.
  unfold AnalyticsDashboard.withVelocity. cbn.
  now destruct (Js.Qltb _ _).
Qed.

Lemma after_false (a b : Recommendation.t) :
  ordinary (Recommendation.daysRemaining a) ->
  ordinary (Recommendation.daysRemaining b) ->
  JsArray.after AnalyticsDashboard.byDaysRemaining a b = false ->
  byDays a b.
Proof.
  unfold JsArray.after, AnalyticsDashboard.byDaysRemaining, byDays.
  destruct (Recommendation.daysRemaining a) as [x| | |],
           (Recommendation.daysRemaining b) as [y| | |];
    cbn; try tauto; try discriminate.
  intros _ _ H. apply Qltb_false in H. lra.
Qed.

Lemma after_true (a b : Recommendation.t) :
  ordinary (Recommendation.daysRemaining a) ->
  ordinary (Recommendation.daysRemaining b) ->
  JsArray.after AnalyticsDashboard.byDaysRemaining a b = true ->
  byDays b a.
Proof.
  unfold JsArray.after, AnalyticsDashboard.byDaysRemaining, byDays.
  destruct (Recommendation.daysRemaining a) as [x| | |],
           (Recommendation.daysRemaining b) as [y| | |];
    cbn; try tauto; try discriminate.
  intros _ _ H. apply Qltb_true in H. lra.
Qed.

Lemma byDays_trans (a b c : Recommendation.t) :
  byDays a b -> byDays b c -> byDays a c.
Proof.
  unfold byDays.
  destruct (Recommendation.daysRemaining a) as [x| | |],
           (Recommendation.daysRemaining b) as [y| | |],
           (Recommendation.daysRemaining c) as [z| | |];
    cbn; try tauto.
  intros. lra.
Qed.

Section SortFacts.
Context {A : Type}.
Variable comparefn : A -> A -> Num.t.

Lemma insert_perm (x : A) (l : list A) :
  Permutation (JsArray.insert comparefn x l) (x :: l).
Proof.
  induction l as [|y l IH]; simpl; [reflexivity|].
  destruct (JsArray.after comparefn x y); [|reflexivity].
  rewrite IH. apply perm_swap.
Qed.

(** Sorting rearranges and neither drops nor repeats an element. *)
Lemma sort_perm (l : list A) : Permutation (JsArray.sort comparefn l) l.
Proof.
  induction l as [|x l IH]; simpl; [reflexivity|].
  rewrite insert_perm. now constructor.
Qed.

Lemma StronglySorted_app_inv (R : A -> A -> Prop) (l1 l2 : list A) :
  StronglySorted R (l1 ++ l2) ->
  StronglySorted R l1 /\
  forall a b, In a l1 -> In b l2 -> R a b.
Proof.
  induction l1 as [|x l1 IH]; simpl; intro H.
  - split; [constructor|contradiction].
  - inversion H as [|? ? Hs Hall]; subst.
    destruct (IH Hs) as (IH1 & IH2). rewrite Forall_forall in Hall. split.
    + constructor; [exact IH1|]. apply Forall_forall.
      intros y Hy. apply Hall. apply in_or_app. now left.
    + intros a b [->|Ha] Hb.
      * apply Hall. apply in_or_app. now right.
      * now apply IH2.
Qed.

End SortFacts.

Lemma insert_sorted (x : Recommendation.t) (l : list Recommendation.t) :
  ordinary (Recommendation.daysRemaining x) ->
  Forall (fun e => ordinary (Recommendation.daysRemaining e)) l ->
  StronglySorted byDays l ->
  StronglySorted byDays
    (JsArray.insert AnalyticsDashboard.byDaysRemaining x l).
Proof.
  intros Hx Hord Hs. induction l as [|y l IH]; simpl.
  - constructor; constructor.
  - inversion Hord as [|? ? Hy Hord']; subst.
    inversion Hs as [|? ? Hs' Hall]; subst.
    destruct (JsArray.after AnalyticsDashboard.byDaysRemaining x y) eqn:E.
    + constructor; [now apply IH|].
      apply Forall_forall. intros z Hz.
      apply (Permutation_in _ (insert_perm _ x l)) in Hz.
      destruct Hz as [<-|Hz].
      * now apply after_true.
      * rewrite Forall_forall in Hall. now apply Hall.
    + pose proof (after_false x y Hx Hy E) as Hxy.
      constructor; [exact Hs|]. constructor; [exact Hxy|].
      apply Forall_forall. intros z Hz. rewrite Forall_forall in Hall.
      exact (byDays_trans x y z Hxy (Hall z Hz)).
Qed.

Lemma sort_sorted (l : list Recommendation.t) :
  Forall (fun e => ordinary (Recommendation.daysRemaining e)) l ->
  StronglySorted byDays (JsArray.sort AnalyticsDashboard.byDaysRemaining l).
Proof.
  induction l as [|x l IH]; simpl; intro Hord; [constructor|].
  inversion Hord as [|? ? Hx Hord']; subst.
  apply insert_sorted; [exact Hx| |now apply IH].
  apply Forall_forall. intros z Hz.
  apply (Permutation_in _ (sort_perm _ l)) in Hz.
  rewrite Forall_forall in Hord'. now apply Hord'.
Qed.

Lemma withVelocity_days (p : ProductSales.t) :
  Recommendation.daysRemaining (AnalyticsDashboard.withVelocity p)
  = daysRemainingOf (ProductSales.currentStock p) (ProductSales.sold p).
Proof.
  unfold AnalyticsDashboard.withVelocity, daysRemainingOf. cbn.
  destruct (Z.ltb_spec 0 (ProductSales.sold p)) as [H|H].
  - rewrite (proj2 (Qltb_true _ _)); [reflexivity|].
    unfold Qlt, Qdiv, Qmult, Qinv, inject_Z. cbn. lia.
  - rewrite (proj2 (Qltb_false _ _)); [reflexivity|].
    unfold Qle, Qdiv, Qmult, Qinv, inject_Z. cbn. lia.
Qed.

(** The candidates before filtering: one entry per barcode sold that is
    not an inherited name. *)
Lemma candidates_entries (products : list Product.t)
    (sales : list SaleRecord.t) (e : Recommendation.t) :
  In e (map AnalyticsDashboard.withVelocity
          (JsObject.values
             (AnalyticsDashboard.productSalesOf products sales))) <->
  exists b, soldInWindow b sales /\ JsObject.inherited b = false /\
            e = entryOf products sales b.
Proof.
  rewrite productSalesOf_flat. unfold JsObject.values, soldInWindow, entryOf.
  destruct (addItem_fold products (allItems sales)) as (Hnd & Hkeys & Hvals).
  set (o := fold_left (AnalyticsDashboard.addItem products)
              (allItems sales) []) in *.
  rewrite map_map, in_map_iff. split.
  - intros ([b p] & <- & Hin). exists b. cbn [snd].
    apply ownEntries_get in Hin; [|exact Hnd].
    assert (Hkey : In b (map fst o)).
    { apply get_Some_In in Hin. apply in_map_iff. now exists (b, p). }
    apply Hkeys in Hkey. destruct Hkey as (Hsold & Hown).
    split; [exact Hsold|]. split; [exact Hown|].
    now rewrite (Hvals _ _ Hin).
  - intros (b & Hsold & Hown & ->).
    assert (Hb : In b (map fst o)) by (apply Hkeys; now split).
    destruct (JsObject.get b o) as [p|] eqn:Hget.
    + exists (b, p). cbn [snd]. split.
      * now rewrite (Hvals _ _ Hget).
      * now apply ownEntries_get.
    + apply get_None_keys in Hget. contradiction.
Qed.

(** C9 (restock recommendations), the claim as stated fails: with six
    products sold and out of stock all six meet the flagging condition,
    but the list holds five entries and the sixth product is not on it. *)
Lemma sixth_flagged_product_not_listed :
  let recs := AnalyticsDashboard.recommendations [] sixSales in
  soldInWindow "f" sixSales /\
  Recommendation.currentStock (entryOf [] sixSales "f") < 10 /\
  AnalyticsDashboard.needsRestock (entryOf [] sixSales "f") = true /\
  List.length recs = 5%nat /\
  ~ In (entryOf [] sixSales "f") recs.
Proof.
  cbv zeta. split; [|split; [|split; [|split]]].
  - unfold soldInWindow. cbn. tauto.
  - vm_compute. reflexivity.
  - vm_compute. reflexivity.
  - vm_compute. reflexivity.
  - vm_compute. intros [H|[H|[H|[H|[H|[]]]]]]; discriminate.
Qed.

(** C9 (restock recommendations), as the code has it.  The list holds at
    most five entries; each is the entry of a product sold in the window
    that has fewer than 14 days of stock left or a stock below 10; the
    entries are in ascending order of days remaining; a product sold in the
    window that meets the condition is on the list unless the list is full
    with five entries none of which has more days remaining than it; each
    entry carries the units sold in the window, the stock of the catalog
    (0 for an unknown barcode) and the days remaining computed from them,
    and the suggested restock quantity is twice the units sold. *)
Theorem restock_recommendations_top5 (products : list Product.t)
    (sales : list SaleRecord.t) :
  let recs := AnalyticsDashboard.recommendations products sales in
  (List.length recs <= 5)%nat /\
  StronglySorted byDays recs /\
  (forall e, In e recs ->
     exists b,
       soldInWindow b sales /\ e = entryOf products sales b /\
       AnalyticsDashboard.needsRestock e = true) /\
  (forall b,
     soldInWindow b sales ->
     JsObject.inherited b = false ->
     AnalyticsDashboard.needsRestock (entryOf products sales b) = true ->
     In (entryOf products sales b) recs \/
     (List.length recs = 5%nat /\
      forall e, In e recs -> byDays e (entryOf products sales b))) /\
  (forall b,
     let e := entryOf products sales b in
     Recommendation.sold e = unitsSold b (allItems sales) /\
     Recommendation.currentStock e = catalogStock b products /\
     Recommendation.dailyVelocity e
       = (inject_Z (unitsSold b (allItems sales)) / 30)%Q /\
     Recommendation.daysRemaining e
       = daysRemainingOf (catalogStock b products)
           (unitsSold b (allItems sales)) /\
     (AnalyticsDashboard.needsRestock e = true <->
        Num.ltb (Recommendation.daysRemaining e) (Num.Fin 14) = true \/
        Recommendation.currentStock e < 10) /\
     AnalyticsDashboard.suggestedRestock e
       = 2 * unitsSold b (allItems sales)).
Proof.
  unfold AnalyticsDashboard.recommendations. cbv zeta.
  set (candidates :=
         map AnalyticsDashboard.withVelocity
           (JsObject.values
              (AnalyticsDashboard.productSalesOf products sales))).
  set (flagged := filter AnalyticsDashboard.needsRestock candidates).
  set (sorted := JsArray.sort AnalyticsDashboard.byDaysRemaining flagged).
  assert (Hord : Forall (fun e => ordinary (Recommendation.daysRemaining e))
                   flagged).
  { apply Forall_forall. intros e He. apply filter_In in He.
    destruct He as (He & _). apply in_map_iff in He.
    destruct He as (p & <- & _). apply withVelocity_ordinary. }
  pose proof (sort_sorted flagged Hord) as Hsorted. fold sorted in Hsorted.
  rewrite <- (firstn_skipn 5 sorted) in Hsorted.
  apply StronglySorted_app_inv in Hsorted.
  destruct Hsorted as (Hfirst & Hcross).
  assert (Hin : forall e, In e sorted <->
                  (exists b, soldInWindow b sales /\
                             JsObject.inherited b = false /\
                             e = entryOf products sales b) /\
                  AnalyticsDashboard.needsRestock e = true).
  { intro e. rewrite <- candidates_entries. fold candidates.
    rewrite <- filter_In. fold flagged. split; apply Permutation_in.
    - apply sort_perm.
    - apply Permutation_sym, sort_perm. }
  split; [|split; [|split; [|split]]].
  - apply firstn_le_length.
  - exact Hfirst.
  - intros e He.
    assert (In e sorted) as Hs.
    { rewrite <- (firstn_skipn 5 sorted). apply in_or_app. now left. }
    apply Hin in Hs. destruct Hs as ((b & Hb & _ & ->) & Hflag).
    now exists b.
  - intros b Hb Hown Hflag.
    assert (In (entryOf products sales b) sorted) as Hs.
    { apply Hin. split; [now exists b|exact Hflag]. }
    rewrite <- (firstn_skipn 5 sorted) in Hs. apply in_app_or in Hs.
    destruct Hs as [Hs|Hs]; [now left|right]. split.
    + rewrite length_firstn. apply Nat.min_l.
      destruct (Nat.le_gt_cases 5 (List.length sorted)) as [H|H];
        [exact H|].
      rewrite skipn_all2 in Hs by lia. contradiction.
    + intros e He. exact (Hcross e _ He Hs).
  - intros b. unfold entryOf.
    rewrite withVelocity_days.
    unfold AnalyticsDashboard.needsRestock,
      AnalyticsDashboard.suggestedRestock.
    rewrite withVelocity_days. cbn. repeat split; try lia.
    + intro H. apply orb_true_iff in H. destruct H as [H|H]; [now left|].
      right. now apply Z.ltb_lt.
    + intros [H|H]; apply orb_true_iff; [now left|right].
      now apply Z.ltb_lt.
    + change (unitsSold b (allItems sales) * 2
              = 2 * unitsSold b (allItems sales)). lia.
Qed.

(* ------------------------------------------------------------------ *)
(** ** The scenarios of the design document, as instances *)

(** Scenario 4: restock("123", 10, "alice") on a stock of 5. *)
Lemma restock_contract_witness :
  let r := ProductService.restock env0 "123" 10 "alice" storageStock5 in
  0 < 10 /\
  ProductService.findByBarcode "123" storageStock5 = Some product123 /\
  fst r = Result.ok /\
  stockOf "123" (Storage.pos_products (snd r)) = Some 15 /\
  exists log,
    Storage.pos_stock_logs (snd r) = log :: Storage.pos_stock_logs storageStock5
    /\ StockLog.previousStock log = 5 /\ StockLog.newStock log = 15 /\
    StockLog.quantityAdded log = 10.
Proof.
  cbv zeta.
  assert (Hq : 0 < 10) by lia.
  assert (Hf : ProductService.findByBarcode "123" storageStock5
               = Some product123) by reflexivity.
  destruct (restock_contract env0 "123" 10 "alice" storageStock5)
    as (_ & _ & Hok).
  destruct (Hok product123 Hq Hf)
    as (Hr & Hs & _ & (log & Hl & _ & Hprev & Hnew & Hadd & _) & _).
  split; [exact Hq|]. split; [exact Hf|]. split; [exact Hr|].
  split; [exact Hs|]. exists log.
  split; [exact Hl|]. split; [exact Hprev|]. split; [exact Hnew|exact Hadd].
Defined.

(** Scenario 3: 20 paid against a total of 25. *)
Lemma checkout_all_or_nothing_witness :
  let r := SaleService.processSale env0 cartLines cash 20%Q "alice"
             "store-001" "Main Store" storageTwo in
  SaleResult.success (fst r) = false /\
  snd r = storageTwo /\
  Storage.pos_products (snd r) = Storage.pos_products storageTwo /\
  Storage.pos_sales (snd r) = Storage.pos_sales storageTwo /\
  SaleResult.sale (fst r) = None.
Proof.
  cbv zeta.
  assert (Hfail : SaleResult.success
                    (fst (SaleService.processSale env0 cartLines cash 20%Q
                            "alice" "store-001" "Main Store" storageTwo))
                  = false) by (vm_compute; reflexivity).
  split; [exact Hfail|].
  exact (proj1 (checkout_all_or_nothing env0 cartLines cash 20%Q "alice"
                  "store-001" "Main Store" storageTwo) Hfail).
Defined.

(** Scenario 2: 30 paid against a total of 25; the change is 5. *)
Lemma payment_invariant_witness :
  let r := SaleService.processSale env0 cartLines cash 30%Q "alice"
             "store-001" "Main Store" storageTwo in
  SaleResult.success (fst r) = true /\
  exists sale,
    SaleResult.sale (fst r) = Some sale /\
    (SaleRecord.subtotal sale == 25)%Q /\
    (SaleRecord.tax sale == 0)%Q /\
    (SaleRecord.total sale == 25)%Q /\
    (SaleRecord.change sale == 5)%Q.
Proof.
  cbv zeta.
  assert (Hok : SaleResult.success
                  (fst (SaleService.processSale env0 cartLines cash 30%Q
                          "alice" "store-001" "Main Store" storageTwo))
                = true) by (vm_compute; reflexivity).
  split; [exact Hok|].
  destruct (proj1 (payment_invariant env0 cartLines cash 30%Q "alice"
                     "store-001" "Main Store" storageTwo) Hok)
    as (sale & Hsale & _ & Hitems & Hsub & Htax & _ & Htax0 & Htotal & Hpaid
        & _ & Hchange & _).
  exists sale. split; [exact Hsale|].
  assert (Hs25 : (SaleRecord.subtotal sale == 25)%Q)
    by (rewrite Hsub, Hitems; vm_compute; reflexivity).
  assert (Ht25 : (SaleRecord.total sale == 25)%Q)
    by (rewrite Htotal, Htax0, Hs25; vm_compute; reflexivity).
  split; [exact Hs25|]. split; [exact Htax0|]. split; [exact Ht25|].
  rewrite Hchange, Hpaid, Ht25. vm_compute. reflexivity.
Defined.

Lemma scanned_CartState (n : nat) : CashierView.CartState (scanned n).
Proof.
  induction n as [|n IH]; [apply CashierView.cart_initial|].
  exact (CashierView.cart_scan storageStock5 "123" (scanned n) IH).
Defined.

Lemma scan_semantics_witness :
  let r := CashierView.handleScan storageStock5 "123" (scanned 5) in
  CashierView.CartState (scanned 5) /\
  scanned 5 = [CartItem.mk product123 5] /\
  fst r = CashierView.StockLimitExceeded product123 /\
  snd r = scanned 5.
Proof.
  cbv zeta. split; [apply scanned_CartState|]. split; [reflexivity|].
  refine (proj1 (proj2 (scan_semantics storageStock5 "123" (scanned 5)
                          (scanned_CartState 5)))
            product123 (CartItem.mk product123 5) _ _ _ _).
  - reflexivity.
  - left. reflexivity.
  - reflexivity.
  - cbn. lia.
Defined.

Lemma create_appends_request_witness :
  let request :=
    TransferRequest.mk "store-001" "store-002" "Main Store" "Annex" "123"
      "Widget" 2 pending "Admin" None in
  let r := StockTransferService.create env0 request storageTransfer in
  fst r = Result.ok /\
  exists newTransfer,
    Storage.pos_stock_transfers (snd r) = [transferPending; newTransfer] /\
    StockTransfer.status newTransfer = pending.
Proof.
  cbv zeta.
  destruct (create_appends_request env0
              (TransferRequest.mk "store-001" "store-002" "Main Store"
                 "Annex" "123" "Widget" 2 pending "Admin" None)
              storageTransfer)
    as (Hok & (t & Happ & _ & Hpending & _) & _).
  split; [exact Hok|]. exists t. split; [exact Happ|].
  apply Hpending. reflexivity.
Defined.

Lemma transfer_state_machine_witness :
  let rc := StockTransferService.complete env0 "transfer-1" storageTransfer in
  firstWithItsId (StockTransferService.getAll storageTransfer) 0
    transferPending /\
  StockTransfer.status transferPending = pending /\
  fst rc = Result.ok /\
  (exists stored,
     nth_error (StockTransferService.getAll (snd rc)) 0 = Some stored /\
     StockTransfer.status stored = completed /\
     StockTransfer.completedAt stored = Some "2026-11-02T00:00:00.000Z") /\
  StockTransferService.cancel "transfer-1" (snd rc)
  = (Result.fail "Can only cancel pending transfers", snd rc).
Proof.
  cbv zeta.
  assert (Hfirst : firstWithItsId
                     (StockTransferService.getAll storageTransfer) 0
                     transferPending).
  { split; [reflexivity|]. intros j earlier Hj. lia. }
  assert (Hpending : StockTransfer.status transferPending = pending)
    by reflexivity.
  destruct (transfer_state_machine env0 storageTransfer 0 transferPending
              Hfirst) as (_ & Hfrom).
  destruct (Hfrom Hpending) as ((Hok & Hnth & _ & _ & Hcancel & _) & _).
  split; [exact Hfirst|]. split; [exact Hpending|]. split; [exact Hok|].
  split; [|exact Hcancel].
  eexists. split; [exact Hnth|]. split; reflexivity.
Defined.


Lemma restock_recommendations_top5_witness :
  let recs := AnalyticsDashboard.recommendations [] sixSales in
  soldInWindow "f" sixSales /\
  JsObject.inherited "f" = false /\
  AnalyticsDashboard.needsRestock (entryOf [] sixSales "f") = true /\
  (In (entryOf [] sixSales "f") recs \/
   (List.length recs = 5%nat /\
    forall e, In e recs -> byDays e (entryOf [] sixSales "f"))) /\
  In (entryOf [] sixSales "a") recs /\
  (List.length recs <= 5)%nat /\
  exists b,
    soldInWindow b sixSales /\
    entryOf [] sixSales "a" = entryOf [] sixSales b /\
    AnalyticsDashboard.needsRestock (entryOf [] sixSales "a") = true.
Proof.
  cbv zeta.
  assert (Hsold : soldInWindow "f" sixSales)
    by (unfold soldInWindow; cbn; tauto).
  assert (Hown : JsObject.inherited "f" = false) by reflexivity.
  assert (Hflag : AnalyticsDashboard.needsRestock (entryOf [] sixSales "f")
                  = true) by (vm_compute; reflexivity).
  assert (Hin : In (entryOf [] sixSales "a")
                  (AnalyticsDashboard.recommendations [] sixSales))
    by (left; reflexivity).
  destruct (restock_recommendations_top5 [] sixSales)
    as (Hlen & _ & Hsound & Hcomplete & _).
  split; [exact Hsold|]. split; [exact Hown|]. split; [exact Hflag|].
  split; [exact (Hcomplete "f" Hsold Hown Hflag)|].
  split; [exact Hin|]. split; [exact Hlen|]. exact (Hsound _ Hin).
Defined.

(** A barcode that is the name of an inherited property gets no entry:
    the lookup finds the inherited function, so the loops create nothing
    and neither list shows the product. *)
Lemma inherited_barcode_gets_no_entry :
  let line := SaleItem.mk "constructor" "Hammer" 10%Q 3 30%Q in
  let sale := SaleRecord.mk "sale-1" "RCP-1-AAA" [line] 30%Q 0%Q 30%Q cash
                30%Q 0%Q "alice" "store-001" "Main Store"
                "2026-11-02T10:00:00.000Z" in
  let products := [Product.mk "constructor" "Hammer" 10%Q 0 Other] in
  AnalyticsDashboard.recommendations products [sale] = [] /\
  AnalyticsDashboard.topProducts [sale] = [].
Proof. cbv zeta. split; reflexivity. Qed.

(* ------------------------------------------------------------------ *)
(** ** Catalog administration: add, update, delete *)

Lemma isBarcodeUnique_no_exclusion (barcode : string) (st : Storage.t) :
  ProductService.isBarcodeUnique barcode None st = true <->
  ProductService.findByBarcode barcode st = None.
Proof.
  unfold ProductService.isBarcodeUnique, ProductService.findByBarcode.
  induction (ProductService.getAll st) as [|p l IH]; simpl; [tauto|].
  unfold ProductService.hasBarcode at 1.
  destruct (String.eqb (Product.barcode p) barcode); simpl.
  - split; discriminate.
  - exact IH.
Qed.

Lemma find_app_skip {A : Type} (f : A -> bool) (l1 l2 : list A) :
  find f l1 = None -> find f (l1 ++ l2) = find f l2.
Proof.
  induction l1 as [|x l1 IH]; simpl; [reflexivity|].
  destruct (f x); [discriminate|exact IH].
Qed.

Lemma find_app_hit {A : Type} (f : A -> bool) (l1 l2 : list A) (x : A) :
  find f l1 = Some x -> find f (l1 ++ l2) = Some x.
Proof.
  induction l1 as [|y l1 IH]; simpl; [discriminate|].
  destruct (f y); [trivial|exact IH].
Qed.

(** [add]: a barcode already in the catalog, a price that is not positive
    and a negative stock are refused, in that order, and leave the storage
    as it was; otherwise the product goes to the end of the catalog, where
    [findByBarcode] finds it, and no other lookup changes. *)
Theorem add_contract (product : Product.t) (st : Storage.t) :
  let r := ProductService.add product st in
  (ProductService.findByBarcode (Product.barcode product) st <> None ->
     fst r = Result.fail "Barcode already exists" /\ snd r = st) /\
  (ProductService.findByBarcode (Product.barcode product) st = None ->
     (Product.price product <= 0)%Q ->
     fst r = Result.fail "Price must be positive" /\ snd r = st) /\
  (ProductService.findByBarcode (Product.barcode product) st = None ->
     (0 < Product.price product)%Q -> Product.stock product < 0 ->
     fst r = Result.fail "Stock cannot be negative" /\ snd r = st) /\
  (ProductService.findByBarcode (Product.barcode product) st = None ->
     (0 < Product.price product)%Q -> 0 <= Product.stock product ->
     fst r = Result.ok /\
     Storage.pos_products (snd r)
       = (Storage.pos_products st ++ [product])%list /\
     ProductService.findByBarcode (Product.barcode product) (snd r)
       = Some product /\
     (forall b, b <> Product.barcode product ->
        ProductService.findByBarcode b (snd r)
        = ProductService.findByBarcode b st) /\
     Storage.pos_stock_logs (snd r) = Storage.pos_stock_logs st /\
     Storage.pos_sales (snd r) = Storage.pos_sales st /\
     Storage.pos_stock_transfers (snd r) = Storage.pos_stock_transfers st).
Proof.
  unfold ProductService.add. cbv zeta.
  destruct (ProductService.isBarcodeUnique (Product.barcode product) None st)
    eqn:Hu; cbn [negb].
  - apply isBarcodeUnique_no_exclusion in Hu.
    split; [intro H; contradiction|].
    destruct (Qle_bool (Product.price product) 0) eqn:Hp.
    + apply Qle_bool_iff in Hp. split; [now split|].
      split; intros _ Hpos; exfalso; exact (Qlt_not_le _ _ Hpos Hp).
    + assert (Hpos : ~ (Product.price product <= 0)%Q).
      { intro H. apply Qle_bool_iff in H. congruence. }
      split; [intros _ H; contradiction|].
      destruct (Z.ltb_spec (Product.stock product) 0) as [Hs|Hs].
      * split; [now split|]. intros _ _ H. lia.
      * split; [intros _ _ H; lia|]. intros _ _ _.
        unfold ProductService.findByBarcode, ProductService.getAll in *.
        cbn [fst snd Storage.setProducts Storage.pos_products
             Storage.pos_stock_logs Storage.pos_sales
             Storage.pos_stock_transfers].
        repeat split.
        -- rewrite find_app_skip by exact Hu. cbn [find].
           unfold ProductService.hasBarcode. now rewrite String.eqb_refl.
        -- intros b Hb.
           destruct (find (ProductService.hasBarcode b)
                       (Storage.pos_products st)) as [x|] eqn:Hx.
           ++ now apply find_app_hit.
           ++ rewrite find_app_skip by exact Hx. cbn [find].
              unfold ProductService.hasBarcode.
              destruct (String.eqb_spec (Product.barcode product) b);
                [congruence|reflexivity].
  - split.
    + intros _. now split.
    + assert (Hnone : ProductService.findByBarcode (Product.barcode product)
                        st <> None).
      { intro H. apply isBarcodeUnique_no_exclusion in H. congruence. }
      split; [|split]; intro H; contradiction.
Qed.

Lemma applyUpdates_barcode (updates : ProductUpdates.t) (p : Product.t) :
  Product.barcode (ProductService.applyUpdates updates p) = Product.barcode p.
Proof. reflexivity. Qed.

Lemma mutateFound_map_invariant {A B : Type} (f : A -> bool) (g : A -> A)
    (key : A -> B) (l : list A) :
  (forall x, key (g x) = key x) ->
  map key (Js.mutateFound f g l) = map key l.
Proof.
  intro Hg. induction l as [|x l IH]; [reflexivity|].
  rewrite mutateFound_cons. destruct (f x); simpl.
  - now rewrite Hg.
  - now rewrite IH.
Qed.

Lemma mutateFound_Forall {A : Type} (f : A -> bool) (g : A -> A)
    (P : A -> Prop) (l : list A) :
  (forall x, f x = true -> P x -> P (g x)) ->
  Forall P l -> Forall P (Js.mutateFound f g l).
Proof.
  intros Hg Hl. induction Hl as [|x l Hx Hl IH]; [constructor|].
  rewrite mutateFound_cons. destruct (f x) eqn:E.
  - constructor; [now apply Hg|exact Hl].
  - now constructor.
Qed.

(** The ways [add] can end. *)
Lemma add_cases (product : Product.t) (st : Storage.t) :
  let r := ProductService.add product st in
  (Result.success (fst r) = false /\ snd r = st) \/
  (ProductService.findByBarcode (Product.barcode product) st = None /\
   (0 < Product.price product)%Q /\ 0 <= Product.stock product /\
   fst r = Result.ok /\
   snd r = Storage.setProducts
             (Storage.pos_products st ++ [product])%list st).
Proof.
  unfold ProductService.add. cbv zeta.
  destruct (ProductService.isBarcodeUnique (Product.barcode product) None st)
    eqn:Hu; cbn [negb]; [|left; now split].
  destruct (Qle_bool (Product.price product) 0) eqn:Hp; [left; now split|].
  destruct (Z.ltb_spec (Product.stock product) 0) as [Hs|Hs];
    [left; now split|].
  right. apply isBarcodeUnique_no_exclusion in Hu. repeat split; trivial.
  apply Qnot_le_lt. intro H. apply Qle_bool_iff in H. congruence.
Qed.

(** The ways [update] can end. *)
Lemma update_cases (barcode : string) (updates : ProductUpdates.t)
    (st : Storage.t) :
  let r := ProductService.update barcode updates st in
  (ProductService.findByBarcode barcode st = None /\
   fst r = Result.fail "Product not found" /\ snd r = st) \/
  (ProductService.findByBarcode barcode st <> None /\
   (exists v, ProductUpdates.price updates = Some v /\ (v <= 0)%Q) /\
   fst r = Result.fail "Price must be positive" /\ snd r = st) \/
  (ProductService.findByBarcode barcode st <> None /\
   (forall v, ProductUpdates.price updates = Some v -> (0 < v)%Q) /\
   (exists w, ProductUpdates.stock updates = Some w /\ w < 0) /\
   fst r = Result.fail "Stock cannot be negative" /\ snd r = st) \/
  (exists product,
     ProductService.findByBarcode barcode st = Some product /\
     (forall v, ProductUpdates.price updates = Some v -> (0 < v)%Q) /\
     (forall w, ProductUpdates.stock updates = Some w -> 0 <= w) /\
     fst r = Result.ok /\
     snd r = Storage.setProducts
               (Js.mutateFound (ProductService.hasBarcode barcode)
                  (ProductService.applyUpdates updates)
                  (Storage.pos_products st)) st).
Proof.
  unfold ProductService.update, ProductService.findByBarcode,
    ProductService.getAll, Js.mutateFound. cbv zeta.
  destruct (Js.findIndex (ProductService.hasBarcode barcode)
              (Storage.pos_products st)) as [index|] eqn:Hidx.
  - assert (Hfound : find (ProductService.hasBarcode barcode)
                       (Storage.pos_products st) <> None).
    { intro H. apply findIndex_None in H. congruence. }
    right.
    assert (Hprice :
      (exists v, ProductUpdates.price updates = Some v /\ (v <= 0)%Q /\
                 Qle_bool v 0 = true) \/
      ((forall v, ProductUpdates.price updates = Some v -> (0 < v)%Q) /\
       match ProductUpdates.price updates with
       | Some v => Qle_bool v 0
       | None => false
       end = false)).
    { destruct (ProductUpdates.price updates) as [v|];
        [|right; split; [discriminate|reflexivity]].
      destruct (Qle_bool v 0) eqn:Hv.
      - left. exists v. pose proof (proj1 (Qle_bool_iff _ _) Hv).
        now repeat split.
      - right. split; [|reflexivity]. intros v' E. inversion E; subst.
        apply Qnot_le_lt. intro H. apply Qle_bool_iff in H. congruence. }
    destruct Hprice as [(v & Ev & Hv & Hb) | (Hok & Hb)].
    + left. rewrite Ev, Hb. repeat split; trivial. now exists v.
    + right. rewrite Hb.
      destruct (ProductUpdates.stock updates) as [w|] eqn:Ew.
      * destruct (Z.ltb_spec w 0) as [Hw|Hw].
        -- left. repeat split; trivial. now exists w.
        -- right.
           destruct (find (ProductService.hasBarcode barcode)
                       (Storage.pos_products st)) as [product|] eqn:Hf;
             [|contradiction].
           exists product. repeat split; trivial.
           intros w' E. inversion E; subst. exact Hw.
      * right.
        destruct (find (ProductService.hasBarcode barcode)
                    (Storage.pos_products st)) as [product|] eqn:Hf;
          [|contradiction].
        exists product. repeat split; trivial. discriminate.
  - left. apply findIndex_None in Hidx. now repeat split.
Qed.

(** [update]: an unknown barcode, a price that is not positive and a
    negative stock are refused, in that order, and leave the storage as it
    was; otherwise the first product with the barcode takes the given
    fields, keeps its barcode and its place, and no other product
    changes. *)
Theorem update_contract (barcode : string) (updates : ProductUpdates.t)
    (st : Storage.t) :
  let r := ProductService.update barcode updates st in
  let priceOk :=
    forall v, ProductUpdates.price updates = Some v -> (0 < v)%Q in
  let stockOk :=
    forall v, ProductUpdates.stock updates = Some v -> 0 <= v in
  (ProductService.findByBarcode barcode st = None ->
     fst r = Result.fail "Product not found" /\ snd r = st) /\
  (ProductService.findByBarcode barcode st <> None -> ~ priceOk ->
     fst r = Result.fail "Price must be positive" /\ snd r = st) /\
  (ProductService.findByBarcode barcode st <> None -> priceOk -> ~ stockOk ->
     fst r = Result.fail "Stock cannot be negative" /\ snd r = st) /\
  (forall product,
     ProductService.findByBarcode barcode st = Some product ->
     priceOk -> stockOk ->
     fst r = Result.ok /\
     (exists before after,
        Storage.pos_products st = (before ++ product :: after)%list /\
        Storage.pos_products (snd r)
        = (before ++ ProductService.applyUpdates updates product :: after)%list)
     /\
     map Product.barcode (Storage.pos_products (snd r))
       = map Product.barcode (Storage.pos_products st) /\
     ProductService.findByBarcode barcode (snd r)
       = Some (ProductService.applyUpdates updates product) /\
     Storage.pos_stock_logs (snd r) = Storage.pos_stock_logs st /\
     Storage.pos_sales (snd r) = Storage.pos_sales st /\
     Storage.pos_stock_transfers (snd r) = Storage.pos_stock_transfers st).
Proof.
  cbv zeta.
  destruct (update_cases barcode updates st)
    as [(Hnone & Hr & Hst)
       |[(Hsome & (v & Ev & Hv) & Hr & Hst)
        |[(Hsome & Hok & (w & Ew & Hw) & Hr & Hst)
         |(product & Hf & Hok & Hsok & Hr & Hst)]]].
  - split; [intros _; now split|].
    split; [intro H; contradiction|]. split; [intro H; contradiction|].
    intros product H. congruence.
  - split; [intro H; contradiction|]. split; [intros _ _; now split|].
    split; [intros _ Hok _|intros product _ Hok _];
      exfalso; exact (Qlt_not_le _ _ (Hok v Ev) Hv).
  - split; [intro H; contradiction|].
    split; [intros _ Hbad; contradiction|].
    split; [intros _ _ _; now split|].
    intros product _ _ Hsok. specialize (Hsok w Ew). lia.
  - split; [intro H; congruence|].
    split; [intros _ Hbad; contradiction|].
    split; [intros _ _ Hbad; contradiction|].
    intros product' Hf' _ _. rewrite Hf in Hf'. inversion Hf'; subst product'.
    rewrite Hr, Hst.
    cbn [Storage.setProducts Storage.pos_products Storage.pos_stock_logs
         Storage.pos_sales Storage.pos_stock_transfers].
    unfold ProductService.findByBarcode, ProductService.getAll in *.
    cbn [Storage.pos_products].
    destruct (mutateFound_split (ProductService.hasBarcode barcode)
                (ProductService.applyUpdates updates) _ _ Hf)
      as (before & after & E1 & Hb & E2).
    repeat split.
    + exists before, after. now split.
    + now apply mutateFound_map_invariant.
    + cbn [Storage.setProducts Storage.pos_products].
      rewrite E2. rewrite find_app_skip.
      * cbn [find]. unfold ProductService.hasBarcode at 1.
        rewrite applyUpdates_barcode.
        apply find_some in Hf. destruct Hf as (_ & Hf).
        unfold ProductService.hasBarcode in Hf. now rewrite Hf.
      * apply find_None_iff. intros x Hx.
        rewrite Forall_forall in Hb. now apply Hb.
Qed.

Lemma filter_length_all {A : Type} (f : A -> bool) (l : list A) :
  List.length (filter f l) = List.length l <-> filter f l = l.
Proof.
  split; [|intro H; now rewrite H].
  induction l as [|x l IH]; simpl; [reflexivity|].
  destruct (f x); simpl; intro H.
  - f_equal. apply IH. congruence.
  - pose proof (filter_length_le f l). lia.
Qed.

Lemma filter_all_iff {A : Type} (f : A -> bool) (l : list A) :
  filter f l = l <-> forall x, In x l -> f x = true.
Proof.
  induction l as [|x l IH]; simpl; [tauto|].
  destruct (f x) eqn:E; split.
  - intros H y [<-|Hy]; [exact E|]. apply IH; [congruence|exact Hy].
  - intro H. f_equal. apply IH. intros y Hy. apply H. now right.
  - intro H. exfalso.
    assert (In x (filter f l)) as Hin by (rewrite H; now left).
    apply filter_In in Hin. destruct Hin as (_ & Hx). congruence.
  - intro H. specialize (H x (or_introl eq_refl)). congruence.
Qed.

(** The ways [delete] can end. *)
Lemma delete_cases (barcode : string) (st : Storage.t) :
  let r := ProductService.delete barcode st in
  (ProductService.findByBarcode barcode st = None /\
   fst r = Result.fail "Product not found" /\ snd r = st) \/
  (ProductService.findByBarcode barcode st <> None /\
   fst r = Result.ok /\
   snd r = Storage.setProducts
             (filter (fun p => negb (String.eqb (Product.barcode p) barcode))
                (Storage.pos_products st)) st).
Proof.
  unfold ProductService.delete, ProductService.findByBarcode,
    ProductService.getAll. cbv zeta.
  destruct (Nat.eqb_spec
              (List.length
                 (filter (fun p => negb (String.eqb (Product.barcode p)
                                           barcode))
                    (Storage.pos_products st)))
              (List.length (Storage.pos_products st))) as [E|E].
  - left. repeat split. apply find_None_iff. intros p Hp.
    apply filter_length_all in E.
    pose proof (proj1 (filter_all_iff _ _) E p Hp) as H.
    unfold ProductService.hasBarcode. now apply negb_true_iff in H.
  - right. repeat split. intro H. apply E. apply filter_length_all.
    apply filter_all_iff. intros p Hp.
    pose proof (find_none _ _ H p Hp) as Hno.
    unfold ProductService.hasBarcode in Hno. now rewrite Hno.
Qed.

(** [delete]: an unknown barcode is refused and leaves the storage as it
    was; otherwise every product with the barcode is removed, the others
    stay in their order, and the barcode is no longer found. *)
Theorem delete_contract (barcode : string) (st : Storage.t) :
  let r := ProductService.delete barcode st in
  (ProductService.findByBarcode barcode st = None ->
     fst r = Result.fail "Product not found" /\ snd r = st) /\
  (ProductService.findByBarcode barcode st <> None ->
     fst r = Result.ok /\
     ProductService.findByBarcode barcode (snd r) = None /\
     (forall p, In p (Storage.pos_products (snd r)) <->
                In p (Storage.pos_products st) /\
                Product.barcode p <> barcode) /\
     (forall b, b <> barcode ->
        ProductService.findByBarcode b (snd r)
        = ProductService.findByBarcode b st) /\
     Storage.pos_stock_logs (snd r) = Storage.pos_stock_logs st /\
     Storage.pos_sales (snd r) = Storage.pos_sales st /\
     Storage.pos_stock_transfers (snd r) = Storage.pos_stock_transfers st).
Proof.
  cbv zeta.
  destruct (delete_cases barcode st) as [(Hnone & Hr & Hst)|(Hsome & Hr & Hst)].
  - split; [intros _; now split|]. intro H. contradiction.
  - split; [intro H; contradiction|]. intros _. rewrite Hr, Hst.
    unfold ProductService.findByBarcode, ProductService.getAll.
    cbn [Storage.setProducts Storage.pos_products Storage.pos_stock_logs
         Storage.pos_sales Storage.pos_stock_transfers].
    split; [reflexivity|]. split; [|split; [|split; [|now repeat split]]].
    + apply find_None_iff. intros p Hp. apply filter_In in Hp.
      destruct Hp as (_ & Hp). unfold ProductService.hasBarcode.
      now apply negb_true_iff in Hp.
    + intro p. rewrite filter_In, negb_true_iff, String.eqb_neq. tauto.
    + intros b Hb. clear Hst Hsome Hr.
      induction (Storage.pos_products st) as [|p l IH]; [reflexivity|].
      cbn [filter find]. unfold ProductService.hasBarcode at 2.
      destruct (String.eqb_spec (Product.barcode p) barcode) as [E|E];
        cbn [negb].
      * destruct (String.eqb_spec (Product.barcode p) b) as [E'|E'];
          [congruence|exact IH].
      * cbn [find]. unfold ProductService.hasBarcode at 1.
        destruct (String.eqb (Product.barcode p) b); [reflexivity|exact IH].
Qed.

(** Adding a product and deleting its barcode again gives back the storage
    the addition started from. *)
Theorem add_then_delete_restores (product : Product.t) (st : Storage.t) :
  Result.success (fst (ProductService.add product st)) = true ->
  ProductService.delete (Product.barcode product)
    (snd (ProductService.add product st))
  = (Result.ok, st).
Proof.
  intro Hok.
  destruct (add_cases product st)
    as [(Hfail & _)|(Hnone & _ & _ & _ & Hst)]; [congruence|].
  rewrite Hst.
  destruct (delete_cases (Product.barcode product)
              (Storage.setProducts
                 (Storage.pos_products st ++ [product])%list st))
    as [(Habs & _)|(_ & Hr & Hst')].
  - exfalso. unfold ProductService.findByBarcode, ProductService.getAll in *.
    cbn [Storage.setProducts Storage.pos_products] in Habs.
    rewrite find_app_skip in Habs by exact Hnone. cbn [find] in Habs.
    unfold ProductService.hasBarcode in Habs.
    rewrite String.eqb_refl in Habs. discriminate.
  - rewrite (surjective_pairing (ProductService.delete _ _)), Hr, Hst'.
    f_equal. cbn [Storage.setProducts Storage.pos_products
                   Storage.pos_stock_logs Storage.pos_sales
                   Storage.pos_stock_transfers].
    rewrite filter_app. cbn [filter]. rewrite String.eqb_refl. cbn [negb].
    rewrite app_nil_r.
    assert (E : filter (fun p => negb (String.eqb (Product.barcode p)
                                         (Product.barcode product)))
                  (Storage.pos_products st) = Storage.pos_products st).
    { apply filter_all_iff. intros p Hp.
      unfold ProductService.findByBarcode, ProductService.getAll in Hnone.
      pose proof (find_none _ _ Hnone p Hp) as Hno.
      unfold ProductService.hasBarcode in Hno. now rewrite Hno. }
    rewrite E. now destruct st.
Qed.

Lemma add_then_delete_restores_witness :
  let widget := Product.mk "789" "Gizmo" 4%Q 2 Other in
  Result.success (fst (ProductService.add widget storage123)) = true /\
  ProductService.delete "789" (snd (ProductService.add widget storage123))
  = (Result.ok, storage123).
Proof.
  cbv zeta.
  assert (H : Result.success
                (fst (ProductService.add
                        (Product.mk "789" "Gizmo" 4%Q 2 Other) storage123))
              = true) by reflexivity.
  split; [exact H|].
  exact (add_then_delete_restores (Product.mk "789" "Gizmo" 4%Q 2 Other)
           storage123 H).
Defined.

(* ------------------------------------------------------------------ *)
(** ** The catalog stays well formed *)

Lemma find_unique_product (products : list Product.t) (p : Product.t) :
  NoDup (map Product.barcode products) -> In p products ->
  find (ProductService.hasBarcode (Product.barcode p)) products = Some p.
Proof.
  induction products as [|y l IH]; simpl; intros Hnd Hin; [contradiction|].
  inversion Hnd as [|? ? Hnotin Hnd']; subst.
  unfold ProductService.hasBarcode at 1.
  destruct Hin as [->|Hin]; [now rewrite String.eqb_refl|].
  destruct (String.eqb_spec (Product.barcode y) (Product.barcode p)) as [E|E].
  - exfalso. apply Hnotin. rewrite E. now apply in_map.
  - now apply IH.
Qed.

Lemma NoDup_map_filter {A B : Type} (key : A -> B) (g : A -> bool)
    (l : list A) :
  NoDup (map key l) -> NoDup (map key (filter g l)).
Proof.
  induction l as [|y l IH]; simpl; intro Hnd; [constructor|].
  inversion Hnd as [|? ? Hnotin Hnd']; subst.
  destruct (g y); simpl; [|now apply IH].
  constructor; [|now apply IH].
  intro Hin. apply Hnotin. apply in_map_iff in Hin.
  destruct Hin as (x & Hx & Hin). apply filter_In in Hin.
  apply in_map_iff. exists x. tauto.
Qed.

Lemma deductStock_barcodes (items : list SaleItem.t) :
  forall products,
    map Product.barcode (SaleService.deductStock products items)
    = map Product.barcode products.
Proof.
  unfold SaleService.deductStock.
  induction items as [|item items IH]; intro products; [reflexivity|].
  cbn [fold_left]. rewrite IH, deductItem_mutateFound.
  now apply mutateFound_map_invariant.
Qed.

Lemma deductStock_prices (items : list SaleItem.t) :
  forall products,
    Forall (fun p => (0 < Product.price p)%Q) products ->
    Forall (fun p => (0 < Product.price p)%Q)
      (SaleService.deductStock products items).
Proof.
  unfold SaleService.deductStock.
  induction items as [|item items IH]; intros products H; [exact H|].
  cbn [fold_left]. apply IH. rewrite deductItem_mutateFound.
  apply mutateFound_Forall; [|exact H]. intros x _ Hx. exact Hx.
Qed.

(** One operation keeps the catalog well formed, whether it succeeds or is
    refused. *)
Lemma runCatalogOp_wellFormed (op : CatalogOp) (st : Storage.t) :
  oneLinePerBarcode op -> catalogWellFormed st ->
  catalogWellFormed (runCatalogOp st op).
Proof.
  intros Hop (Hnd & Hall).
  destruct op as [product|barcode updates|barcode
                 |env barcode quantity performedBy
                 |env items pm paid cashier sid sname]; cbn [runCatalogOp].
  - destruct (add_cases product st)
      as [(_ & ->)|(Hnone & Hp & Hs & _ & ->)]; [now split|].
    unfold catalogWellFormed.
    cbn [Storage.setProducts Storage.pos_products]. split.
    + rewrite map_app. cbn [map].
      apply Permutation_NoDup
        with (l := Product.barcode product
                   :: map Product.barcode (Storage.pos_products st)).
      * apply Permutation_cons_append.
      * constructor; [|exact Hnd]. intro Hin. apply in_map_iff in Hin.
        destruct Hin as (x & Hx & Hin).
        unfold ProductService.findByBarcode, ProductService.getAll in Hnone.
        pose proof (find_none _ _ Hnone x Hin) as Hno.
        apply (proj2 (hasBarcode_true _ _)) in Hx. congruence.
    + apply Forall_app. split; [exact Hall|]. constructor; [|constructor].
      now split.
  - destruct (update_cases barcode updates st)
      as [(_ & _ & ->)|[(_ & _ & _ & ->)|[(_ & _ & _ & _ & ->)
         |(product & _ & Hp & Hs & _ & ->)]]]; try now split.
    unfold catalogWellFormed.
    cbn [Storage.setProducts Storage.pos_products]. split.
    + rewrite mutateFound_map_invariant; [exact Hnd|reflexivity].
    + apply mutateFound_Forall; [|exact Hall].
      intros x _ (Hx1 & Hx2). unfold ProductService.applyUpdates.
      cbn [Product.price Product.stock]. split.
      * destruct (ProductUpdates.price updates) as [v|]; [now apply Hp|].
        exact Hx1.
      * destruct (ProductUpdates.stock updates) as [w|]; [now apply Hs|].
        exact Hx2.
  - destruct (delete_cases barcode st) as [(_ & _ & ->)|(_ & _ & ->)];
      [now split|].
    unfold catalogWellFormed.
    cbn [Storage.setProducts Storage.pos_products]. split.
    + now apply NoDup_map_filter.
    + apply Forall_forall. intros p Hp. apply filter_In in Hp.
      rewrite Forall_forall in Hall. now apply Hall.
  - destruct (restock_cases env barcode quantity performedBy st)
      as [(_ & -> & _)|(Hq & product & Hf & _ & Hprod)]; [now split|].
    unfold catalogWellFormed. rewrite Hprod. split.
    + rewrite mutateFound_map_invariant; [exact Hnd|reflexivity].
    + apply find_some in Hf. destruct Hf as (Hin & _).
      rewrite Forall_forall in Hall.
      destruct (Hall product Hin) as (_ & Hs).
      apply mutateFound_Forall; [|now apply Forall_forall].
      intros x _ (Hx1 & Hx2). cbn. split; [exact Hx1|lia].
  - cbn [oneLinePerBarcode] in Hop.
    destruct (processSale_cases env items pm paid cashier sid sname st)
      as [(_ & _ & -> & _)|(_ & _ & Hchk & _ & ->)]; [now split|].
    unfold catalogWellFormed.
    cbn [Storage.setSales Storage.setProducts Storage.pos_products].
    assert (Hnd' : NoDup (map Product.barcode
                            (SaleService.deductStock
                               (Storage.pos_products st) items)))
      by (now rewrite deductStock_barcodes).
    split; [exact Hnd'|].
    assert (Hprices : Forall (fun p => (0 < Product.price p)%Q)
                        (SaleService.deductStock
                           (Storage.pos_products st) items)).
    { apply deductStock_prices. apply Forall_forall. intros p Hp.
      rewrite Forall_forall in Hall. now apply Hall. }
    apply Forall_forall. intros p' Hp'. split.
    + rewrite Forall_forall in Hprices. now apply Hprices.
    + pose proof (find_unique_product _ _ Hnd' Hp') as Hfind.
      pose proof (deductStock_stock (Product.barcode p') items
                    (Storage.pos_products st)) as Hstock.
      unfold stockOf at 1 in Hstock. rewrite Hfind in Hstock.
      cbn [option_map] in Hstock.
      destruct (stockOf (Product.barcode p') (Storage.pos_products st))
        as [s0|] eqn:Hs0; [|discriminate].
      cbn [option_map] in Hstock. inversion Hstock as [Hval].
      assert (0 <= s0) as Hpos.
      { unfold stockOf in Hs0.
        destruct (find _ (Storage.pos_products st)) as [p0|] eqn:Hp0;
          [|discriminate].
        cbn in Hs0. inversion Hs0; subst s0.
        apply find_some in Hp0. destruct Hp0 as (Hin0 & _).
        rewrite Forall_forall in Hall. now apply Hall. }
      pose proof (unitsSold_le_stock _ _ _ _ Hop Hchk Hs0 Hpos). lia.
Qed.

(** From a catalog with unique barcodes, positive prices and stocks that
    are not negative, every sequence of add, update, delete, restock and
    sales with one line per barcode, successful or refused, leads to such a
    catalog again. *)
Theorem catalog_stays_wellFormed (ops : list CatalogOp) :
  forall st,
    Forall oneLinePerBarcode ops ->
    catalogWellFormed st ->
    catalogWellFormed (fold_left runCatalogOp ops st).
Proof.
  induction ops as [|op ops IH]; intros st Hops Hwf; [exact Hwf|].
  inversion Hops as [|? ? Hop Hops']; subst. cbn [fold_left].
  apply IH; [exact Hops'|]. now apply runCatalogOp_wellFormed.
Qed.

Lemma catalog_stays_wellFormed_witness :
  catalogWellFormed
    (fold_left runCatalogOp
       [CatAdd (Product.mk "789" "Gizmo" 4%Q 2 Other);
        CatRestock env0 "789" 3 "alice";
        CatSale env0 [line123] cash 30%Q "alice" "store-001" "Main Store";
        CatDelete "123"]
       storage123).
Proof.
  apply catalog_stays_wellFormed.
  - repeat constructor. cbn. intros [].
  - split.
    + cbn. repeat constructor. intros [].
    + cbn. repeat constructor; cbn; lia.
Defined.

(* ------------------------------------------------------------------ *)
(** ** The stock log *)

(** The storage a successful restock leaves. *)
Lemma restock_result (env : Env.t) (barcode : string) (quantity : Z)
    (performedBy : string) (st : Storage.t) (product : Product.t) :
  0 < quantity ->
  ProductService.findByBarcode barcode st = Some product ->
  ProductService.restock env barcode quantity performedBy st
  = (Result.ok,
     Storage.setStockLogs
       (StockLog.mk ("log-" ++ Js.showZ (Env.now env)) barcode
          (Product.name product) (Product.stock product)
          (Product.stock product + quantity) quantity (Env.isoNow env)
          performedBy
        :: Storage.pos_stock_logs st)
       (Storage.setProducts
          (Js.mutateFound (ProductService.hasBarcode barcode)
             (Product.withStock (Product.stock product + quantity))
             (Storage.pos_products st))
          st)).
Proof.
  intros Hq Hf.
  unfold ProductService.restock, ProductService.findByBarcode,
    ProductService.getAll in *.
  destruct (Z.leb_spec quantity 0); [lia|]. now rewrite Hf.
Qed.

(** What one operation does to the log: nothing, or one entry that adds up
    is put in front. *)
Lemma runCatalogOp_log (op : CatalogOp) (st : Storage.t) :
  Storage.pos_stock_logs (runCatalogOp st op) = Storage.pos_stock_logs st \/
  exists log,
    Storage.pos_stock_logs (runCatalogOp st op)
      = log :: Storage.pos_stock_logs st /\
    logAddsUp log.
Proof.
  destruct op as [product|barcode updates|barcode
                 |env barcode quantity performedBy
                 |env items pm paid cashier sid sname]; cbn [runCatalogOp].
  - left. destruct (add_cases product st) as [(_ & ->)|(_ & _ & _ & _ & ->)];
      reflexivity.
  - left. destruct (update_cases barcode updates st)
      as [(_ & _ & ->)|[(_ & _ & _ & ->)|[(_ & _ & _ & _ & ->)
         |(product & _ & _ & _ & _ & ->)]]]; reflexivity.
  - left. destruct (delete_cases barcode st) as [(_ & _ & ->)|(_ & _ & ->)];
      reflexivity.
  - destruct (restock_cases env barcode quantity performedBy st)
      as [(_ & -> & _)|(Hq & product & Hf & _)]; [now left|].
    right. rewrite (restock_result env barcode quantity performedBy st
                      product Hq Hf).
    eexists. cbn. split; [reflexivity|]. split; cbn; [reflexivity|exact Hq].
  - left. destruct (processSale_cases env items pm paid cashier sid sname st)
      as [(_ & _ & -> & _)|(_ & _ & _ & _ & ->)]; reflexivity.
Qed.

(** The stock log is append-only and every entry adds up: over every
    sequence of catalog operations and sales the log of the start is the
    tail of the log of the end, and when its entries satisfy
    [newStock = previousStock + quantityAdded] with a positive
    [quantityAdded], so do all entries of the end. *)
Theorem stock_log_append_only (ops : list CatalogOp) :
  forall st,
    (exists newer,
       Storage.pos_stock_logs (fold_left runCatalogOp ops st)
       = (newer ++ Storage.pos_stock_logs st)%list /\
       Forall logAddsUp newer) /\
    (Forall logAddsUp (Storage.pos_stock_logs st) ->
     Forall logAddsUp
       (Storage.pos_stock_logs (fold_left runCatalogOp ops st))).
Proof.
  induction ops as [|op ops IH]; intro st; cbn [fold_left].
  - split; [exists []; split; [reflexivity|constructor]|trivial].
  - destruct (IH (runCatalogOp st op)) as ((newer & Hn & Hnewer) & Hall).
    destruct (runCatalogOp_log op st) as [E|(log & E & Hlog)].
    + rewrite E in *. split; [now exists newer|exact Hall].
    + rewrite E in *. split.
      * exists (newer ++ [log])%list. split.
        -- now rewrite <- app_assoc.
        -- apply Forall_app. split; [exact Hnewer|].
           constructor; [exact Hlog|constructor].
      * intro H. apply Hall. now constructor.
Qed.

Lemma loggedAdditions_runOp (b : string) (op : StockOp) (st : Storage.t) :
  fst (runOp op st) = true ->
  loggedAdditions b (snd (runOp op st))
  = loggedAdditions b st + restockedBy b op.
Proof.
  unfold loggedAdditions, StockLogService.getByBarcode,
    StockLogService.getAll.
  destruct op as [env barcode quantity performedBy
                 |env items pm paid cashier sid sname]; cbn [runOp fst snd].
  - intro Hok.
    destruct (restock_cases env barcode quantity performedBy st)
      as [(Hfail & _)|(Hq & product & Hf & _)]; [congruence|].
    rewrite (restock_result env barcode quantity performedBy st product
               Hq Hf).
    cbn [snd Storage.setStockLogs Storage.pos_stock_logs filter
         StockLog.barcode restockedBy].
    unfold sumZ.
    destruct (String.eqb barcode b);
      cbn [map fold_right StockLog.quantityAdded]; lia.
  - intro Hok.
    destruct (processSale_cases env items pm paid cashier sid sname st)
      as [(Hfail & _)|(_ & _ & _ & _ & ->)]; [congruence|].
    cbn [Storage.setSales Storage.setProducts Storage.pos_stock_logs
         restockedBy]. lia.
Qed.

(** The log accounts for every restocked unit: over a run of successful
    restocks and sales, the quantities logged for a barcode grow by exactly
    what was restocked, so the stock ends at its initial value plus the
    logged additions minus the units sold. *)
Theorem stock_log_accounts_for_restocks (b : string) (ops : list StockOp) :
  forall st st' s0,
    runSuccessful ops st = Some st' ->
    stockOf b (Storage.pos_products st) = Some s0 ->
    loggedAdditions b st'
      = loggedAdditions b st + sumZ (map (restockedBy b) ops) /\
    stockOf b (Storage.pos_products st')
      = Some (s0 + (loggedAdditions b st' - loggedAdditions b st)
              - sumZ (map (soldBy b) ops)).
Proof.
  intros st st' s0 Hrun Hs0.
  assert (Hlog : loggedAdditions b st'
                 = loggedAdditions b st + sumZ (map (restockedBy b) ops)).
  { clear Hs0 s0. revert st st' Hrun.
    induction ops as [|op ops IH]; intros st st' Hrun.
    - cbn in Hrun. inversion Hrun; subst. cbn. lia.
    - cbn [runSuccessful] in Hrun.
      destruct (fst (runOp op st)) eqn:Hok; [|discriminate].
      rewrite (IH _ _ Hrun), (loggedAdditions_runOp b op st Hok).
      cbn [map sumZ fold_right].
      fold (sumZ (map (restockedBy b) ops)). lia. }
  split; [exact Hlog|].
  rewrite (stock_conservation b ops st st' s0 Hrun Hs0). f_equal. lia.
Qed.

Lemma stock_log_accounts_for_restocks_witness :
  let ops := [OpRestock env0 "123" 10 "alice";
              OpSale env0 [line123] cash 30%Q "alice" "store-001"
                "Main Store"] in
  exists st',
    runSuccessful ops storage123 = Some st' /\
    loggedAdditions "123" st' = 10 /\
    stockOf "123" (Storage.pos_products st') = Some 12.
Proof.
  cbv zeta.
  assert (Hrun : runSuccessful
                   [OpRestock env0 "123" 10 "alice";
                    OpSale env0 [line123] cash 30%Q "alice" "store-001"
                      "Main Store"] storage123
                 = Some (snd (runOp (OpSale env0 [line123] cash 30%Q "alice"
                                       "store-001" "Main Store")
                                (snd (runOp (OpRestock env0 "123" 10 "alice")
                                        storage123)))))
    by (vm_compute; reflexivity).
  eexists. split; [exact Hrun|].
  destruct (stock_log_accounts_for_restocks "123" _ storage123 _ 5 Hrun
              eq_refl) as (Hlog & Hstock).
  split.
  - rewrite Hlog. reflexivity.
  - rewrite Hstock, Hlog. reflexivity.
Defined.

(** After a successful restock the new entry is the first of
    [getRecent limit] for every [limit] of at least 1 and the first of the
    entries of its barcode, and the entries of the other barcodes are as
    before. *)
Theorem restock_entry_is_most_recent (env : Env.t) (barcode : string)
    (quantity : Z) (performedBy : string) (st : Storage.t) (limit : Z) :
  Result.success
    (fst (ProductService.restock env barcode quantity performedBy st))
  = true ->
  1 <= limit ->
  let st' := snd (ProductService.restock env barcode quantity performedBy st)
  in
  exists log,
    StockLog.barcode log = barcode /\
    StockLog.quantityAdded log = quantity /\
    StockLog.performedBy log = performedBy /\
    StockLogService.getRecent limit st'
      = log :: StockLogService.getRecent (limit - 1) st /\
    StockLogService.getByBarcode barcode st'
      = log :: StockLogService.getByBarcode barcode st /\
    forall b, b <> barcode ->
      StockLogService.getByBarcode b st' = StockLogService.getByBarcode b st.
Proof.
  intros Hok Hlimit.
  destruct (restock_cases env barcode quantity performedBy st)
    as [(Hfail & _)|(Hq & product & Hf & _)]; [congruence|].
  rewrite (restock_result env barcode quantity performedBy st product Hq Hf).
  cbv zeta. eexists. split; [|split; [|split; [|split; [|split]]]].
  4:{ unfold StockLogService.getRecent, StockLogService.getAll.
      cbn [snd Storage.setStockLogs Storage.pos_stock_logs List.length].
      destruct (Z.ltb_spec limit 0); [lia|].
      destruct (Z.ltb_spec (limit - 1) 0); [lia|].
      replace (Z.to_nat (Z.min limit
                 (Z.of_nat (S (List.length (Storage.pos_stock_logs st))))))
        with (S (Z.to_nat (Z.min (limit - 1)
                   (Z.of_nat (List.length (Storage.pos_stock_logs st))))))
        by lia.
      reflexivity. }
  - reflexivity.
  - reflexivity.
  - reflexivity.
  - unfold StockLogService.getByBarcode, StockLogService.getAll.
    cbn [snd Storage.setStockLogs Storage.pos_stock_logs filter
         StockLog.barcode]. now rewrite String.eqb_refl.
  - intros b Hb.
    unfold StockLogService.getByBarcode, StockLogService.getAll.
    cbn [snd Storage.setStockLogs Storage.pos_stock_logs filter
         StockLog.barcode].
    destruct (String.eqb_spec barcode b); [congruence|reflexivity].
Qed.

Lemma restock_entry_is_most_recent_witness :
  let st' := snd (ProductService.restock env0 "123" 10 "alice" storage123) in
  exists log,
    StockLog.quantityAdded log = 10 /\
    StockLogService.getRecent 10 st'
      = log :: StockLogService.getRecent 9 storage123.
Proof.
  cbv zeta.
  destruct (restock_entry_is_most_recent env0 "123" 10 "alice" storage123 10)
    as (log & _ & Hadd & _ & Hrecent & _).
  - reflexivity.
  - lia.
  - exists log. split; [exact Hadd|exact Hrecent].
Defined.

Lemma stock_log_append_only_witness :
  let ops := [CatRestock env0 "123" 10 "alice"; CatDelete "123"] in
  Forall logAddsUp (Storage.pos_stock_logs storage123) /\
  Forall logAddsUp
    (Storage.pos_stock_logs (fold_left runCatalogOp ops storage123)).
Proof.
  cbv zeta.
  assert (H : Forall logAddsUp (Storage.pos_stock_logs storage123))
    by constructor.
  split; [exact H|].
  exact (proj2 (stock_log_append_only
                  [CatRestock env0 "123" 10 "alice"; CatDelete "123"]
                  storage123) H).
Defined.

(* ------------------------------------------------------------------ *)
(** ** Dashboard statistics *)

Lemma filter_length_weaker {A : Type} (f g : A -> bool) (l : list A) :
  (forall x, f x = true -> g x = true) ->
  (List.length (filter f l) <= List.length (filter g l))%nat.
Proof.
  intro H. induction l as [|x l IH]; simpl; [lia|].
  destruct (f x) eqn:E.
  - rewrite (H x E). simpl. lia.
  - destruct (g x); simpl; lia.
Qed.

(** The dashboard counts: products in stock and out of stock never exceed
    the total and add up to it exactly when no product has a negative
    stock; the low-stock products are among those in stock, and their count
    is the length of [getLowStockProducts 5]. *)
Theorem dashboard_stats_partition (st : Storage.t) :
  let stats := DashboardService.getStats st in
  DashboardStats.inStockProducts stats + DashboardStats.outOfStockProducts stats
    <= DashboardStats.totalProducts stats /\
  (Forall (fun p => 0 <= Product.stock p) (Storage.pos_products st) <->
   DashboardStats.inStockProducts stats
   + DashboardStats.outOfStockProducts stats
   = DashboardStats.totalProducts stats) /\
  0 <= DashboardStats.lowStockProducts stats
    <= DashboardStats.inStockProducts stats /\
  DashboardStats.lowStockProducts stats
    = Z.of_nat (List.length (DashboardService.getLowStockProducts 5 st)) /\
  DashboardStats.outOfStockProducts stats
    = Z.of_nat (List.length (DashboardService.getOutOfStockProducts st)).
Proof.
  unfold DashboardService.getStats, DashboardService.getLowStockProducts,
    DashboardService.getOutOfStockProducts, DashboardService.countWhere,
    ProductService.getAll. cbv zeta.
  cbn [DashboardStats.inStockProducts DashboardStats.outOfStockProducts
       DashboardStats.totalProducts DashboardStats.lowStockProducts].
  set (products := Storage.pos_products st).
  assert (Hsplit :
    (List.length (filter (fun p => (Product.stock p >? 0)%Z) products)
     + List.length (filter (fun p => (Product.stock p =? 0)%Z) products)
     + List.length (filter (fun p => (Product.stock p <? 0)%Z) products))%nat
    = List.length products).
  { induction products as [|p l IH]; simpl; [reflexivity|].
    destruct (Z.gtb_spec (Product.stock p) 0),
             (Z.eqb_spec (Product.stock p) 0),
             (Z.ltb_spec (Product.stock p) 0); simpl; lia. }
  assert (Hneg :
    Forall (fun p => 0 <= Product.stock p) products <->
    List.length (filter (fun p => Product.stock p <? 0) products) = 0%nat).
  { clear Hsplit. induction products as [|p l IH]; simpl.
    - split; [reflexivity|constructor].
    - destruct (Z.ltb_spec (Product.stock p) 0); simpl; split; intro H0;
        try discriminate.
      + inversion H0; subst. lia.
      + apply IH. now inversion H0.
      + constructor; [lia|now apply IH]. }
  split; [lia|]. split; [rewrite Hneg; lia|]. split; [|now split].
  split; [lia|]. apply inj_le. apply filter_length_weaker.
  intros p Hp. now apply andb_true_iff in Hp.
Qed.

Lemma dashboard_stats_partition_witness :
  let stats := DashboardService.getStats storageTwo in
  Forall (fun p => 0 <= Product.stock p) (Storage.pos_products storageTwo) /\
  DashboardStats.inStockProducts stats
  + DashboardStats.outOfStockProducts stats
  = DashboardStats.totalProducts stats.
Proof.
  cbv zeta.
  assert (H : Forall (fun p => 0 <= Product.stock p)
                (Storage.pos_products storageTwo))
    by (repeat constructor; cbn; lia).
  split; [exact H|].
  exact (proj1 (proj1 (proj2 (dashboard_stats_partition storageTwo))) H).
Defined.

(* ------------------------------------------------------------------ *)
(** ** The sales ledger after a sale *)

(** A successful sale is the newest entry of the ledger: [getAll] starts
    with it, [getByReceiptNumber] finds it under its receipt number,
    [getByStore] of its store starts with it, and [getByStore] of every
    other store is as before. *)
Theorem sale_is_newest_in_ledger (env : Env.t) (items : list SaleItem.t)
    (paymentMethod : PaymentMethod) (amountPaid : Q)
    (cashierName storeId storeName : string) (st : Storage.t) :
  let r := SaleService.processSale env items paymentMethod amountPaid
             cashierName storeId storeName st in
  SaleResult.success (fst r) = true ->
  exists sale,
    SaleResult.sale (fst r) = Some sale /\
    SaleRecord.receiptNumber sale = SaleService.generateReceiptNumber env /\
    SaleRecord.storeId sale = storeId /\
    SaleService.getAll (snd r) = sale :: SaleService.getAll st /\
    SaleService.getByReceiptNumber (SaleRecord.receiptNumber sale) (snd r)
      = Some sale /\
    SaleService.getByStore storeId (snd r)
      = sale :: SaleService.getByStore storeId st /\
    forall other, other <> storeId ->
      SaleService.getByStore other (snd r) = SaleService.getByStore other st.
Proof.
  cbv zeta. intro Hok.
  destruct (processSale_cases env items paymentMethod amountPaid cashierName
              storeId storeName st)
    as [(Hfail & _)|(_ & _ & _ & Hr & Hst)]; [congruence|].
  rewrite Hr, Hst. eexists. split; [reflexivity|].
  unfold SaleService.getByReceiptNumber, SaleService.getByStore,
    SaleService.getAll, saleRecordOf.
  cbn [Storage.setSales Storage.pos_sales SaleRecord.receiptNumber
       SaleRecord.storeId find filter].
  rewrite !String.eqb_refl. repeat split.
  intros other Hother.
  destruct (String.eqb_spec storeId other); [congruence|reflexivity].
Qed.

Lemma sale_is_newest_in_ledger_witness :
  let r := SaleService.processSale env0 cartLines cash 30%Q "alice"
             "store-001" "Main Store" storageTwo in
  SaleResult.success (fst r) = true /\
  exists sale,
    SaleService.getByReceiptNumber "RCP-MHGY2O00-K3X" (snd r) = Some sale /\
    SaleService.getByStore "store-001" (snd r) = [sale].
Proof.
  cbv zeta.
  assert (Hok : SaleResult.success
                  (fst (SaleService.processSale env0 cartLines cash 30%Q
                          "alice" "store-001" "Main Store" storageTwo))
                = true) by (vm_compute; reflexivity).
  split; [exact Hok|].
  destruct (sale_is_newest_in_ledger env0 cartLines cash 30%Q "alice"
              "store-001" "Main Store" storageTwo Hok)
    as (sale & _ & Hrcp & _ & _ & Hfind & Hstore & _).
  exists sale. split.
  - rewrite Hrcp in Hfind. exact Hfind.
  - exact Hstore.
Defined.

(* ------------------------------------------------------------------ *)
(** ** Pending transfers of a store *)

Lemma complete_result (env : Env.t) (transferId : string) (st : Storage.t)
    (found : StockTransfer.t) :
  find (StockTransferService.hasId transferId) (StockTransferService.getAll st)
    = Some found ->
  StockTransfer.status found = pending ->
  StockTransferService.complete env transferId st
  = (Result.ok,
     Storage.setStockTransfers
       (Js.mutateFound (StockTransferService.hasId transferId)
          (fun x => StockTransfer.withCompletedAt (Env.isoNow env)
                      (StockTransfer.withStatus completed x))
          (StockTransferService.getAll st)) st).
Proof.
  intros Hf Hp. destruct (find_findIndex _ _ _ Hf) as (i & Hi & Hn).
  unfold StockTransferService.complete, Js.mutateFound.
  now rewrite Hi, Hn, Hp.
Qed.

Lemma cancel_result (transferId : string) (st : Storage.t)
    (found : StockTransfer.t) :
  find (StockTransferService.hasId transferId) (StockTransferService.getAll st)
    = Some found ->
  StockTransfer.status found = pending ->
  StockTransferService.cancel transferId st
  = (Result.ok,
     Storage.setStockTransfers
       (Js.mutateFound (StockTransferService.hasId transferId)
          (StockTransfer.withStatus cancelled)
          (StockTransferService.getAll st)) st).
Proof.
  intros Hf Hp. destruct (find_findIndex _ _ _ Hf) as (i & Hi & Hn).
  unfold StockTransferService.cancel, Js.mutateFound.
  now rewrite Hi, Hn, Hp.
Qed.

(** The place of the first match does not depend on the mutation. *)
Lemma mutateFound_split_all {A : Type} (f : A -> bool) (l : list A) (x : A) :
  find f l = Some x ->
  exists l1 l2,
    l = (l1 ++ x :: l2)%list /\
    forall g, Js.mutateFound f g l = (l1 ++ g x :: l2)%list.
Proof.
  induction l as [|y l IH]; simpl; intro H; [discriminate|].
  destruct (f y) eqn:E.
  - inversion H; subst. exists [], l. split; [reflexivity|].
    intro g. rewrite mutateFound_cons. now rewrite E.
  - destruct (IH H) as (l1 & l2 & -> & Hm).
    exists (y :: l1), l2. split; [reflexivity|].
    intro g. rewrite mutateFound_cons, E, Hm. reflexivity.
Qed.

Lemma pending_after_leaving (storeId : string)
    (g : StockTransfer.t -> StockTransfer.t)
    (l1 l2 : list StockTransfer.t) (found : StockTransfer.t) :
  StockTransfer.status found = pending ->
  StockTransfer.status (g found) <> pending ->
  filter (isPendingFor storeId) (l1 ++ found :: l2)
  = (filter (isPendingFor storeId) l1
     ++ (if String.eqb (StockTransfer.toStoreId found) storeId
         then [found] else [])
     ++ filter (isPendingFor storeId) l2)%list /\
  filter (isPendingFor storeId) (l1 ++ g found :: l2)
  = (filter (isPendingFor storeId) l1
     ++ filter (isPendingFor storeId) l2)%list.
Proof.
  intros Hp Hg.
  assert (H1 : isPendingFor storeId found
               = String.eqb (StockTransfer.toStoreId found) storeId).
  { unfold isPendingFor. rewrite Hp. apply andb_true_r. }
  assert (H2 : isPendingFor storeId (g found) = false).
  { unfold isPendingFor.
    destruct (TransferStatus.eqb (StockTransfer.status (g found)) pending)
      eqn:E; [|apply andb_false_r].
    apply status_eqb_pending in E. contradiction. }
  rewrite !filter_app. cbn [filter]. rewrite H1, H2.
  destruct (String.eqb (StockTransfer.toStoreId found) storeId); now split.
Qed.

(** The pending list of a store follows the transfers: [create] appends the
    new transfer to the list of its destination store when the request is
    pending and changes no list otherwise; completing or cancelling the
    pending transfer that an id designates removes exactly that transfer
    from the list of its destination store and leaves the lists of the
    other stores as they were. *)
Theorem pending_list_tracks_transfers (env : Env.t) (storeId : string)
    (st : Storage.t) :
  (forall transfer,
     exists newTransfer,
       Storage.pos_stock_transfers
         (snd (StockTransferService.create env transfer st))
       = (Storage.pos_stock_transfers st ++ [newTransfer])%list /\
       StockTransferService.getPendingForStore storeId
         (snd (StockTransferService.create env transfer st))
       = (StockTransferService.getPendingForStore storeId st
          ++ (if String.eqb (TransferRequest.toStoreId transfer) storeId
                 && TransferStatus.eqb (TransferRequest.status transfer)
                      pending
              then [newTransfer] else []))%list) /\
  (forall transferId found,
     find (StockTransferService.hasId transferId)
       (StockTransferService.getAll st) = Some found ->
     StockTransfer.status found = pending ->
     exists before after,
       StockTransferService.getPendingForStore storeId st
       = (before
          ++ (if String.eqb (StockTransfer.toStoreId found) storeId
              then [found] else [])
          ++ after)%list /\
       StockTransferService.getPendingForStore storeId
         (snd (StockTransferService.complete env transferId st))
       = (before ++ after)%list /\
       StockTransferService.getPendingForStore storeId
         (snd (StockTransferService.cancel transferId st))
       = (before ++ after)%list).
Proof.
  split.
  - intro transfer. unfold StockTransferService.create,
      StockTransferService.getPendingForStore, StockTransferService.getAll.
    cbv zeta. cbn [snd Storage.setStockTransfers Storage.pos_stock_transfers].
    eexists. split; [reflexivity|].
    rewrite filter_app. cbn [filter StockTransfer.toStoreId
                               StockTransfer.status].
    now destruct (_ && _).
  - intros transferId found Hf Hp.
    rewrite (complete_result env transferId st found Hf Hp),
            (cancel_result transferId st found Hf Hp).
    destruct (mutateFound_split_all _ _ _ Hf) as (l1 & l2 & El & Hm).
    unfold StockTransferService.getPendingForStore.
    fold (isPendingFor storeId).
    unfold StockTransferService.getAll in *.
    cbn [snd Storage.setStockTransfers Storage.pos_stock_transfers].
    rewrite !Hm, El.
    destruct (pending_after_leaving storeId
                (fun x => StockTransfer.withCompletedAt (Env.isoNow env)
                            (StockTransfer.withStatus completed x))
                l1 l2 found Hp) as (E1 & E1'); [discriminate|].
    destruct (pending_after_leaving storeId
                (StockTransfer.withStatus cancelled)
                l1 l2 found Hp) as (_ & E2'); [discriminate|].
    exists (filter (isPendingFor storeId) l1),
           (filter (isPendingFor storeId) l2).
    split; [exact E1|]. split; [exact E1'|exact E2'].
Qed.

Lemma pending_list_tracks_transfers_witness :
  StockTransferService.getPendingForStore "store-002" storageTransfer
    = [transferPending] /\
  StockTransferService.getPendingForStore "store-002"
    (snd (StockTransferService.complete env0 "transfer-1" storageTransfer))
    = [] /\
  StockTransferService.getPendingForStore "store-002"
    (snd (StockTransferService.cancel "transfer-1" storageTransfer))
    = [].
Proof.
  destruct (proj2 (pending_list_tracks_transfers env0 "store-002"
                     storageTransfer)
              "transfer-1" transferPending eq_refl eq_refl)
    as (before & after & E & Ec & Ex).
  assert (Hlist : StockTransferService.getPendingForStore "store-002"
                    storageTransfer = [transferPending]) by reflexivity.
  rewrite Hlist in E. cbn in E.
  assert (Hempty : (before ++ after)%list = []).
  { destruct before as [|b before].
    - cbn in E. inversion E. reflexivity.
    - cbn in E. inversion E as [[Hb Hrest]].
      destruct before; cbn in Hrest; discriminate. }
  split; [exact Hlist|]. split.
  - rewrite Ec. exact Hempty.
  - rewrite Ex. exact Hempty.
Defined.

(* ------------------------------------------------------------------ *)
(** ** The cart: quantities, updates and removal *)

Lemma dropNull_Forall {A : Type} (P : A -> Prop) (l : list (option A)) :
  Forall (fun o => match o with Some x => P x | None => True end) l ->
  Forall P (CashierView.dropNull l).
Proof.
  induction 1 as [|[x|] l Hx _ IH]; simpl; auto.
Qed.

(** Every line of the cart of the component has a quantity of at least
    1. *)
Theorem cart_quantities_positive (cart : list CartItem.t) :
  CashierView.CartState cart ->
  Forall (fun item => 1 <= CartItem.quantity item) cart.
Proof.
  induction 1 as [|st barcode cart _ IH|barcode delta cart _ IH
                 |barcode cart _ IH].
  - constructor.
  - unfold CashierView.handleScan.
    destruct (ProductService.findByBarcode barcode st) as [product|];
      [|exact IH].
    destruct (find _ cart) as [existingItem|].
    + destruct (_ >=? _); cbn [snd]; [exact IH|].
      apply Forall_map. revert IH. apply Forall_impl. intros item Hq.
      destruct (CashierView.itemHasBarcode barcode item); cbn; lia.
    + destruct (_ =? 0); cbn [snd]; [exact IH|].
      apply Forall_app. split; [exact IH|]. repeat constructor. cbn. lia.
  - unfold CashierView.handleUpdateQuantity. apply dropNull_Forall.
    apply Forall_map. revert IH. apply Forall_impl. intros item Hq.
    unfold CashierView.updateItem.
    destruct (CashierView.itemHasBarcode barcode item); [|exact Hq].
    destruct (Z.leb_spec (CartItem.quantity item + delta) 0); [exact I|].
    destruct (_ >? _); [exact Hq|cbn; lia].
  - unfold CashierView.handleRemove. apply Forall_forall.
    intros item Hin. apply filter_In in Hin.
    rewrite Forall_forall in IH. now apply IH.
Qed.

Lemma cart_quantities_positive_witness :
  CashierView.CartState (scanned 3) /\
  Forall (fun item => 1 <= CartItem.quantity item) (scanned 3).
Proof.
  split; [apply scanned_CartState|].
  exact (cart_quantities_positive (scanned 3) (scanned_CartState 3)).
Defined.

Lemma updateItem_other (barcode : string) (delta : Z)
    (cart : list CartItem.t) :
  (forall item, In item cart -> cartBarcode item <> barcode) ->
  CashierView.dropNull (map (CashierView.updateItem barcode delta) cart)
  = cart.
Proof.
  induction cart as [|y cart IH]; simpl; intro H; [reflexivity|].
  unfold CashierView.updateItem at 1.
  destruct (CashierView.itemHasBarcode barcode y) eqn:E.
  - apply itemHasBarcode_true in E. exfalso.
    exact (H y (or_introl eq_refl) E).
  - simpl. f_equal. apply IH. intros item Hin. apply H. now right.
Qed.

Lemma unique_line_split (barcode : string) (cart : list CartItem.t)
    (item : CartItem.t) :
  NoDup (map cartBarcode cart) -> In item cart ->
  cartBarcode item = barcode ->
  exists before after,
    cart = (before ++ item :: after)%list /\
    (forall x, In x before -> cartBarcode x <> barcode) /\
    (forall x, In x after -> cartBarcode x <> barcode).
Proof.
  intros Hnd Hin Hb. apply in_split in Hin.
  destruct Hin as (before & after & ->).
  exists before, after. split; [reflexivity|].
  rewrite map_app in Hnd. cbn [map] in Hnd.
  apply NoDup_remove_2 in Hnd. rewrite in_app_iff in Hnd.
  split; intros x Hx E; apply Hnd; [left|right];
    rewrite Hb, <- E; now apply in_map.
Qed.

(** [handleUpdateQuantity] on a cart of the component: without a line for
    the barcode the cart is unchanged; for the line of the barcode, a new
    quantity of 0 or less removes the line, a new quantity above the stock
    recorded on the line leaves the cart unchanged, and any other new
    quantity replaces the quantity; the other lines stay as they are. *)
Theorem updateQuantity_contract (barcode : string) (delta : Z)
    (cart : list CartItem.t) :
  CashierView.CartState cart ->
  let cart' := CashierView.handleUpdateQuantity barcode delta cart in
  ((forall item, In item cart -> cartBarcode item <> barcode) ->
   cart' = cart) /\
  (forall item,
     In item cart -> cartBarcode item = barcode ->
     let newQuantity := CartItem.quantity item + delta in
     exists before after,
       cart = (before ++ item :: after)%list /\
       (newQuantity <= 0 -> cart' = (before ++ after)%list) /\
       (0 < newQuantity ->
        newQuantity > Product.stock (CartItem.product item) ->
        cart' = cart) /\
       (0 < newQuantity ->
        newQuantity <= Product.stock (CartItem.product item) ->
        cart' = (before
                 ++ CartItem.mk (CartItem.product item) newQuantity
                 :: after)%list)).
Proof.
  intros Hcart. cbv zeta.
  pose proof (CartState_one_line_per_barcode cart Hcart) as Hnd.
  unfold CashierView.handleUpdateQuantity. split.
  - apply updateItem_other.
  - intros item Hin Hb.
    destruct (unique_line_split barcode cart item Hnd Hin Hb)
      as (before & after & -> & Hbefore & Hafter).
    exists before, after. split; [reflexivity|].
    assert (Hsplit : forall (l1 l2 : list (option CartItem.t)),
              CashierView.dropNull (l1 ++ l2)
              = (CashierView.dropNull l1 ++ CashierView.dropNull l2)%list).
    { induction l1 as [|[x|] l1 IHl]; intro l2; simpl; [reflexivity| |];
        now rewrite ?IHl. }
    assert (Hr : CashierView.dropNull
                   (map (CashierView.updateItem barcode delta)
                      (before ++ item :: after))
                 = (before
                    ++ match CashierView.updateItem barcode delta item with
                       | Some x => x :: after
                       | None => after
                       end)%list).
    { rewrite map_app. cbn [map]. rewrite Hsplit.
      cbn [CashierView.dropNull].
      rewrite (updateItem_other barcode delta before Hbefore).
      rewrite (updateItem_other barcode delta after Hafter).
      reflexivity. }
    rewrite Hr. unfold CashierView.updateItem.
    rewrite (proj2 (itemHasBarcode_true barcode item) Hb).
    destruct (Z.leb_spec (CartItem.quantity item + delta) 0) as [Hle|Hgt].
    + repeat split; intros; try lia; try reflexivity.
    + destruct (Z.gtb_spec (CartItem.quantity item + delta)
                  (Product.stock (CartItem.product item))) as [Hbig|Hfit];
        repeat split; intros; try lia; try reflexivity.
Qed.

Lemma updateQuantity_contract_witness :
  CashierView.CartState (scanned 3) /\
  CashierView.handleUpdateQuantity "123" (-3) (scanned 3) = [] /\
  CashierView.handleUpdateQuantity "123" 3 (scanned 3) = scanned 3 /\
  CashierView.handleUpdateQuantity "123" 2 (scanned 3)
    = [CartItem.mk product123 5].
Proof.
  pose proof (scanned_CartState 3) as Hcart.
  split; [exact Hcart|].
  destruct (proj2 (updateQuantity_contract "123" (-3) (scanned 3) Hcart)
              (CartItem.mk product123 3) (or_introl eq_refl) eq_refl)
    as (b1 & a1 & E1 & Hdrop & _).
  destruct (proj2 (updateQuantity_contract "123" 3 (scanned 3) Hcart)
              (CartItem.mk product123 3) (or_introl eq_refl) eq_refl)
    as (b2 & a2 & E2 & _ & Hkeep & _).
  destruct (proj2 (updateQuantity_contract "123" 2 (scanned 3) Hcart)
              (CartItem.mk product123 3) (or_introl eq_refl) eq_refl)
    as (b3 & a3 & E3 & _ & _ & Hset).
  assert (Hshape : forall b a,
            scanned 3 = (b ++ CartItem.mk product123 3 :: a)%list ->
            b = [] /\ a = []).
  { intros b a E. change (scanned 3) with [CartItem.mk product123 3] in E.
    destruct b as [|x b]; cbn in E.
    - inversion E. now split.
    - inversion E as [[Hx Hrest]]. destruct b; discriminate. }
  destruct (Hshape _ _ E1) as (-> & ->).
  destruct (Hshape _ _ E3) as (-> & ->).
  split; [|split].
  - apply Hdrop. cbn. lia.
  - apply Hkeep; cbn; lia.
  - apply Hset; cbn; lia.
Defined.

(** [handleRemove] on a cart of the component takes out the line of the
    barcode and leaves the other lines in their order; without such a line
    the cart is unchanged. *)
Theorem remove_contract (barcode : string) (cart : list CartItem.t) :
  CashierView.CartState cart ->
  ((forall item, In item cart -> cartBarcode item <> barcode) ->
   CashierView.handleRemove barcode cart = cart) /\
  (forall item,
     In item cart -> cartBarcode item = barcode ->
     exists before after,
       cart = (before ++ item :: after)%list /\
       CashierView.handleRemove barcode cart = (before ++ after)%list) /\
  (forall item,
     In item (CashierView.handleRemove barcode cart) ->
     cartBarcode item <> barcode).
Proof.
  intro Hcart.
  pose proof (CartState_one_line_per_barcode cart Hcart) as Hnd.
  unfold CashierView.handleRemove.
  assert (Hkeep : forall l,
            (forall item, In item l -> cartBarcode item <> barcode) ->
            filter (fun item => negb (CashierView.itemHasBarcode barcode item))
              l = l).
  { intros l H. apply filter_all_iff. intros x Hx. apply negb_true_iff.
    destruct (CashierView.itemHasBarcode barcode x) eqn:E; [|reflexivity].
    apply itemHasBarcode_true in E. exfalso. exact (H x Hx E). }
  split; [apply Hkeep|]. split.
  - intros item Hin Hb.
    destruct (unique_line_split barcode cart item Hnd Hin Hb)
      as (before & after & -> & Hbefore & Hafter).
    exists before, after. split; [reflexivity|].
    rewrite filter_app. cbn [filter].
    rewrite (proj2 (itemHasBarcode_true barcode item) Hb). cbn [negb].
    now rewrite (Hkeep before Hbefore), (Hkeep after Hafter).
  - intros item Hin E. apply filter_In in Hin. destruct Hin as (_ & Hin).
    apply (proj2 (itemHasBarcode_true barcode item)) in E.
    rewrite E in Hin. discriminate.
Qed.

Lemma remove_contract_witness :
  CashierView.CartState (scanned 3) /\
  CashierView.handleRemove "456" (scanned 3) = scanned 3.
Proof.
  pose proof (scanned_CartState 3) as Hcart.
  split; [exact Hcart|].
  apply (proj1 (remove_contract "456" (scanned 3) Hcart)).
  intros item [<-|[]]. cbn. discriminate.
Defined.

(* ------------------------------------------------------------------ *)
(** ** From the cart to the sale *)

Lemma fold_left_map_fuse {A B C : Type} (f : A -> C -> A) (g : B -> C)
    (l : list B) :
  forall a, fold_left f (map g l) a = fold_left (fun a x => f a (g x)) l a.
Proof. induction l as [|x l IH]; intro a; simpl; [reflexivity|apply IH]. Qed.

Lemma cartTotal_is_subtotal (cart : list CartItem.t) :
  SaleService.sumTotals (CashierView.toSaleItems cart)
  = CashierView.cartTotal cart.
Proof.
  unfold SaleService.sumTotals, CashierView.toSaleItems,
    CashierView.cartTotal.
  now rewrite fold_left_map_fuse.
Qed.

Lemma toSaleItems_barcodes (cart : list CartItem.t) :
  map SaleItem.barcode (CashierView.toSaleItems cart) = map cartBarcode cart.
Proof.
  unfold CashierView.toSaleItems. rewrite map_map. reflexivity.
Qed.

(** The total shown to the cashier is the total the sale charges: a
    checkout that succeeds empties the cart and records a sale of the cart
    lines whose total equals [cartTotal] and whose change is the amount paid
    minus [cartTotal]; a checkout that fails keeps the cart and the
    storage; and a payment below [cartTotal] always fails. *)
Theorem displayed_total_is_charged (env : Env.t)
    (paymentMethod : PaymentMethod) (amountPaid : Q)
    (cashierName storeId storeName : string) (st : Storage.t)
    (cart : list CartItem.t) :
  let r := CashierView.handlePaymentComplete env paymentMethod amountPaid
             cashierName storeId storeName st cart in
  let result := fst (fst r) in
  (SaleResult.success result = true ->
     snd (fst r) = [] /\
     exists sale,
       SaleResult.sale result = Some sale /\
       SaleRecord.items sale = CashierView.toSaleItems cart /\
       (SaleRecord.total sale == CashierView.cartTotal cart)%Q /\
       (SaleRecord.change sale
        == amountPaid - CashierView.cartTotal cart)%Q /\
       Storage.pos_sales (snd r) = sale :: Storage.pos_sales st) /\
  (SaleResult.success result = false ->
     snd (fst r) = cart /\ snd r = st) /\
  ((amountPaid < CashierView.cartTotal cart)%Q ->
     SaleResult.success result = false).
Proof.
  unfold CashierView.handlePaymentComplete. cbv zeta.
  destruct (processSale_cases env (CashierView.toSaleItems cart)
              paymentMethod amountPaid cashierName storeId storeName st)
    as [(Hfail & Hnone & Hst & _)|(_ & Hpay & _ & Hr & Hst)].
  - rewrite Hfail. cbn [fst snd]. rewrite Hfail. split; [discriminate|].
    split; [intros _; now split|]. intros _. reflexivity.
  - rewrite Hr, Hst.
    cbn [SaleResult.success SaleResult.sale fst snd].
    unfold saleRecordOf in *. cbn [SaleRecord.total] in Hpay.
    rewrite cartTotal_is_subtotal in *.
    split; [|split; [discriminate|]].
    + intros _. split; [reflexivity|]. eexists. split; [reflexivity|].
      cbn [SaleRecord.items SaleRecord.total SaleRecord.change
           Storage.setSales Storage.pos_sales].
      unfold SaleService.taxRate. repeat split; ring.
    + intro Hlow. exfalso. unfold SaleService.taxRate in Hpay. lra.
Qed.

Lemma displayed_total_is_charged_witness :
  let r := CashierView.handlePaymentComplete env0 cash 20%Q "alice"
             "store-001" "Main Store" storageStock5 (scanned 3) in
  (20 < CashierView.cartTotal (scanned 3))%Q /\
  SaleResult.success (fst (fst r)) = false /\
  snd (fst r) = scanned 3 /\ snd r = storageStock5.
Proof.
  cbv zeta.
  assert (H : (20 < CashierView.cartTotal (scanned 3))%Q)
    by (vm_compute; reflexivity).
  destruct (displayed_total_is_charged env0 cash 20%Q "alice" "store-001"
              "Main Store" storageStock5 (scanned 3)) as (_ & Hkeep & Hlow).
  split; [exact H|]. split; [exact (Hlow H)|]. exact (Hkeep (Hlow H)).
Defined.

Lemma CartStateAt_CartState (st : Storage.t) (cart : list CartItem.t) :
  CashierView.CartStateAt st cart -> CashierView.CartState cart.
Proof.
  induction 1; [constructor| | |]; now constructor.
Qed.

(** While the storage stays the same, every line of the cart carries the
    product its barcode designates in the storage, in a quantity between 1
    and the stock of that product. *)
Lemma CartStateAt_lines (st : Storage.t) (cart : list CartItem.t) :
  stocksNonNegative st ->
  CashierView.CartStateAt st cart ->
  Forall (fun item =>
            ProductService.findByBarcode (cartBarcode item) st
              = Some (CartItem.product item) /\
            1 <= CartItem.quantity item
              <= Product.stock (CartItem.product item))
    cart.
Proof.
  intros Hnn Hcart.
  induction Hcart as [|barcode cart Hcart IH|barcode delta cart Hcart IH
                     |barcode cart Hcart IH].
  - constructor.
  - pose proof (CartState_one_line_per_barcode cart
                  (CartStateAt_CartState st cart Hcart)) as Hnd.
    unfold CashierView.handleScan.
    destruct (ProductService.findByBarcode barcode st) as [product|] eqn:Hp;
      [|exact IH].
    destruct (find _ cart) as [existingItem|] eqn:Hf.
    + destruct (Z.geb_spec (CartItem.quantity existingItem)
                  (Product.stock product)) as [Hfull|Hroom]; cbn [snd];
        [exact IH|].
      apply Forall_map. apply Forall_forall. intros item Hin.
      rewrite Forall_forall in IH. destruct (IH item Hin) as (Hprod & Hq).
      destruct (CashierView.itemHasBarcode barcode item) eqn:E;
        [|now split].
      apply itemHasBarcode_true in E.
      rewrite (find_unique_line barcode cart item Hnd Hin E) in Hf.
      inversion Hf; subst existingItem.
      unfold cartBarcode at 1. cbn [CartItem.product CartItem.quantity].
      fold (cartBarcode item). split; [exact Hprod|].
      rewrite E, Hp in Hprod. inversion Hprod; subst product. lia.
    + destruct (Z.eqb_spec (Product.stock product) 0) as [Hz|Hnz];
        cbn [snd]; [exact IH|].
      apply Forall_app. split; [exact IH|]. constructor; [|constructor].
      unfold cartBarcode. cbn [CartItem.product CartItem.quantity].
      pose proof Hp as Hp'.
      unfold ProductService.findByBarcode in Hp'. apply find_some in Hp'.
      destruct Hp' as (_ & Hb). apply hasBarcode_true in Hb.
      rewrite Hb. split; [exact Hp|].
      assert (0 <= Product.stock product).
      { apply (Hnn barcode). unfold stockOf.
        unfold ProductService.findByBarcode, ProductService.getAll in Hp.
        now rewrite Hp. }
      lia.
  - unfold CashierView.handleUpdateQuantity. apply dropNull_Forall.
    apply Forall_map. revert IH. apply Forall_impl. intros item (Hprod & Hq).
    unfold CashierView.updateItem.
    destruct (CashierView.itemHasBarcode barcode item); [|now split].
    destruct (Z.leb_spec (CartItem.quantity item + delta) 0); [exact I|].
    destruct (Z.gtb_spec (CartItem.quantity item + delta)
                (Product.stock (CartItem.product item)));
      [now split|].
    unfold cartBarcode. cbn [CartItem.product CartItem.quantity].
    split; [exact Hprod|lia].
  - unfold CashierView.handleRemove. apply Forall_forall.
    intros item Hin. apply filter_In in Hin.
    rewrite Forall_forall in IH. now apply IH.
Qed.

Lemma unitsSold_of_line (cart : list CartItem.t) (item : CartItem.t) :
  NoDup (map cartBarcode cart) -> In item cart ->
  unitsSold (cartBarcode item) (CashierView.toSaleItems cart)
  = CartItem.quantity item.
Proof.
  induction cart as [|y cart IH]; simpl; intros Hnd Hin; [contradiction|].
  inversion Hnd as [|? ? Hnotin Hnd']; subst.
  fold (cartBarcode y). fold (CashierView.toSaleItems cart).
  destruct Hin as [->|Hin].
  - rewrite String.eqb_refl. rewrite unitsSold_absent; [lia|].
    now rewrite toSaleItems_barcodes.
  - destruct (String.eqb_spec (cartBarcode y) (cartBarcode item)) as [E|E].
    + exfalso. apply Hnotin. rewrite E. now apply in_map.
    + rewrite (IH Hnd' Hin). lia.
Qed.

(** A cart built by the handlers against a storage that did not change in
    the meantime, and whose stocks are not negative, always checks out when
    it is not empty and the payment covers the displayed total: the sale is
    recorded, the cart is emptied, the stock of every product of the cart
    goes down by the quantity of its line, the other stocks stay, and no
    stock becomes negative. *)
Theorem built_cart_checks_out (env : Env.t) (paymentMethod : PaymentMethod)
    (amountPaid : Q) (cashierName storeId storeName : string)
    (st : Storage.t) (cart : list CartItem.t) :
  stocksNonNegative st ->
  CashierView.CartStateAt st cart ->
  cart <> [] ->
  (CashierView.cartTotal cart <= amountPaid)%Q ->
  let r := CashierView.handlePaymentComplete env paymentMethod amountPaid
             cashierName storeId storeName st cart in
  SaleResult.success (fst (fst r)) = true /\
  snd (fst r) = [] /\
  (forall item, In item cart ->
     stockOf (cartBarcode item) (Storage.pos_products (snd r))
     = Some (Product.stock (CartItem.product item) - CartItem.quantity item))
  /\
  (forall b, ~ In b (map cartBarcode cart) ->
     stockOf b (Storage.pos_products (snd r))
     = stockOf b (Storage.pos_products st)) /\
  stocksNonNegative (snd r).
Proof.
  intros Hnn Hcart Hne Hpaid. cbv zeta.
  pose proof (CartStateAt_lines st cart Hnn Hcart) as Hlines.
  pose proof (CartState_one_line_per_barcode cart
                (CartStateAt_CartState st cart Hcart)) as Hnd.
  assert (Hchk : SaleService.checkStock (Storage.pos_products st)
                   (CashierView.toSaleItems cart) = None).
  { apply checkStock_None. unfold CashierView.toSaleItems.
    apply Forall_map. revert Hlines. apply Forall_impl.
    intros item (Hprod & Hq). exists (CartItem.product item).
    cbn [SaleItem.barcode SaleItem.quantity]. split; [exact Hprod|lia]. }
  unfold CashierView.handlePaymentComplete. cbv zeta.
  destruct (processSale_cases env (CashierView.toSaleItems cart)
              paymentMethod amountPaid cashierName storeId storeName st)
    as [(_ & _ & _ & [Hempty|[Hlow|Hbad]])|(_ & _ & _ & Hr & Hst)].
  - exfalso. destruct cart; [congruence|discriminate].
  - exfalso. unfold saleRecordOf in Hlow. cbn [SaleRecord.total] in Hlow.
    rewrite cartTotal_is_subtotal in Hlow.
    unfold SaleService.taxRate in Hlow. lra.
  - contradiction.
  - rewrite Hr, Hst. cbn [SaleResult.success SaleResult.sale fst snd].
    cbn [Storage.setSales Storage.setProducts Storage.pos_products].
    split; [reflexivity|]. split; [reflexivity|].
    split; [|split].
    + intros item Hin. rewrite deductStock_stock.
      rewrite (unitsSold_of_line cart item Hnd Hin).
      rewrite Forall_forall in Hlines. destruct (Hlines item Hin) as (Hp & _).
      unfold stockOf.
      unfold ProductService.findByBarcode, ProductService.getAll in Hp.
      now rewrite Hp.
    + intros b Hb. rewrite deductStock_stock.
      rewrite unitsSold_absent by (now rewrite toSaleItems_barcodes).
      destruct (stockOf b (Storage.pos_products st)); cbn; [f_equal; lia|].
      reflexivity.
    + intros b s Hs. cbn [Storage.setSales Storage.setProducts
                            Storage.pos_products] in Hs.
      rewrite deductStock_stock in Hs.
      destruct (stockOf b (Storage.pos_products st)) as [s0|] eqn:Hs0;
        [|discriminate].
      cbn in Hs. inversion Hs; subst s.
      pose proof (Hnn b s0 Hs0) as Hpos.
      assert (Hnd' : NoDup (map SaleItem.barcode
                              (CashierView.toSaleItems cart)))
        by (now rewrite toSaleItems_barcodes).
      pose proof (unitsSold_le_stock b _ _ s0 Hnd' Hchk Hs0 Hpos). lia.
Qed.

Lemma scannedAt_CartStateAt (n : nat) :
  CashierView.CartStateAt storageStock5 (scanned n).
Proof.
  induction n as [|n IH]; [apply CashierView.cart_at_initial|].
  exact (CashierView.cart_at_scan storageStock5 "123" (scanned n) IH).
Defined.

Lemma built_cart_checks_out_witness :
  let r := CashierView.handlePaymentComplete env0 cash 50%Q "alice"
             "store-001" "Main Store" storageStock5 (scanned 5) in
  SaleResult.success (fst (fst r)) = true /\
  snd (fst r) = [] /\
  stockOf "123" (Storage.pos_products (snd r)) = Some 0.
Proof.
  cbv zeta.
  assert (Hnn : stocksNonNegative storageStock5).
  { intros b s. unfold stockOf, storageStock5, storage123.
    cbn [Storage.pos_products find]. unfold ProductService.hasBarcode.
    destruct (String.eqb (Product.barcode product123) b); cbn;
      intro H; inversion H. lia. }
  assert (Hne : scanned 5 <> []) by discriminate.
  assert (Hpaid : (CashierView.cartTotal (scanned 5) <= 50)%Q)
    by (vm_compute; discriminate).
  destruct (built_cart_checks_out env0 cash 50%Q "alice" "store-001"
              "Main Store" storageStock5 (scanned 5) Hnn
              (scannedAt_CartStateAt 5) Hne Hpaid)
    as (Hok & Hcart & Hstock & _).
  split; [exact Hok|]. split; [exact Hcart|].
  exact (Hstock (CartItem.mk product123 5) (or_introl eq_refl)).
Defined.

(* ------------------------------------------------------------------ *)
(** ** Sorting with a comparator that orders the elements *)

Section SortOrdered.
Context {A : Type}.
Variable comparefn : A -> A -> Num.t.
Variable R : A -> A -> Prop.
Hypothesis R_trans : forall x y z, R x y -> R y z -> R x z.

Lemma insert_ordered (x : A) (l : list A) :
  (forall y, In y l ->
     (JsArray.after comparefn x y = true -> R y x) /\
     (JsArray.after comparefn x y = false -> R x y)) ->
  StronglySorted R l ->
  StronglySorted R (JsArray.insert comparefn x l).
Proof.
  intros Hcmp Hs. induction l as [|y l IH]; simpl.
  - constructor; constructor.
  - inversion Hs as [|? ? Hs' Hall]; subst.
    destruct (Hcmp y (or_introl eq_refl)) as (Htrue & Hfalse).
    destruct (JsArray.after comparefn x y) eqn:E.
    + constructor.
      * apply IH; [|exact Hs']. intros z Hz. apply Hcmp. now right.
      * apply Forall_forall. intros z Hz.
        apply (Permutation_in _ (insert_perm comparefn x l)) in Hz.
        destruct Hz as [<-|Hz]; [now apply Htrue|].
        rewrite Forall_forall in Hall. now apply Hall.
    + constructor; [exact Hs|]. constructor; [now apply Hfalse|].
      apply Forall_forall. intros z Hz. rewrite Forall_forall in Hall.
      exact (R_trans x y z (Hfalse eq_refl) (Hall z Hz)).
Qed.

(** When the comparator decides an order [R] on the elements of the array,
    the sorted array is ordered by [R]. *)
Lemma sort_ordered (l : list A) :
  (forall x y, In x l -> In y l ->
     (JsArray.after comparefn x y = true -> R y x) /\
     (JsArray.after comparefn x y = false -> R x y)) ->
  StronglySorted R (JsArray.sort comparefn l).
Proof.
  induction l as [|x l IH]; simpl; intro Hcmp; [constructor|].
  apply insert_ordered.
  - intros y Hy. apply (Permutation_in _ (sort_perm comparefn l)) in Hy.
    apply Hcmp; [now left|now right].
  - apply IH. intros a b Ha Hb. apply Hcmp; now right.
Qed.

End SortOrdered.

Lemma after_Fin (q : Q) :
  Num.ltb (Num.Fin 0) (Num.Fin q) = true <-> (0 < q)%Q.
Proof. cbn. apply Qltb_true. Qed.

Lemma after_Fin_false (q : Q) :
  Num.ltb (Num.Fin 0) (Num.Fin q) = false <-> (q <= 0)%Q.
Proof. cbn. apply Qltb_false. Qed.

Lemma inject_Z_pos (z : Z) : (0 < inject_Z z)%Q <-> 0 < z.
Proof. unfold Qlt, inject_Z. cbn. lia. Qed.

Lemma inject_Z_nonpos (z : Z) : (inject_Z z <= 0)%Q <-> z <= 0.
Proof. unfold Qle, inject_Z. cbn. lia. Qed.

(* ------------------------------------------------------------------ *)
(** ** Sorting the product list *)

(** [ProductService.sort] returns a rearrangement of its argument; sorted
    by price or by stock, the result is in ascending order for ['asc'] and
    in descending order for ['desc']. *)
Theorem product_sort_orders (localeCompare : string -> string -> Z)
    (products : list Product.t) (field : SortField) (order : SortOrder) :
  let sorted := ProductServiceSort.sort localeCompare products field order in
  Permutation sorted products /\
  (field = field_price -> order = asc ->
   StronglySorted (fun a b => (Product.price a <= Product.price b)%Q) sorted)
  /\
  (field = field_price -> order = desc ->
   StronglySorted (fun a b => (Product.price b <= Product.price a)%Q) sorted)
  /\
  (field = field_stock -> order = asc ->
   StronglySorted (fun a b => Product.stock a <= Product.stock b) sorted) /\
  (field = field_stock -> order = desc ->
   StronglySorted (fun a b => Product.stock b <= Product.stock a) sorted).
Proof.
  unfold ProductServiceSort.sort. cbv zeta.
  split; [apply sort_perm|].
  split; [|split; [|split]]; intros -> ->; apply sort_ordered;
    try (intros x y z H1 H2; lra); try (intros x y z H1 H2; lia);
    intros x y _ _; unfold JsArray.after, ProductServiceSort.comparator,
      ProductServiceSort.comparison, Num.neg;
    rewrite after_Fin, after_Fin_false.
  - split; intro H; lra.
  - split; intro H; lra.
  - rewrite inject_Z_pos, inject_Z_nonpos. lia.
  - rewrite <- inject_Z_opp, inject_Z_pos, inject_Z_nonpos. lia.
Qed.

Lemma product_sort_orders_witness :
  StronglySorted (fun a b => Product.stock b <= Product.stock a)
    (ProductServiceSort.sort (fun _ _ => 0)
       (Storage.pos_products storageTwo) field_stock desc).
Proof.
  exact (proj2 (proj2 (proj2 (proj2
           (product_sort_orders (fun _ _ => 0)
              (Storage.pos_products storageTwo) field_stock desc))))
           eq_refl eq_refl).
Defined.

(* ------------------------------------------------------------------ *)
(** ** The window of the dashboard *)

(** [filteredSales] holds exactly the sales of the ledger whose date is
    valid and not before the cutoff, which lies [daysMap] days before now,
    and lists them newest first. *)
Theorem filteredSales_window (timeValue : string -> option Z) (now : Z)
    (dateRange : DateRange) (sales : list SaleRecord.t) :
  let window := AnalyticsDashboard.filteredSales timeValue now dateRange sales
  in
  let cutoff := now - AnalyticsDashboard.daysMap dateRange * 86400000 in
  (forall sale,
     In sale window <->
     In sale sales /\
     exists t, timeValue (SaleRecord.timestamp sale) = Some t /\ cutoff <= t)
  /\
  (List.length window <= List.length sales)%nat /\
  StronglySorted (notOlder timeValue) window.
Proof.
  unfold AnalyticsDashboard.filteredSales. cbv zeta.
  set (keep := fun sale : SaleRecord.t =>
                 match timeValue (SaleRecord.timestamp sale) with
                 | Some t =>
                     t >=? now - AnalyticsDashboard.daysMap dateRange
                                 * 24 * 60 * 60 * 1000
                 | None => false
                 end).
  assert (Hkeep : forall sale,
            keep sale = true <->
            exists t, timeValue (SaleRecord.timestamp sale) = Some t /\
                      now - AnalyticsDashboard.daysMap dateRange * 86400000
                      <= t).
  { intro sale. unfold keep.
    destruct (timeValue (SaleRecord.timestamp sale)) as [t|].
    - rewrite Z.geb_le. split.
      + intro H. exists t. split; [reflexivity|lia].
      + intros (t' & E & H). inversion E; subst. lia.
    - split; [discriminate|]. intros (t' & E & _). discriminate. }
  split; [|split].
  - intro sale. rewrite <- Hkeep, <- filter_In.
    split; apply Permutation_in;
      [apply sort_perm|apply Permutation_sym, sort_perm].
  - rewrite (Permutation_length
               (sort_perm (AnalyticsDashboard.newestFirst timeValue)
                  (filter keep sales))).
    apply filter_length_le.
  - apply sort_ordered.
    + intros x y z (tx & ty & Ex & Ey & H1) (ty' & tz & Ey' & Ez & H2).
      exists tx, tz. rewrite Ey in Ey'. inversion Ey'; subst.
      repeat split; trivial. lia.
    + intros x y Hx Hy. apply filter_In in Hx, Hy.
      destruct Hx as (_ & Hx), Hy as (_ & Hy).
      apply Hkeep in Hx, Hy.
      destruct Hx as (tx & Ex & _), Hy as (ty & Ey & _).
      unfold JsArray.after, AnalyticsDashboard.newestFirst,
        AnalyticsDashboard.timeNumber. rewrite Ex, Ey. cbn [Num.sub].
      rewrite after_Fin, after_Fin_false.
      unfold Qminus. rewrite <- inject_Z_opp, <- inject_Z_plus.
      rewrite inject_Z_pos, inject_Z_nonpos.
      split; intro H; [exists ty, tx|exists tx, ty];
        repeat split; trivial; lia.
Qed.

(* ------------------------------------------------------------------ *)
(** ** The summary of the dashboard *)

Lemma itemCount_fold (sales : list SaleRecord.t) :
  forall a,
    fold_left
      (fun sum sale =>
         sum + fold_left (fun itemSum item => itemSum + SaleItem.quantity item)
                 (SaleRecord.items sale) 0)
      sales a
    = a + sumZ (map SaleItem.quantity (allItems sales)).
Proof.
  assert (Hitems : forall (items : list SaleItem.t) b,
            fold_left (fun itemSum item => itemSum + SaleItem.quantity item)
              items b
            = b + sumZ (map SaleItem.quantity items)).
  { induction items as [|item items IH]; intro b;
      cbn [fold_left map sumZ fold_right]; [lia|].
    rewrite IH. unfold sumZ. lia. }
  assert (Happ : forall l1 l2, sumZ (l1 ++ l2) = sumZ l1 + sumZ l2).
  { induction l1 as [|x l1 IH]; intro l2; unfold sumZ in *;
      cbn [app fold_right]; [lia|]. rewrite IH. lia. }
  induction sales as [|sale sales IH]; intro a;
    cbn [fold_left allItems flat_map map]; [cbn; lia|].
  rewrite IH, Hitems. unfold allItems. rewrite map_app, Happ. lia.
Qed.

(** The counts of the summary of a window.  Without sales every figure is
    0 and the peak hour is N/A.  Otherwise the number of orders is the
    number of sales, the number of items is the sum of the quantities of
    all lines of all sales, and the number of unique customers is the
    number of distinct cashier names among the sales, which lies between 1
    and the number of sales. *)
Theorem analytics_counts (getHours : string -> Z)
    (sales : list SaleRecord.t) :
  AnalyticsDashboard.analytics getHours []
    = Analytics.mk 0 0 0 0 0 "N/A" 0 /\
  (sales <> [] ->
   let a := AnalyticsDashboard.analytics getHours sales in
   let n := List.length sales in
   Analytics.totalOrders a = Z.of_nat n /\
   Analytics.totalItems a = sumZ (map SaleItem.quantity (allItems sales)) /\
   (exists cashiers,
      NoDup cashiers /\
      (forall c, In c cashiers <->
                 exists sale, In sale sales /\ SaleRecord.cashierName sale = c)
      /\
      Analytics.uniqueCustomers a = Z.of_nat (List.length cashiers)) /\
   1 <= Analytics.uniqueCustomers a <= Z.of_nat n).
Proof.
  split; [reflexivity|]. intro Hne. cbv zeta.
  unfold AnalyticsDashboard.analytics.
  destruct sales as [|s0 rest] eqn:Hsales; [congruence|].
  rewrite <- Hsales in *. cbv zeta.
  assert (Hlen : (List.length sales =? 0)%nat = false).
  { rewrite Hsales. reflexivity. }
  rewrite Hlen.
  cbn [Analytics.totalOrders Analytics.totalItems Analytics.uniqueCustomers].
  split; [reflexivity|]. split.
  { rewrite itemCount_fold. lia. }
  set (names := map SaleRecord.cashierName sales).
  split.
  { exists (nodup string_dec names). split; [apply NoDup_nodup|].
    split; [|reflexivity].
    intro c. rewrite nodup_In. unfold names. rewrite in_map_iff.
    split; intros (sale & H1 & H2); exists sale; tauto. }
  assert (Hle : (List.length (nodup string_dec names)
                 <= List.length names)%nat).
  { apply NoDup_incl_length; [apply NoDup_nodup|].
    intros x Hx. now apply nodup_In in Hx. }
  assert (Hge : (1 <= List.length (nodup string_dec names))%nat).
  { assert (In (SaleRecord.cashierName s0) (nodup string_dec names)).
    { apply nodup_In. unfold names. rewrite Hsales. now left. }
    destruct (nodup string_dec names); [contradiction|cbn; lia]. }
  unfold names in *. rewrite length_map in Hle. lia.
Qed.

Lemma analytics_counts_witness :
  let a := AnalyticsDashboard.analytics (fun _ => 9) sixSales in
  sixSales <> [] /\
  Analytics.totalOrders a = 1 /\
  Analytics.totalItems a = 6 /\
  1 <= Analytics.uniqueCustomers a <= 1.
Proof.
  cbv zeta.
  assert (Hne : sixSales <> []) by discriminate.
  destruct (proj2 (analytics_counts (fun _ => 9) sixSales) Hne)
    as (Hn & Hitems & _ & Hunique).
  split; [exact Hne|]. split; [exact Hn|]. split; [exact Hitems|].
  exact Hunique.
Defined.

(* ------------------------------------------------------------------ *)
(** ** The peak hour *)

Section PeakHourFacts.
Variable getHours : string -> Z.

Lemma salesInHour_app (key : string) (l1 l2 : list SaleRecord.t) :
  salesInHour getHours key (l1 ++ l2)
  = salesInHour getHours key l1 + salesInHour getHours key l2.
Proof. induction l1 as [|s l1 IH]; cbn [app salesInHour]; lia. Qed.

Lemma salesInHour_absent (key : string) (sales : list SaleRecord.t) :
  ~ In key (map (hourKey getHours) sales) ->
  salesInHour getHours key sales = 0.
Proof.
  induction sales as [|s sales IH]; cbn [map salesInHour]; intro H;
    [reflexivity|].
  destruct (String.eqb_spec (hourKey getHours s) key) as [E|E].
  - exfalso. apply H. now left.
  - rewrite IH; [reflexivity|]. intro Hin. apply H. now right.
Qed.

(** What the object of hour counts holds: one property per hour of the
    window, with the number of sales of that hour. *)
Lemma hourCounts_fold (sales : list SaleRecord.t) :
  let o := fold_left (AnalyticsDashboard.countHour getHours) sales [] in
  NoDup (map fst o) /\
  (forall k, In k (map fst o) <-> In k (map (hourKey getHours) sales)) /\
  (forall k v, JsObject.get k o = Some v -> v = salesInHour getHours k sales).
Proof.
  induction sales as [|s sales IH] using rev_ind.
  - cbn. repeat split; try tauto; try constructor. discriminate.
  - rewrite fold_left_app. cbn [fold_left].
    set (o := fold_left (AnalyticsDashboard.countHour getHours) sales [])
      in *.
    cbv zeta in IH. destruct IH as (Hnd & Hkeys & Hvals).
    unfold AnalyticsDashboard.countHour. fold (hourKey getHours s).
    cbv zeta. split; [|split].
    + now apply set_keys_NoDup.
    + intro k. rewrite set_keys_In, map_app, in_app_iff, Hkeys. cbn.
      intuition congruence.
    + intros k v Hget. rewrite salesInHour_app. cbn [salesInHour].
      destruct (String.eqb_spec (hourKey getHours s) k) as [E|E].
      * subst k. rewrite get_set_same in Hget. inversion Hget; subst v.
        destruct (JsObject.get (hourKey getHours s) o) as [v0|] eqn:Hv0.
        -- rewrite (Hvals _ _ Hv0). lia.
        -- apply get_None_keys in Hv0. rewrite Hkeys in Hv0.
           rewrite (salesInHour_absent _ _ Hv0). lia.
      * rewrite get_set_other in Hget by congruence.
        rewrite (Hvals _ _ Hget). lia.
Qed.

(** The peak hour shown for a window with sales is the hour of one of its
    sales, and no hour of the window has more sales than it. *)
Theorem peak_hour_is_busiest (sales : list SaleRecord.t) :
  sales <> [] ->
  exists sale,
    In sale sales /\
    Analytics.peakHour (AnalyticsDashboard.analytics getHours sales)
      = hourKey getHours sale ++ ":00" /\
    forall other,
      In other sales ->
      salesInHour getHours (hourKey getHours other) sales
      <= salesInHour getHours (hourKey getHours sale) sales.
Proof.
  intro Hne. unfold AnalyticsDashboard.analytics.
  destruct sales as [|s0 rest] eqn:Hsales; [congruence|].
  rewrite <- Hsales in *.
  assert (Hlen : (List.length sales =? 0)%nat = false)
    by (rewrite Hsales; reflexivity).
  rewrite Hlen. cbv zeta. cbn [Analytics.peakHour].
  destruct (hourCounts_fold sales) as (Hnd & Hkeys & Hvals).
  set (o := fold_left (AnalyticsDashboard.countHour getHours) sales []) in *.
  set (sorted := JsArray.sort AnalyticsDashboard.byCountDesc
                   (JsObject.ownEntries o)).
  assert (Hsorted : StronglySorted (fun a b : string * Z => snd b <= snd a)
                      sorted).
  { apply sort_ordered.
    - intros x y z H1 H2. lia.
    - intros x y _ _. unfold JsArray.after, AnalyticsDashboard.byCountDesc.
      rewrite after_Fin, after_Fin_false, inject_Z_pos, inject_Z_nonpos.
      lia. }
  assert (Hmem : forall e, In e sorted <->
                           JsObject.get (fst e) o = Some (snd e)).
  { intros [k v]. cbn [fst snd]. rewrite <- (ownEntries_get o k v Hnd).
    split; apply Permutation_in;
      [apply sort_perm|apply Permutation_sym, sort_perm]. }
  assert (Hall : forall other, In other sales ->
            In (hourKey getHours other,
                salesInHour getHours (hourKey getHours other) sales) sorted).
  { intros other Hin. apply Hmem. cbn [fst snd].
    assert (Hk : In (hourKey getHours other) (map fst o))
      by (apply Hkeys; now apply in_map).
    destruct (JsObject.get (hourKey getHours other) o) as [v|] eqn:E.
    - now rewrite (Hvals _ _ E).
    - apply get_None_keys in E. contradiction. }
  destruct sorted as [|[k v] tail] eqn:Hs.
  - exfalso. apply (Hall s0). rewrite Hsales. now left.
  - assert (Hhead : In (k, v) ((k, v) :: tail)) by now left.
    apply Hmem in Hhead. cbn [fst snd] in Hhead.
    assert (Hk : In k (map (hourKey getHours) sales)).
    { apply Hkeys. apply get_Some_In in Hhead.
      apply in_map_iff. now exists (k, v). }
    apply in_map_iff in Hk. destruct Hk as (sale & Hsale & Hin).
    exists sale. split; [exact Hin|]. cbn [fst]. split; [now rewrite Hsale|].
    intros other Hother. rewrite Hsale, <- (Hvals _ _ Hhead).
    inversion Hsorted as [|? ? _ Htail]; subst.
    destruct (Hall other Hother) as [E|Htl].
    + pose proof (f_equal snd E) as E2. cbn [snd] in E2.
      rewrite <- E2. apply Z.le_refl.
    + rewrite Forall_forall in Htail. exact (Htail _ Htl).
Qed.

End PeakHourFacts.

Lemma peak_hour_is_busiest_witness :
  exists sale,
    In sale threeSales /\
    Analytics.peakHour (AnalyticsDashboard.analytics (fun _ => 9) threeSales)
      = "9:00" /\
    salesInHour (fun _ => 9) (hourKey (fun _ => 9) sale) threeSales = 3.
Proof.
  assert (Hne : threeSales <> []) by discriminate.
  destruct (peak_hour_is_busiest (fun _ => 9) threeSales Hne)
    as (sale & Hin & Hpeak & _).
  exists sale. split; [exact Hin|]. split.
  - rewrite Hpeak. reflexivity.
  - reflexivity.
Defined.

(* ------------------------------------------------------------------ *)
(** ** Top selling products *)

Lemma revenueOfBarcode_snoc (b : string) (items : list SaleItem.t)
    (item : SaleItem.t) :
  revenueOfBarcode b (items ++ [item])
  = if String.eqb (SaleItem.barcode item) b
    then (revenueOfBarcode b items + SaleItem.total item)%Q
    else revenueOfBarcode b items.
Proof. unfold revenueOfBarcode. now rewrite fold_left_app. Qed.

Lemma revenueOfBarcode_absent (b : string) (items : list SaleItem.t) :
  ~ In b (map SaleItem.barcode items) -> revenueOfBarcode b items = 0%Q.
Proof.
  unfold revenueOfBarcode. generalize 0%Q.
  induction items as [|item items IH]; intros q H; [reflexivity|].
  cbn [fold_left]. cbn [map] in H.
  destruct (String.eqb_spec (SaleItem.barcode item) b) as [E|E].
  - exfalso. apply H. now left.
  - apply IH. intro Hin. apply H. now right.
Qed.

(** The revenue of a barcode is the sum of the totals of its lines, added
    in the order of the window. *)
Lemma revenueOfBarcode_sum (b : string) (items : list SaleItem.t) :
  revenueOfBarcode b items
  = fold_left Qplus
      (map SaleItem.total
         (filter (fun item => String.eqb (SaleItem.barcode item) b) items))
      0%Q.
Proof.
  unfold revenueOfBarcode. generalize 0%Q.
  induction items as [|item items IH]; intro a; [reflexivity|].
  cbn [fold_left filter].
  destruct (String.eqb (SaleItem.barcode item) b); cbn [map fold_left];
    apply IH.
Qed.

(** What the object built by the loops of [topProducts] holds: one property
    per barcode sold in the window that is not an inherited name, with the
    first name seen, the units and the revenue of the barcode. *)
Lemma addStats_fold (items : list SaleItem.t) :
  let o := fold_left AnalyticsDashboard.addStats items [] in
  NoDup (map fst o) /\
  (forall b, In b (map fst o) <->
             In b (map SaleItem.barcode items) /\
             JsObject.inherited b = false) /\
  (forall b p,
     JsObject.get b o = Some p ->
     p = ProductStats.mk (firstName b items) (unitsSold b items)
           (revenueOfBarcode b items)).
Proof.
  induction items as [|item items IH] using rev_ind.
  - cbn. repeat split; try tauto; try constructor. discriminate.
  - rewrite fold_left_app. cbn [fold_left].
    set (o := fold_left AnalyticsDashboard.addStats items []) in *.
    cbv zeta in IH. destruct IH as (Hnd & Hkeys & Hvals).
    unfold AnalyticsDashboard.addStats, JsObject.lookup. cbv zeta.
    set (b0 := SaleItem.barcode item).
    assert (Hin : forall b p, JsObject.get b o = Some p ->
                    In b (map SaleItem.barcode items) /\
                    JsObject.inherited b = false).
    { intros b p Hget. apply Hkeys. apply get_Some_In in Hget.
      apply in_map_iff. now exists (b, p). }
    assert (Hother : forall b p,
              b0 <> b -> JsObject.get b o = Some p ->
              p = ProductStats.mk (firstName b (items ++ [item]))
                    (unitsSold b (items ++ [item]))
                    (revenueOfBarcode b (items ++ [item]))).
    { intros b p E Hget. rewrite (Hvals _ _ Hget).
      rewrite unitsSold_app, revenueOfBarcode_snoc. cbn [unitsSold].
      fold b0. destruct (String.eqb_spec b0 b); [contradiction|].
      rewrite firstName_app_found by exact (proj1 (Hin _ _ Hget)).
      f_equal. lia. }
    destruct (JsObject.get b0 o) as [p0|] eqn:Hget0.
    + rewrite Hget0. destruct (Hin _ _ Hget0) as (Hsold0 & Hown0).
      split; [|split].
      * now apply set_keys_NoDup.
      * intro b. rewrite set_keys_In, map_app, in_app_iff, Hkeys.
        cbn [map In]. fold b0. split.
        -- intros [H|H]; [subst b; tauto|tauto].
        -- intros ([H|[H|[]]] & Hown); [tauto|]. subst b. auto.
      * intros b p Hget.
        destruct (String.eqb_spec b0 b) as [E|E].
        -- subst b. rewrite get_set_same in Hget. inversion Hget; subst p.
           rewrite (Hvals _ _ Hget0). cbn [ProductStats.name
             ProductStats.quantity ProductStats.revenue].
           rewrite unitsSold_app, revenueOfBarcode_snoc. cbn [unitsSold].
           fold b0. rewrite String.eqb_refl.
           rewrite firstName_app_found by exact Hsold0.
           f_equal. lia.
        -- rewrite get_set_other in Hget by congruence.
           now apply Hother.
    + destruct (JsObject.inherited b0) eqn:Hinh.
      * rewrite Hget0. split; [exact Hnd|]. split.
        -- intro b. rewrite Hkeys, map_app, in_app_iff. cbn [map In].
           fold b0. split; [tauto|].
           intros ([H|[H|[]]] & Hown); [tauto|].
           rewrite <- H, Hinh in Hown. discriminate.
        -- intros b p Hget. apply Hother; [|exact Hget].
           intros <-. destruct (Hin _ _ Hget) as (_ & Hown).
           rewrite Hinh in Hown. discriminate.
      * rewrite get_set_same.
        assert (Hnew : ~ In b0 (map SaleItem.barcode items)).
        { intro H. apply get_None_keys in Hget0. apply Hget0.
          apply Hkeys. now split. }
        split; [|split].
        -- now apply set_keys_NoDup, set_keys_NoDup.
        -- intro b. rewrite !set_keys_In, map_app, in_app_iff, Hkeys.
           cbn [map In]. fold b0. split.
           ++ intros [H|[H|H]]; try (subst b; tauto). tauto.
           ++ intros ([H|[H|[]]] & Hown); [tauto|]. subst b. auto.
        -- intros b p Hget.
           destruct (String.eqb_spec b0 b) as [E|E].
           ++ subst b. rewrite get_set_same in Hget.
              inversion Hget; subst p.
              cbn [ProductStats.name ProductStats.quantity
                   ProductStats.revenue].
              rewrite unitsSold_app, revenueOfBarcode_snoc.
              cbn [unitsSold]. fold b0. rewrite String.eqb_refl.
              rewrite firstName_app_new by exact Hnew.
              rewrite (unitsSold_absent _ _ Hnew),
                      (revenueOfBarcode_absent _ _ Hnew).
              unfold firstName. cbn [find]. fold b0.
              rewrite String.eqb_refl. f_equal. lia.
           ++ rewrite !get_set_other in Hget by congruence.
              now apply Hother.
Qed.

(** The list of top products holds at most five entries, in descending
    order of revenue; each is the entry of a barcode sold in the window,
    with the first name seen for it, its units and its revenue, which is
    the sum of the totals of its lines added in the order of the window; a
    barcode sold in the window that is not the name of an inherited
    property is left out only when five listed entries have at least its
    revenue. *)
Theorem top_products_by_revenue (sales : list SaleRecord.t) :
  let top := AnalyticsDashboard.topProducts sales in
  (List.length top <= 5)%nat /\
  StronglySorted byRevenue top /\
  (forall e, In e top ->
     exists b, soldInWindow b sales /\ e = statsOf sales b) /\
  (forall b,
     soldInWindow b sales ->
     JsObject.inherited b = false ->
     In (statsOf sales b) top \/
     (List.length top = 5%nat /\
      forall e, In e top -> byRevenue e (statsOf sales b))) /\
  (forall b,
     ProductStats.quantity (statsOf sales b) = unitsSold b (allItems sales) /\
     ProductStats.revenue (statsOf sales b)
     = fold_left Qplus
         (map SaleItem.total
            (filter (fun item => String.eqb (SaleItem.barcode item) b)
               (allItems sales)))
         0%Q).
Proof.
  unfold AnalyticsDashboard.topProducts. cbv zeta.
  assert (Hflat :
    fold_left
      (fun productStats sale =>
         fold_left AnalyticsDashboard.addStats (SaleRecord.items sale)
           productStats) sales []
    = fold_left AnalyticsDashboard.addStats (allItems sales) []).
  { unfold allItems. generalize (@nil (string * ProductStats.t)).
    induction sales as [|sale sales IH]; intro o; cbn [fold_left flat_map];
      [reflexivity|]. now rewrite fold_left_app, IH. }
  rewrite Hflat.
  destruct (addStats_fold (allItems sales)) as (Hnd & Hkeys & Hvals).
  set (o := fold_left AnalyticsDashboard.addStats (allItems sales) []) in *.
  set (sorted := JsArray.sort AnalyticsDashboard.byRevenueDesc
                   (JsObject.values o)).
  assert (Hsorted : StronglySorted byRevenue sorted).
  { apply sort_ordered.
    - intros x y z H1 H2. unfold byRevenue in *. lra.
    - intros x y _ _. unfold JsArray.after, AnalyticsDashboard.byRevenueDesc,
        byRevenue. rewrite after_Fin, after_Fin_false. split; intro H; lra. }
  assert (Hin : forall e, In e sorted <->
                  exists b, soldInWindow b sales /\
                            JsObject.inherited b = false /\
                            e = statsOf sales b).
  { intro e. unfold soldInWindow, statsOf.
    transitivity (In e (JsObject.values o)).
    { split; apply Permutation_in;
        [apply sort_perm|apply Permutation_sym, sort_perm]. }
    unfold JsObject.values. rewrite in_map_iff. split.
    - intros ([b p] & <- & Hp). exists b. cbn [snd].
      apply ownEntries_get in Hp; [|exact Hnd].
      assert (Hkey : In b (map fst o)).
      { apply get_Some_In in Hp. apply in_map_iff. now exists (b, p). }
      apply Hkeys in Hkey. destruct Hkey as (Hsold & Hown).
      split; [exact Hsold|]. split; [exact Hown|].
      exact (Hvals _ _ Hp).
    - intros (b & Hsold & Hown & ->).
      assert (Hb : In b (map fst o)) by (apply Hkeys; now split).
      destruct (JsObject.get b o) as [p|] eqn:Hget.
      + exists (b, p). cbn [snd]. split.
        * exact (Hvals _ _ Hget).
        * now apply ownEntries_get.
      + apply get_None_keys in Hget. contradiction. }
  rewrite <- (firstn_skipn 5 sorted) in Hsorted.
  apply StronglySorted_app_inv in Hsorted.
  destruct Hsorted as (Hfirst & Hcross).
  split; [apply firstn_le_length|]. split; [exact Hfirst|].
  split; [|split].
  - intros e He.
    assert (In e sorted) as Hs.
    { rewrite <- (firstn_skipn 5 sorted). apply in_or_app. now left. }
    apply Hin in Hs. destruct Hs as (b & Hb & _ & ->). now exists b.
  - intros b Hb Hown.
    assert (In (statsOf sales b) sorted) as Hs by (apply Hin; now exists b).
    rewrite <- (firstn_skipn 5 sorted) in Hs. apply in_app_or in Hs.
    destruct Hs as [Hs|Hs]; [now left|right]. split.
    + rewrite length_firstn. apply Nat.min_l.
      destruct (Nat.le_gt_cases 5 (List.length sorted)) as [H|H];
        [exact H|].
      rewrite skipn_all2 in Hs by lia. contradiction.
    + intros e He. exact (Hcross e _ He Hs).
  - intro b. split; [reflexivity|]. apply revenueOfBarcode_sum.
Qed.

Lemma top_products_by_revenue_witness :
  let top := AnalyticsDashboard.topProducts sixSales in
  soldInWindow "f" sixSales /\
  JsObject.inherited "f" = false /\
  (In (statsOf sixSales "f") top \/
   (List.length top = 5%nat /\
    forall e, In e top -> byRevenue e (statsOf sixSales "f"))) /\
  In (statsOf sixSales "a") top /\
  exists b, soldInWindow b sixSales /\ statsOf sixSales "a" = statsOf sixSales b.
Proof.
  cbv zeta.
  assert (Hsold : soldInWindow "f" sixSales)
    by (unfold soldInWindow; cbn; tauto).
  assert (Hown : JsObject.inherited "f" = false) by reflexivity.
  assert (Hin : In (statsOf sixSales "a")
                  (AnalyticsDashboard.topProducts sixSales))
    by (left; reflexivity).
  destruct (top_products_by_revenue sixSales)
    as (_ & _ & Hsound & Hcomplete & _).
  split; [exact Hsold|]. split; [exact Hown|].
  split; [exact (Hcomplete "f" Hsold Hown)|].
  split; [exact Hin|]. exact (Hsound _ Hin).
Defined.

(* ------------------------------------------------------------------ *)
(** ** A completed sale in the totals of its day *)

Section DailyTotalsOfSales.
Variable timeValue : string -> option Z.
Variables startOfDay endOfDay : Z -> Z.

Lemma tally_fold_from (sales : list SaleRecord.t)
    (acc : (PaymentMethod -> PaymentStats.t) * Z) :
  let r := fold_left SaleServiceDates.tally sales acc in
  let r0 := fold_left SaleServiceDates.tally sales
              (fun _ : PaymentMethod => PaymentStats.mk 0 0%Q, 0) in
  snd r = snd acc + snd r0 /\
  forall m,
    PaymentStats.count (fst r m)
    = PaymentStats.count (fst acc m) + PaymentStats.count (fst r0 m) /\
    (PaymentStats.amount (fst r m)
     == PaymentStats.amount (fst acc m) + PaymentStats.amount (fst r0 m))%Q.
Proof.
  cbv zeta. induction sales as [|sale sales IH] using rev_ind.
  - cbn. split; [lia|]. intro m. split; [lia|ring].
  - rewrite !fold_left_app. cbn [fold_left].
    set (A := fold_left SaleServiceDates.tally sales acc) in *.
    set (B := fold_left SaleServiceDates.tally sales
                (fun _ : PaymentMethod => PaymentStats.mk 0 0%Q, 0)) in *.
    destruct IH as (Hs & Hm). unfold SaleServiceDates.tally.
    cbn [fst snd]. split; [rewrite Hs; lia|].
    intro m. destruct (Hm m) as (Hc & Ha).
    destruct (PaymentMethod.eqb m (SaleRecord.paymentMethod sale));
      cbn [PaymentStats.count PaymentStats.amount].
    + split; [rewrite Hc; lia|rewrite Ha; ring].
    + split; assumption.
Qed.

(** What the loop leaves under a payment method depends only on what it
    started with under that method. *)
Lemma tally_fold_at (m : PaymentMethod) (sales : list SaleRecord.t) :
  forall acc acc' : (PaymentMethod -> PaymentStats.t) * Z,
    fst acc m = fst acc' m ->
    fst (fold_left SaleServiceDates.tally sales acc) m
    = fst (fold_left SaleServiceDates.tally sales acc') m.
Proof.
  induction sales as [|sale sales IH]; intros acc acc' H; [exact H|].
  cbn [fold_left]. apply IH. unfold SaleServiceDates.tally. cbn [fst].
  destruct (PaymentMethod.eqb m (SaleRecord.paymentMethod sale));
    [now rewrite H|exact H].
Qed.

Lemma quantities_fold (items : list SaleItem.t) (a : Z) :
  fold_left (fun sum item => sum + SaleItem.quantity item) items a
  = a + sumZ (map SaleItem.quantity items).
Proof.
  revert a. induction items as [|item items IH]; intro a;
    cbn [fold_left map sumZ fold_right]; [lia|].
  rewrite IH. unfold sumZ. lia.
Qed.

(** The sales of a day after a completed sale: the new record comes first
    when its time lies in the day and its store passes the filter, and the
    list is the one before otherwise. *)
Lemma getByDateRange_after_sale (startDate endDate : Z)
    (storeId : option string) (sale : SaleRecord.t) (products : list Product.t)
    (st : Storage.t) :
  let inRange :=
    match timeValue (SaleRecord.timestamp sale) with
    | Some t => (t >=? startDate) && (t <=? endDate)
    | None => false
    end in
  let inStore :=
    match SaleServiceDates.truthy storeId with
    | Some s => String.eqb (SaleRecord.storeId sale) s
    | None => true
    end in
  SaleServiceDates.getByDateRange timeValue startDate endDate storeId
    (Storage.setSales (sale :: Storage.pos_sales st)
       (Storage.setProducts products st))
  = if inRange && inStore
    then sale :: SaleServiceDates.getByDateRange timeValue startDate endDate
                   storeId st
    else SaleServiceDates.getByDateRange timeValue startDate endDate
           storeId st.
Proof.
  cbv zeta. unfold SaleServiceDates.getByDateRange, SaleService.getByStore,
    SaleService.getAll. cbv zeta. cbn [Storage.pos_sales Storage.setSales
    Storage.setProducts].
  destruct (SaleServiceDates.truthy storeId) as [s|]; cbn [filter].
  - destruct (String.eqb (SaleRecord.storeId sale) s); cbn [filter].
    + rewrite andb_true_r.
      now destruct (match timeValue (SaleRecord.timestamp sale) with
                    | Some t => _ | None => false end).
    + now rewrite andb_false_r.
  - rewrite andb_true_r.
    now destruct (match timeValue (SaleRecord.timestamp sale) with
                  | Some t => _ | None => false end).
Qed.

(** After a completed sale, for a day that holds the time of the sale and
    a store filter that the sale passes: the sale is the first of the
    day's sales, the totals count one more sale, the units of its lines
    more items and one more sale under its payment method, and the figures
    of the other payment methods are as before; the totals of any other
    day or store are as before. *)
Theorem sale_enters_daily_totals (env : Env.t) (items : list SaleItem.t)
    (paymentMethod : PaymentMethod) (amountPaid : Q)
    (cashierName storeId storeName : string) (st : Storage.t)
    (date : Z) (filter : option string) :
  let r := SaleService.processSale env items paymentMethod amountPaid
             cashierName storeId storeName st in
  let sale := saleRecordOf env items paymentMethod amountPaid cashierName
                storeId storeName in
  let salesOfDay :=
    SaleServiceDates.getByDateRange timeValue (startOfDay date)
      (endOfDay date) filter in
  let before := SaleServiceDates.getDailyTotals timeValue startOfDay endOfDay
                  date filter st in
  let after := SaleServiceDates.getDailyTotals timeValue startOfDay endOfDay
                 date filter (snd r) in
  let inDay :=
    exists t, timeValue (Env.isoNow env) = Some t /\
              startOfDay date <= t <= endOfDay date in
  let inStore :=
    forall s, SaleServiceDates.truthy filter = Some s -> storeId = s in
  SaleResult.success (fst r) = true ->
  (inDay -> inStore ->
     salesOfDay (snd r) = sale :: salesOfDay st /\
     DailyTotals.totalSales after = DailyTotals.totalSales before + 1 /\
     DailyTotals.totalItems after
     = DailyTotals.totalItems before + sumZ (map SaleItem.quantity items) /\
     PaymentStats.count (DailyTotals.byPaymentMethod after paymentMethod)
     = PaymentStats.count (DailyTotals.byPaymentMethod before paymentMethod)
       + 1 /\
     (forall m, m <> paymentMethod ->
        DailyTotals.byPaymentMethod after m
        = DailyTotals.byPaymentMethod before m))
  /\
  (~ inDay \/ ~ inStore -> salesOfDay (snd r) = salesOfDay st /\ after = before).
Proof.
  cbv zeta. intro Hok.
  destruct (processSale_cases env items paymentMethod amountPaid cashierName
              storeId storeName st)
    as [(Hfail & _)|(_ & _ & _ & _ & Hst)];
    [rewrite Hok in Hfail; discriminate|].
  rewrite Hst. unfold SaleServiceDates.getDailyTotals. cbv zeta.
  rewrite getByDateRange_after_sale.
  set (sale := saleRecordOf env items paymentMethod amountPaid cashierName
                 storeId storeName).
  set (sales := SaleServiceDates.getByDateRange timeValue (startOfDay date)
                  (endOfDay date) filter st).
  assert (Hts : SaleRecord.timestamp sale = Env.isoNow env) by reflexivity.
  assert (Hsid : SaleRecord.storeId sale = storeId) by reflexivity.
  rewrite Hts, Hsid.
  split.
  - intros (t & Ht & Hlo & Hhi) Hstore. rewrite Ht.
    assert ((t >=? startOfDay date) && (t <=? endOfDay date) = true) as ->.
    { apply andb_true_iff. split; [apply Z.geb_le|apply Z.leb_le];
        assumption. }
    assert (match SaleServiceDates.truthy filter with
            | Some s => String.eqb storeId s
            | None => true
            end = true) as ->.
    { destruct (SaleServiceDates.truthy filter) as [s|]; [|reflexivity].
      rewrite (Hstore s eq_refl). apply String.eqb_refl. }
    cbn [andb DailyTotals.totalSales DailyTotals.totalRevenue
         DailyTotals.totalItems DailyTotals.byPaymentMethod List.length
         fold_left].
    destruct (tally_fold_from sales
                (SaleServiceDates.tally
                   (fun _ : PaymentMethod => PaymentStats.mk 0 0%Q, 0) sale))
      as (Hitems & Hby).
    cbv zeta in Hitems, Hby.
    split; [reflexivity|]. split; [lia|]. split.
    { rewrite Hitems. unfold SaleServiceDates.tally at 1. cbn [fst snd].
      rewrite quantities_fold.
      change (SaleRecord.items sale) with items. lia. }
    split.
    + destruct (Hby paymentMethod) as (Hc & _). rewrite Hc.
      unfold SaleServiceDates.tally at 1. cbn [fst].
      change (SaleRecord.paymentMethod sale) with paymentMethod.
      assert (PaymentMethod.eqb paymentMethod paymentMethod = true) as ->
        by now destruct paymentMethod.
      cbn [PaymentStats.count]. lia.
    + intros m Hm. apply tally_fold_at.
      unfold SaleServiceDates.tally. cbn [fst].
      change (SaleRecord.paymentMethod sale) with paymentMethod.
      assert (PaymentMethod.eqb m paymentMethod = false) as ->
        by (destruct m, paymentMethod; try reflexivity; congruence).
      reflexivity.
  - intros Hout.
    assert (match timeValue (Env.isoNow env) with
            | Some t => (t >=? startOfDay date) && (t <=? endOfDay date)
            | None => false
            end
            && match SaleServiceDates.truthy filter with
               | Some s => String.eqb storeId s
               | None => true
               end = false) as ->; [|split; reflexivity].
    apply not_true_is_false. intro H. apply andb_true_iff in H.
    destruct H as (Hday & Hstore). destruct Hout as [Hout|Hout]; apply Hout.
    + destruct (timeValue (Env.isoNow env)) as [t|]; [|discriminate].
      exists t. split; [reflexivity|]. apply andb_true_iff in Hday.
      destruct Hday as (Hlo & Hhi). apply Z.geb_le in Hlo.
      apply Z.leb_le in Hhi. lia.
    + intros s Hs. rewrite Hs in Hstore. now apply String.eqb_eq in Hstore.
Qed.

End DailyTotalsOfSales.

Lemma sale_enters_daily_totals_witness :
  let timeValue := fun _ : string => Some 1762041600000 in
  let startOfDay := fun d : Z => d - d mod 86400000 in
  let endOfDay := fun d : Z => d - d mod 86400000 + 86399999 in
  let r := SaleService.processSale env0 cartLines cash 30%Q "alice"
             "store-001" "Main Store" storageTwo in
  let after := SaleServiceDates.getDailyTotals timeValue startOfDay endOfDay
                 1762041600000 None (snd r) in
  SaleResult.success (fst r) = true /\
  DailyTotals.totalSales after = 0 + 1 /\
  DailyTotals.totalItems after = 0 + 3 /\
  PaymentStats.count (DailyTotals.byPaymentMethod after cash) = 0 + 1 /\
  DailyTotals.byPaymentMethod after card = PaymentStats.mk 0 0%Q.
Proof.
  cbv zeta.
  assert (Hok : SaleResult.success
                  (fst (SaleService.processSale env0 cartLines cash 30%Q
                          "alice" "store-001" "Main Store" storageTwo))
                = true) by (vm_compute; reflexivity).
  split; [exact Hok|].
  destruct (sale_enters_daily_totals
              (fun _ : string => Some 1762041600000)
              (fun d : Z => d - d mod 86400000)
              (fun d : Z => d - d mod 86400000 + 86399999)
              env0 cartLines cash 30%Q "alice" "store-001"
              "Main Store" storageTwo 1762041600000 None Hok)
    as (Hin & _).
  destruct Hin as (_ & Hsales & Hitems & Hcash & Hother).
  - exists 1762041600000. split; [reflexivity|]. vm_compute.
    split; discriminate.
  - intros s Hs. discriminate Hs.
  - split; [exact Hsales|]. split; [exact Hitems|]. split; [exact Hcash|].
    apply (Hother card). discriminate.
Defined.

Lemma add_contract_witness :
  let gizmo := Product.mk "789" "Gizmo" 4%Q 2 Other in
  let r := ProductService.add gizmo storage123 in
  ProductService.findByBarcode "789" storage123 = None /\
  (0 < 4)%Q /\ 0 <= 2 /\
  fst r = Result.ok /\
  Storage.pos_products (snd r) = [product123; gizmo] /\
  fst (ProductService.add product123 storage123)
  = Result.fail "Barcode already exists".
Proof.
  cbv zeta.
  assert (Hnew : ProductService.findByBarcode "789" storage123 = None)
    by reflexivity.
  assert (Hp : (0 < 4)%Q) by reflexivity.
  assert (Hs : 0 <= 2) by lia.
  assert (Hold : ProductService.findByBarcode "123" storage123 <> None)
    by discriminate.
  destruct (add_contract (Product.mk "789" "Gizmo" 4%Q 2 Other) storage123)
    as (_ & _ & _ & Hok).
  destruct (Hok Hnew Hp Hs) as (Hr & Hl & _).
  destruct (add_contract product123 storage123) as (Hdup & _).
  destruct (Hdup Hold) as (Hfail & _).
  split; [exact Hnew|]. split; [exact Hp|]. split; [exact Hs|].
  split; [exact Hr|]. split; [exact Hl|exact Hfail].
Defined.

Lemma update_contract_witness :
  let updates := ProductUpdates.mk None (Some 12%Q) (Some 7) None in
  let r := ProductService.update "123" updates storage123 in
  ProductService.findByBarcode "123" storage123 = Some product123 /\
  fst r = Result.ok /\
  ProductService.findByBarcode "123" (snd r)
  = Some (Product.mk "123" "Widget" 12%Q 7 Other).
Proof.
  cbv zeta.
  assert (Hf : ProductService.findByBarcode "123" storage123
               = Some product123) by reflexivity.
  assert (Hp : forall v, Some 12%Q = Some v -> (0 < v)%Q)
    by (intros v E; inversion E; reflexivity).
  assert (Hs : forall v, Some 7 = Some v -> 0 <= v)
    by (intros v E; inversion E; lia).
  destruct (update_contract "123"
              (ProductUpdates.mk None (Some 12%Q) (Some 7) None) storage123)
    as (_ & _ & _ & Hok).
  destruct (Hok product123 Hf Hp Hs) as (Hr & _ & _ & Hfound & _).
  split; [exact Hf|]. split; [exact Hr|exact Hfound].
Defined.

Lemma delete_contract_witness :
  let r := ProductService.delete "123" storage123 in
  ProductService.findByBarcode "123" storage123 <> None /\
  fst r = Result.ok /\
  ProductService.findByBarcode "123" (snd r) = None /\
  fst (ProductService.delete "999" storage123)
  = Result.fail "Product not found".
Proof.
  cbv zeta.
  assert (Hf : ProductService.findByBarcode "123" storage123 <> None)
    by discriminate.
  assert (Hn : ProductService.findByBarcode "999" storage123 = None)
    by reflexivity.
  destruct (delete_contract "123" storage123) as (_ & Hok).
  destruct (Hok Hf) as (Hr & Hgone & _).
  destruct (delete_contract "999" storage123) as (Hno & _).
  destruct (Hno Hn) as (Hfail & _).
  split; [exact Hf|]. split; [exact Hr|]. split; [exact Hgone|exact Hfail].
Defined.

(* ------------------------------------------------------------------ *)
(** ** Transfers initiated by a store *)

Lemma initiated_updateAt (storeId : string)
    (g : StockTransfer.t -> StockTransfer.t) (l : list StockTransfer.t) :
  (forall x, StockTransfer.fromStoreId (g x) = StockTransfer.fromStoreId x) ->
  (forall x, requestData (g x) = requestData x) ->
  forall i,
    map requestData
      (filter (fun x => String.eqb (StockTransfer.fromStoreId x) storeId)
         (Js.updateAt i g l))
    = map requestData
        (filter (fun x => String.eqb (StockTransfer.fromStoreId x) storeId)
           l).
Proof.
  intros Hfrom Hdata. induction l as [|x l IH]; intros [|i];
    cbn [Js.updateAt filter]; try reflexivity.
  - rewrite Hfrom.
    destruct (String.eqb (StockTransfer.fromStoreId x) storeId);
      cbn [map]; [now rewrite Hdata|reflexivity].
  - destruct (String.eqb (StockTransfer.fromStoreId x) storeId);
      cbn [map]; now rewrite IH.
Qed.

(** The list of transfers a store initiated keeps its history: [create]
    appends the new transfer to the list of its source store and to no
    other; [complete] and [cancel], accepted or refused, drop no transfer
    from the list of any store, reorder none, and change none in its id,
    stores, product, quantity, requester or creation time. *)
Theorem initiated_list_keeps_history (env : Env.t) (storeId : string)
    (st : Storage.t) :
  (forall transfer,
     exists newTransfer,
       Storage.pos_stock_transfers
         (snd (StockTransferService.create env transfer st))
       = (Storage.pos_stock_transfers st ++ [newTransfer])%list /\
       StockTransferService.getInitiatedByStore storeId
         (snd (StockTransferService.create env transfer st))
       = (StockTransferService.getInitiatedByStore storeId st
          ++ (if String.eqb (TransferRequest.fromStoreId transfer) storeId
              then [newTransfer] else []))%list) /\
  (forall transferId,
     map requestData
       (StockTransferService.getInitiatedByStore storeId
          (snd (StockTransferService.complete env transferId st)))
     = map requestData (StockTransferService.getInitiatedByStore storeId st)
     /\
     map requestData
       (StockTransferService.getInitiatedByStore storeId
          (snd (StockTransferService.cancel transferId st)))
     = map requestData (StockTransferService.getInitiatedByStore storeId st)).
Proof.
  split.
  - intro transfer. unfold StockTransferService.create. cbv zeta.
    cbn [snd]. eexists. split.
    + reflexivity.
    + unfold StockTransferService.getInitiatedByStore,
        StockTransferService.getAll.
      cbn [Storage.pos_stock_transfers Storage.setStockTransfers].
      rewrite filter_app. cbn [filter StockTransfer.fromStoreId].
      reflexivity.
  - intro transferId.
    unfold StockTransferService.complete, StockTransferService.cancel.
    cbv zeta.
    destruct (Js.findIndex (StockTransferService.hasId transferId)
                (StockTransferService.getAll st)) as [index|];
      [|split; reflexivity].
    destruct (nth_error (StockTransferService.getAll st) index) as [found|];
      [|split; reflexivity].
    destruct (negb (TransferStatus.eqb (StockTransfer.status found) pending));
      [split; reflexivity|].
    cbn [snd]. unfold StockTransferService.getInitiatedByStore,
      StockTransferService.getAll.
    cbn [Storage.pos_stock_transfers Storage.setStockTransfers].
    split; apply initiated_updateAt; intro x; reflexivity.
Qed.

(* ------------------------------------------------------------------ *)
(** ** Daily totals in double precision *)

Section DailyTotalsDouble.
Variable timeValue : string -> option Z.
Variables startOfDay endOfDay : Z -> Z.

(** Every sale is paid by exactly one of the three methods. *)
Lemma paidBy_partition (sales : list Double.SaleRecord.t) :
  Permutation sales
    (paidBy cash sales ++ paidBy mobile_money sales ++ paidBy card sales)%list.
Proof.
  induction sales as [|sale sales IH]; [constructor|].
  unfold paidBy in *. cbn [filter].
  destruct (Double.SaleRecord.paymentMethod sale); cbn [PaymentMethod.eqb].
  - cbn [app]. now constructor.
  - apply Permutation_cons_app. exact IH.
  - rewrite app_assoc. apply Permutation_cons_app.
    rewrite <- app_assoc. exact IH.
Qed.

(** What the loop leaves under a payment method: the sales paid by it are
    counted, and their totals are added in the order of the list. *)
Lemma tally_by_method (m : PaymentMethod) (sales : list Double.SaleRecord.t) :
  forall acc,
    let r := fold_left Double.SaleService.tally sales acc in
    Double.PaymentStats.count (fst r m)
    = Double.PaymentStats.count (fst acc m)
      + Z.of_nat (List.length (paidBy m sales)) /\
    Double.PaymentStats.amount (fst r m)
    = fold_left PrimFloat.add (map Double.SaleRecord.total (paidBy m sales))
        (Double.PaymentStats.amount (fst acc m)).
Proof.
  induction sales as [|sale sales IH]; intro acc; cbv zeta.
  - cbn. split; [lia|reflexivity].
  - cbn [fold_left]. destruct (IH (Double.SaleService.tally acc sale))
      as (IHc & IHa). cbv zeta in IHc, IHa. rewrite IHc, IHa.
    unfold Double.SaleService.tally. cbn [fst].
    unfold paidBy. cbn [filter].
    destruct (PaymentMethod.eqb m (Double.SaleRecord.paymentMethod sale));
      cbn [List.length map fold_left Double.PaymentStats.count
           Double.PaymentStats.amount]; split; try reflexivity; lia.
Qed.

(** C10 (daily totals), as the code has it.  The number of sales is the
    sum of the counts of the three payment methods, the count of a method
    being the number of the day's sales paid by it.  The revenue is the sum
    of the totals of the day's sales, and the amount of a method the sum of
    the totals of the day's sales paid by it, each added from 0 in the
    order of the ledger in double precision; the day's sales are those of
    the three methods together, each sale under one method.  When all
    sales of the day are paid by one method, its amount is the revenue. *)
Theorem daily_totals_add_the_same_sales (date : Z) (storeId : option string)
    (pos_sales : list Double.SaleRecord.t) :
  let r := Double.SaleService.getDailyTotals timeValue startOfDay endOfDay
             date storeId pos_sales in
  let day := Double.SaleService.getByDateRange timeValue (startOfDay date)
               (endOfDay date) storeId pos_sales in
  let by_ := Double.DailyTotals.byPaymentMethod r in
  Double.DailyTotals.totalSales r
  = Double.PaymentStats.count (by_ cash)
    + Double.PaymentStats.count (by_ mobile_money)
    + Double.PaymentStats.count (by_ card) /\
  (forall m,
     Double.PaymentStats.count (by_ m)
     = Z.of_nat (List.length (paidBy m day)) /\
     Double.PaymentStats.amount (by_ m)
     = sumDoubles (map Double.SaleRecord.total (paidBy m day))) /\
  Double.DailyTotals.totalRevenue r
  = sumDoubles (map Double.SaleRecord.total day) /\
  Permutation day
    (paidBy cash day ++ paidBy mobile_money day ++ paidBy card day)%list /\
  (forall m,
     (forall sale, In sale day -> Double.SaleRecord.paymentMethod sale = m) ->
     Double.PaymentStats.amount (by_ m) = Double.DailyTotals.totalRevenue r).
Proof.
  unfold Double.SaleService.getDailyTotals. cbv zeta.
  cbn [Double.DailyTotals.totalSales Double.DailyTotals.totalRevenue
       Double.DailyTotals.byPaymentMethod].
  set (day := Double.SaleService.getByDateRange _ _ _ _ _).
  assert (Hby : forall m,
            Double.PaymentStats.count
              (fst (fold_left Double.SaleService.tally day
                      (fun _ : PaymentMethod =>
                         Double.PaymentStats.mk 0 0%float, 0)) m)
            = Z.of_nat (List.length (paidBy m day)) /\
            Double.PaymentStats.amount
              (fst (fold_left Double.SaleService.tally day
                      (fun _ : PaymentMethod =>
                         Double.PaymentStats.mk 0 0%float, 0)) m)
            = sumDoubles (map Double.SaleRecord.total (paidBy m day))).
  { intro m.
    destruct (tally_by_method m day
                (fun _ : PaymentMethod => Double.PaymentStats.mk 0 0%float, 0))
      as (Hc & Ha).
    cbv zeta in Hc, Ha. cbn [fst Double.PaymentStats.count
      Double.PaymentStats.amount] in Hc, Ha.
    split; [rewrite Hc; lia|exact Ha]. }
  pose proof (paidBy_partition day) as Hperm.
  assert (Hrev : fold_left
                   (fun sum sale =>
                      PrimFloat.add sum (Double.SaleRecord.total sale))
                   day 0%float
                 = sumDoubles (map Double.SaleRecord.total day)).
  { unfold sumDoubles. now rewrite fold_left_map_fuse. }
  split; [|split; [exact Hby|split; [exact Hrev|split; [exact Hperm|]]]].
  - rewrite (proj1 (Hby cash)), (proj1 (Hby mobile_money)),
      (proj1 (Hby card)).
    rewrite (Permutation_length Hperm) at 1. rewrite !length_app. lia.
  - intros m Hall. rewrite (proj2 (Hby m)), Hrev. f_equal. f_equal.
    unfold paidBy. clear - Hall.
    induction day as [|sale day IH]; [reflexivity|]. cbn [filter].
    rewrite (Hall sale (or_introl eq_refl)).
    assert (PaymentMethod.eqb m m = true) as -> by now destruct m.
    f_equal. apply IH. intros x Hx. apply Hall. now right.
Qed.

End DailyTotalsDouble.

#[local] Set Warnings "-inexact-float".
Lemma daily_totals_add_the_same_sales_witness :
  let day := [doubleSale cash 29.99%float; doubleSale cash 149.99%float] in
  let r := Double.SaleService.getDailyTotals (fun _ => Some 0) (fun d => d)
             (fun d => d) 0 None day in
  (forall sale,
     In sale
       (Double.SaleService.getByDateRange (fun _ => Some 0) 0 0 None day) ->
     Double.SaleRecord.paymentMethod sale = cash) /\
  Double.PaymentStats.amount (Double.DailyTotals.byPaymentMethod r cash)
  = Double.DailyTotals.totalRevenue r /\
  Double.DailyTotals.totalRevenue r = 179.98000000000002%float.
Proof.
  cbv zeta.
  assert (Hall : forall sale,
            In sale
              (Double.SaleService.getByDateRange (fun _ => Some 0) 0 0 None
                 [doubleSale cash 29.99%float; doubleSale cash 149.99%float])
            -> Double.SaleRecord.paymentMethod sale = cash).
  { intros sale [<-|[<-|[]]]; reflexivity. }
  split; [exact Hall|]. split; [|reflexivity].
  destruct (daily_totals_add_the_same_sales (fun _ => Some 0) (fun d => d)
              (fun d => d) 0 None
              [doubleSale cash 29.99%float; doubleSale cash 149.99%float])
    as (_ & _ & _ & _ & Hone).
  exact (Hone cash Hall).
Defined.

(** C10 (daily totals), the claim as stated fails: for a day with sales of
    29.99 in cash, 29.99 by card and 149.99 in cash the revenue is 209.97,
    the amounts are 179.98000000000002 in cash, 0 by mobile money and 29.99
    by card, and their sum is 209.97000000000003 in whatever order the
    three are added; the number of sales is the sum of the counts. *)
Lemma daily_revenue_differs_from_method_amounts :
  let r := Double.SaleService.getDailyTotals (fun _ => Some 0) (fun d => d)
             (fun d => d) 0 None threeDoubleSales in
  let amount m :=
    Double.PaymentStats.amount (Double.DailyTotals.byPaymentMethod r m) in
  let count m :=
    Double.PaymentStats.count (Double.DailyTotals.byPaymentMethod r m) in
  let revenue := Double.DailyTotals.totalRevenue r in
  Double.DailyTotals.totalSales r = 3 /\
  count cash = 2 /\ count mobile_money = 0 /\ count card = 1 /\
  revenue = 209.97%float /\
  amount cash = 179.98000000000002%float /\
  amount mobile_money = 0%float /\
  amount card = 29.99%float /\
  PrimFloat.add (PrimFloat.add (amount cash) (amount mobile_money))
    (amount card) = 209.97000000000003%float /\
  PrimFloat.add (PrimFloat.add (amount cash) (amount card))
    (amount mobile_money) = 209.97000000000003%float /\
  PrimFloat.add (PrimFloat.add (amount mobile_money) (amount card))
    (amount cash) = 209.97000000000003%float /\
  PrimFloat.eqb revenue
    (PrimFloat.add (PrimFloat.add (amount cash) (amount mobile_money))
       (amount card)) = false /\
  revenue
  <> PrimFloat.add (PrimFloat.add (amount cash) (amount mobile_money))
       (amount card).
Proof.
  cbv zeta. repeat (split; [reflexivity|]).
  intro H.
  assert (E : PrimFloat.eqb
                (Double.DailyTotals.totalRevenue
                   (Double.SaleService.getDailyTotals (fun _ => Some 0)
                      (fun d => d) (fun d => d) 0 None threeDoubleSales))
                (Double.DailyTotals.totalRevenue
                   (Double.SaleService.getDailyTotals (fun _ => Some 0)
                      (fun d => d) (fun d => d) 0 None threeDoubleSales))
              = true) by reflexivity.
  rewrite H in E at 2. vm_compute in E. discriminate E.
Qed.
#[local] Set Warnings "inexact-float".
